(** * Savoo: the multi-currency accounting core of [backend/savoo_api.py]

    A shallow embedding of the exchange-rate refresh, the conversion
    service, the budget aggregation with its notification check, and the
    savings-goal triggers, followed by the properties of the specification
    that concern them; then of the calendar helpers, the validators, the
    resolution of accounts and the seeding of default categories (the
    latter also in [backend/seed_defaults_once.py]), with properties read
    off the code.

    Python [float] and SQLite [REAL] are both IEEE 754 binary64, so amounts
    and rates are Rocq's primitive floats.  Functions that touch the
    database, the cache file, the clock or the network are written in a
    small state-and-exception monad over the record [world]. *)

From Stdlib Require Import ZArith List String Ascii Bool Floats Lia Sorted.
Import ListNotations.
Local Open Scope Z_scope.

(* ===================================================================== *)
(** ** Python values *)
(* ===================================================================== *)

(** The exception classes the modelled code can meet. *)
Inductive exn :=
| OSError | JSONDecodeError | UnicodeDecodeError | ValueError | TypeError
| AttributeError | KeyError | IndexError | RequestException
| ZeroDivisionError | IntegrityError | InterfaceError.

(** [except ValueError]: the class and its subclasses. *)
Definition is_ValueError (e : exn) : bool :=
  match e with
  | ValueError | JSONDecodeError | UnicodeDecodeError => true
  | _ => false
  end.

(** [except (TypeError, ValueError)]. *)
Definition is_TypeError_or_ValueError (e : exn) : bool :=
  match e with
  | TypeError => true
  | _ => is_ValueError e
  end.

(** [except (OSError, json.JSONDecodeError)]. *)
Definition is_OSError_or_JSONDecodeError (e : exn) : bool :=
  match e with
  | OSError | JSONDecodeError => true
  | _ => false
  end.

(** What [json.load] and [response.json()] produce.  A number is kept by the
    binary64 value that [float()] gives it; [None] is [JNull]. *)
#[warnings="-register-all"] Inductive json :=
| JNull
| JBool (b : bool)
| JNum (f : float)
| JStr (s : string)
| JList (l : list json)
| JDict (d : list (string * json)).

(** [bool(x)]. *)
Definition truthy (v : json) : bool :=
  match v with
  | JNull => false
  | JBool b => b
  | JNum f => negb (f =? 0)%float
  | JStr s => negb (s =? "")%string
  | JList l => match l with [] => false | _ => true end
  | JDict d => match d with [] => false | _ => true end
  end.

(** [x or y]. *)
Definition py_or (x y : json) : json := if truthy x then x else y.

Fixpoint assoc {A : Type} (k : string) (d : list (string * A)) : option A :=
  match d with
  | [] => None
  | (k', v) :: d' => if (k' =? k)%string then Some v else assoc k d'
  end.

(** [d.get(k)] on a dict whose values are JSON. *)
Definition dict_get (k : string) (d : list (string * json)) : json :=
  match assoc k d with
  | Some v => v
  | None => JNull
  end.

(** [d[k] = v] on an insertion-ordered dict: an existing key keeps its
    place and takes the new value, a new key goes last. *)
Fixpoint dict_set {A : Type} (d : list (string * A)) (k : string) (v : A)
  : list (string * A) :=
  match d with
  | [] => [(k, v)]
  | (k', v') :: d' =>
      if (k' =? k)%string then (k', v) :: d' else (k', v') :: dict_set d' k v
  end.

(** *** Strings

    Text is ASCII, on which [upper], [strip] and [isspace] act as follows. *)

Definition upper_char (c : ascii) : ascii :=
  let n := nat_of_ascii c in
  if (Nat.leb 97 n && Nat.leb n 122)%bool then ascii_of_nat (n - 32) else c.

(** [s.upper()]. *)
Fixpoint upper (s : string) : string :=
  match s with
  | EmptyString => EmptyString
  | String c s' => String (upper_char c) (upper s')
  end.

(** [c.isspace()] on ASCII: tab to carriage return, the four separators
    and the blank. *)
Definition is_space (c : ascii) : bool :=
  let n := nat_of_ascii c in
  ((Nat.leb 9 n && Nat.leb n 13) || (Nat.leb 28 n && Nat.leb n 32))%bool.

Fixpoint lstrip (s : string) : string :=
  match s with
  | EmptyString => EmptyString
  | String c s' => if is_space c then lstrip s' else s
  end.

Fixpoint rstrip (s : string) : string :=
  match s with
  | EmptyString => EmptyString
  | String c s' =>
      let r := rstrip s' in
      if (is_space c && (r =? "")%string)%bool then EmptyString else String c r
  end.

(** [s.strip()]. *)
Definition strip (s : string) : string := rstrip (lstrip s).

(** [bool(s)] for [Optional[str]]. *)
Definition str_truthy (s : option string) : bool :=
  match s with
  | Some s => negb (s =? "")%string
  | None => false
  end.

(** [s or d] for [Optional[str]] with a [str] default. *)
Definition str_or (s : option string) (d : string) : string :=
  match s with
  | Some s => if (s =? "")%string then d else s
  | None => d
  end.

(** *** Floats *)

(** [float(x or 0)] for a nullable REAL read from a row: [None] and both
    zeros give [0.0]. *)
Definition float_or_zero (x : option float) : float :=
  match x with
  | Some f => if (f =? 0)%float then 0%float else f
  | None => 0%float
  end.

(** [x / y] on Python floats. *)
Definition py_div (x y : float) : exn + float :=
  if (y =? 0)%float then inl ZeroDivisionError else inr (x / y)%float.

(** *** Dates and times *)

Definition us_per_second : Z := 1000000.
Definition us_per_day : Z := 86400 * us_per_second.

(** A [datetime]: days since 1970-01-01, microseconds into the day, and
    the UTC offset of an aware value ([None] for a naive one). *)
Record datetime := {
  dt_day : Z;
  dt_us : Z;
  dt_utcoffset : option Z
}.

(** The naive datetime of an instant counted in microseconds. *)
Definition datetime_of_us (t : Z) : datetime :=
  {| dt_day := t / us_per_day; dt_us := t mod us_per_day; dt_utcoffset := None |}.

(** [a - b] as microseconds; a naive and an aware value do not subtract. *)
Definition datetime_sub (a b : datetime) : exn + Z :=
  match dt_utcoffset a, dt_utcoffset b with
  | None, None => inr ((dt_day a - dt_day b) * us_per_day + (dt_us a - dt_us b))
  | Some oa, Some ob =>
      inr ((dt_day a - dt_day b) * us_per_day + (dt_us a - dt_us b) - (oa - ob))
  | _, _ => inl TypeError
  end.

(** Year, month and day of a day number (proleptic Gregorian calendar). *)
Definition civil_of_days (days : Z) : Z * Z * Z :=
  let z := days + 719468 in
  let era := z / 146097 in
  let doe := z - era * 146097 in
  let yoe := (doe - doe / 1460 + doe / 36524 - doe / 146096) / 365 in
  let doy := doe - (365 * yoe + yoe / 4 - yoe / 100) in
  let mp := (5 * doy + 2) / 153 in
  let d := doy - (153 * mp + 2) / 5 + 1 in
  let m := if mp <? 10 then mp + 3 else mp - 9 in
  let y := yoe + era * 400 + (if m <=? 2 then 1 else 0) in
  (y, m, d).

Definition digit (n : Z) : ascii := ascii_of_nat (48 + Z.to_nat (n mod 10)).

Definition digits2 (n : Z) : string :=
  String (digit (n / 10)) (String (digit n) EmptyString).

Definition digits4 (n : Z) : string :=
  String (digit (n / 1000)) (String (digit (n / 100)) (digits2 n)).

Definition digits6 (n : Z) : string :=
  String (digit (n / 100000)) (String (digit (n / 10000)) (digits4 n)).

(** [date.isoformat()]: YYYY-MM-DD, for the years 1 to 9999 of a
    [date]. *)
Definition date_isoformat (days : Z) : string :=
  let '(y, m, d) := civil_of_days days in
  (digits4 y ++ "-" ++ digits2 m ++ "-" ++ digits2 d)%string.

(** [datetime.isoformat()] of a naive value: the date, [T], the time, and
    the microseconds when they are not zero. *)
Definition datetime_isoformat (t : datetime) : string :=
  let s := dt_us t / us_per_second in
  let f := dt_us t mod us_per_second in
  (date_isoformat (dt_day t) ++ "T" ++ digits2 (s / 3600) ++ ":"
   ++ digits2 (s / 60 mod 60) ++ ":" ++ digits2 (s mod 60)
   ++ (if Z.eqb f 0 then "" else "." ++ digits6 f))%string.

(** The library functions that parse text: [float(s)] on a string and
    [datetime.fromisoformat(s)]; [None] is their [ValueError]. *)
Class PyLib := {
  float_of_str : string -> option float;
  fromisoformat : string -> option datetime
}.

(** [float(value)] on a JSON value; [None] when it raises ([ValueError] on
    text that is not a number, [TypeError] on the other values). *)
Definition py_float `{PyLib} (v : json) : option float :=
  match v with
  | JNum f => Some f
  | JBool b => Some (if b then 1 else 0)%float
  | JStr s => float_of_str s
  | JNull | JList _ | JDict _ => None
  end.

(* ===================================================================== *)
(** ** The world: database tables, cache file, network, clock and log *)
(* ===================================================================== *)

(** Table [currency_rates]; [fetched_at] holds the value that was bound to
    the column. *)
Record rate_row := {
  currency_code : string;
  rate_to_pln : float;
  fetched_at : json
}.

(** Table [users], the columns the core reads. *)
Record user_row := {
  u_id : Z;
  default_currency : option string
}.

(** Table [budgets]. *)
Record budget_row := {
  b_id : Z;
  b_user_id : Z;
  b_category_id : option Z;
  b_name : string;
  b_limit_amount : float;
  b_budget_type : option string;
  b_start_date : option string;
  b_end_date : option string;
  b_last_notified_at : option string
}.

(** Table [transactions]. *)
Record transaction_row := {
  t_id : Z;
  t_user_id : Z;
  t_category_id : option Z;
  t_type : string;
  t_amount : float;
  t_currency : option string;
  t_converted_amount : option float;
  t_budget_id : option Z;
  t_occurred_on : string
}.

(** Table [savings_goals]; [current_amount] is a nullable REAL. *)
Record goal_row := {
  g_id : Z;
  g_user_id : Z;
  g_name : string;
  g_target_amount : float;
  g_current_amount : option float
}.

(** Table [savings_goal_contributions]. *)
Record contribution_row := {
  c_id : Z;
  c_goal_id : Z;
  c_amount : float
}.

(** What is found at [CURRENCY_CACHE_PATH] when it exists. *)
Inductive file_state :=
| Unreadable               (* [open] fails *)
| NotUtf8                  (* the bytes do not decode *)
| NotJson                  (* the text is not JSON *)
| JsonText (v : json).

(** What one [requests.get(NBP_API_URL, timeout=5)] meets. *)
Inductive http_outcome :=
| ConnectionFailed                               (* no route, timeout *)
| Response (status : Z) (body : option json).    (* [None]: body is not JSON *)

Record http_reply := {
  latency : Z;
  outcome : http_outcome
}.

(** The records the logger receives. *)
Inductive log_record :=
| RatesFetchFailed (e : exn)
| CacheWriteFailed
| BudgetOverLimit (name : string) (spent limit : float)
| BudgetThreshold (name : string) (utilization remaining : float).

Record world := {
  clock : Z;                          (* microseconds since the epoch, UTC *)
  tz_offset : Z;                      (* local time minus UTC, microseconds *)
  cache_file : option file_state;     (* [None]: the path does not exist *)
  cache_writable : bool;
  http : list http_reply;             (* the replies the next requests get *)
  currency_rates : list rate_row;
  users : list user_row;
  budgets_table : list budget_row;
  transactions_table : list transaction_row;
  savings_goals_table : list goal_row;
  savings_goal_contributions : list contribution_row;
  log : list log_record
}.

Definition set_clock (t : Z) (w : world) : world :=
  {| clock := t; tz_offset := tz_offset w; cache_file := cache_file w;
     cache_writable := cache_writable w; http := http w;
     currency_rates := currency_rates w; users := users w;
     budgets_table := budgets_table w;
     transactions_table := transactions_table w;
     savings_goals_table := savings_goals_table w;
     savings_goal_contributions := savings_goal_contributions w;
     log := log w |}.

Definition set_cache_file (f : option file_state) (w : world) : world :=
  {| clock := clock w; tz_offset := tz_offset w; cache_file := f;
     cache_writable := cache_writable w; http := http w;
     currency_rates := currency_rates w; users := users w;
     budgets_table := budgets_table w;
     transactions_table := transactions_table w;
     savings_goals_table := savings_goals_table w;
     savings_goal_contributions := savings_goal_contributions w;
     log := log w |}.

Definition set_http (h : list http_reply) (w : world) : world :=
  {| clock := clock w; tz_offset := tz_offset w; cache_file := cache_file w;
     cache_writable := cache_writable w; http := h;
     currency_rates := currency_rates w; users := users w;
     budgets_table := budgets_table w;
     transactions_table := transactions_table w;
     savings_goals_table := savings_goals_table w;
     savings_goal_contributions := savings_goal_contributions w;
     log := log w |}.

Definition set_currency_rates (r : list rate_row) (w : world) : world :=
  {| clock := clock w; tz_offset := tz_offset w; cache_file := cache_file w;
     cache_writable := cache_writable w; http := http w;
     currency_rates := r; users := users w;
     budgets_table := budgets_table w;
     transactions_table := transactions_table w;
     savings_goals_table := savings_goals_table w;
     savings_goal_contributions := savings_goal_contributions w;
     log := log w |}.

Definition set_budgets_table (b : list budget_row) (w : world) : world :=
  {| clock := clock w; tz_offset := tz_offset w; cache_file := cache_file w;
     cache_writable := cache_writable w; http := http w;
     currency_rates := currency_rates w; users := users w;
     budgets_table := b;
     transactions_table := transactions_table w;
     savings_goals_table := savings_goals_table w;
     savings_goal_contributions := savings_goal_contributions w;
     log := log w |}.

Definition set_savings_goals_table (g : list goal_row) (w : world) : world :=
  {| clock := clock w; tz_offset := tz_offset w; cache_file := cache_file w;
     cache_writable := cache_writable w; http := http w;
     currency_rates := currency_rates w; users := users w;
     budgets_table := budgets_table w;
     transactions_table := transactions_table w;
     savings_goals_table := g;
     savings_goal_contributions := savings_goal_contributions w;
     log := log w |}.

Definition set_savings_goal_contributions (c : list contribution_row)
  (w : world) : world :=
  {| clock := clock w; tz_offset := tz_offset w; cache_file := cache_file w;
     cache_writable := cache_writable w; http := http w;
     currency_rates := currency_rates w; users := users w;
     budgets_table := budgets_table w;
     transactions_table := transactions_table w;
     savings_goals_table := savings_goals_table w;
     savings_goal_contributions := c;
     log := log w |}.

Definition set_log (l : list log_record) (w : world) : world :=
  {| clock := clock w; tz_offset := tz_offset w; cache_file := cache_file w;
     cache_writable := cache_writable w; http := http w;
     currency_rates := currency_rates w; users := users w;
     budgets_table := budgets_table w;
     transactions_table := transactions_table w;
     savings_goals_table := savings_goals_table w;
     savings_goal_contributions := savings_goal_contributions w;
     log := l |}.

(* ===================================================================== *)
(** ** Computations: state and exceptions *)
(* ===================================================================== *)

(** A call either returns a value or raises; the effects it had on the
    world remain in both cases. *)
Inductive res (A : Type) :=
| Ret (a : A)
| Raise (e : exn).
Arguments Ret {A} a.
Arguments Raise {A} e.

Definition py (A : Type) : Type := world -> res A * world.

Definition ret {A} (a : A) : py A := fun w => (Ret a, w).

Definition raise {A} (e : exn) : py A := fun w => (Raise e, w).

Definition bind {A B} (c : py A) (k : A -> py B) : py B :=
  fun w =>
    match c w with
    | (Ret a, w') => k a w'
    | (Raise e, w') => (Raise e, w')
    end.

Declare Scope py_scope.
Delimit Scope py_scope with py.
Notation "x <- c ;; k" := (bind c (fun x => k))
  (at level 61, c at next level, right associativity) : py_scope.
Notation "c ;;; k" := (bind c (fun _ => k))
  (at level 61, right associativity) : py_scope.
Local Open Scope py_scope.

(** [try: c  except <classes>: h]. *)
Definition try_except {A} (c : py A) (catches : exn -> bool) (h : exn -> py A)
  : py A :=
  fun w =>
    match c w with
    | (Raise e, w') => if catches e then h e w' else (Raise e, w')
    | r => r
    end.

Definition gets {A} (f : world -> A) : py A := fun w => (Ret (f w), w).

Definition modify (f : world -> world) : py unit := fun w => (Ret tt, f w).

(** A pure step that may raise. *)
Definition lift {A} (r : exn + A) : py A :=
  match r with
  | inl e => raise e
  | inr a => ret a
  end.

(** [logger.warning(...)] and [logger.info(...)]. *)
Definition log_emit (r : log_record) : py unit :=
  modify (fun w => set_log (log w ++ [r]) w).

(** [datetime.utcnow()]. *)
Definition utcnow : py datetime := gets (fun w => datetime_of_us (clock w)).

(** [date.today()]: the day number of the local date. *)
Definition today : py Z := gets (fun w => (clock w + tz_offset w) / us_per_day).

(* ===================================================================== *)
(** ** Exchange rates: [_store_currency_rates], [ensure_currency_rates] *)
(* ===================================================================== *)

Definition BASE_CURRENCY : string := "PLN".

(** [CURRENCY_CACHE_TTL = timedelta(hours=24)]. *)
Definition CURRENCY_CACHE_TTL : Z := 24 * 3600 * us_per_second.

(** [v.get(k)]: only a dict has the method; a missing key gives [None]. *)
Definition py_get (v : json) (k : string) : exn + json :=
  match v with
  | JDict d => inr (dict_get k d)
  | _ => inl AttributeError
  end.

(** [v.items()]. *)
Definition py_items (v : json) : exn + list (string * json) :=
  match v with
  | JDict d => inr d
  | _ => inl AttributeError
  end.

(** [v[0]]. *)
Definition py_first (v : json) : exn + json :=
  match v with
  | JList (x :: _) => inr x
  | JList [] => inl IndexError
  | JStr (String c _) => inr (JStr (String c EmptyString))
  | JStr EmptyString => inl IndexError
  | JDict _ => inl KeyError
  | JNull | JBool _ | JNum _ => inl TypeError
  end.

(** [v[k]] for a string key. *)
Definition py_item (v : json) (k : string) : exn + json :=
  match v with
  | JDict d => match assoc k d with Some x => inr x | None => inl KeyError end
  | _ => inl TypeError
  end.

(** [for item in v]: the items the loop visits. *)
Definition py_iter (v : json) : exn + list json :=
  match v with
  | JList l => inr l
  | JDict d => inr (map (fun kv => JStr (fst kv)) d)
  | JStr s => inr (map (fun c => JStr (String c EmptyString)) (list_ascii_of_string s))
  | JNull | JBool _ | JNum _ => inl TypeError
  end.

(** [code.upper()] on a JSON value. *)
Definition py_upper (v : json) : exn + string :=
  match v with
  | JStr s => inr (upper s)
  | _ => inl AttributeError
  end.

(** The sqlite3 module binds [None], numbers and text; a list or a dict is
    refused. *)
Definition sqlite_bindable (v : json) : bool :=
  match v with
  | JList _ | JDict _ => false
  | _ => true
  end.

(** The value binds as NULL. *)
Definition is_null (v : json) : bool :=
  match v with
  | JNull => true
  | _ => false
  end.

(** [INSERT OR REPLACE INTO currency_rates]: a row with the same primary
    key is removed first. *)
Definition insert_or_replace_rate (t : list rate_row) (r : rate_row)
  : list rate_row :=
  filter (fun x => negb (currency_code x =? currency_code r)%string) t ++ [r].

(** The row one entry of [sanitized] is written as. *)
Definition rate_row_of (fetched : json) (kv : string * float) : rate_row :=
  {| currency_code := fst kv; rate_to_pln := snd kv; fetched_at := fetched |}.

(** The table after [DELETE FROM currency_rates] and one
    [INSERT OR REPLACE] per entry of [sanitized]. *)
Definition rate_rows (sanitized : list (string * float)) (fetched : json)
  : list rate_row :=
  fold_left (fun t kv => insert_or_replace_rate t (rate_row_of fetched kv))
    sanitized [].

Section Rates.
Context `{PyLib}.

(** The first loop of [_store_currency_rates]: from [{'PLN': 1.0}], every
    entry with a non-empty code and a value [float()] accepts is assigned
    under its upper-cased code. *)
Definition sanitize_step (sanitized : list (string * float))
  (entry : string * json) : list (string * float) :=
  let '(code, value) := entry in
  if (code =? "")%string then sanitized
  else match py_float value with
       | Some f => dict_set sanitized (upper code) f
       | None => sanitized
       end.

Definition sanitize (items : list (string * json)) : list (string * float) :=
  fold_left sanitize_step items [("PLN"%string, 1%float)].

(** [_store_currency_rates(rates, fetched_at)].  The table is emptied and
    refilled inside one transaction, so a statement that fails (a value
    that does not bind; a NULL [fetched_at] or a NaN rate meeting NOT NULL)
    leaves it as it was. *)
Definition _store_currency_rates (rates fetched_at : json) : py unit :=
  items <- lift (py_items rates) ;;
  let sanitized := sanitize items in
  if negb (sqlite_bindable fetched_at) then raise InterfaceError
  else if (is_null fetched_at
           || existsb (fun kv => is_nan (snd kv)) sanitized)%bool
  then raise IntegrityError
  else modify (set_currency_rates (rate_rows sanitized fetched_at)).

(** [json.load] of the cache file inside its [try]. *)
Definition json_load_cache : py json :=
  fun w =>
    match cache_file w with
    | None | Some Unreadable => (Raise OSError, w)
    | Some NotUtf8 => (Raise UnicodeDecodeError, w)
    | Some NotJson => (Raise JSONDecodeError, w)
    | Some (JsonText v) => (Ret v, w)
    end.

(** Lines 528-534: [cache_data] stays [None] under [force_refresh], when the
    file is missing, and when reading raises [OSError] or
    [JSONDecodeError]. *)
Definition read_cache_data (force_refresh : bool) : py json :=
  exists_ <- gets (fun w => match cache_file w with Some _ => true | None => false end) ;;
  if (negb force_refresh && exists_)%bool then
    try_except json_load_cache is_OSError_or_JSONDecodeError (fun _ => ret JNull)
  else ret JNull.

(** [datetime.fromisoformat(v)]: text only. *)
Definition py_fromisoformat (v : json) : exn + datetime :=
  match v with
  | JStr s => match fromisoformat s with
              | Some t => inr t
              | None => inl ValueError
              end
  | _ => inl TypeError
  end.

(** The three lines of the [try] at 550-553: the request, the status check
    and the decoding of the body.  The reply is consumed and its latency
    passes on the clock. *)
Definition http_get_json : py json :=
  fun w =>
    match http w with
    | [] => (Raise RequestException, w)
    | r :: rest =>
        let w' := set_clock (clock w + latency r) (set_http rest w) in
        match outcome r with
        | ConnectionFailed => (Raise RequestException, w')
        | Response status body =>
            if ((400 <=? status) && (status <? 600))%bool
            then (Raise RequestException, w')
            else match body with
                 | None => (Raise JSONDecodeError, w')
                 | Some v => (Ret v, w')
                 end
        end
    end.

(** [payload[0]['rates'] if payload else []]. *)
Definition raw_rates_of (payload : json) : exn + json :=
  if truthy payload then
    match py_first payload with
    | inl e => inl e
    | inr first => py_item first "rates"
    end
  else inr (JList []).

(** One turn of the loop at 564-571.  [float(value)] is evaluated before
    [code.upper()]; only [TypeError] and [ValueError] are caught. *)
Definition extract_step (extracted : list (string * float)) (item : json)
  : exn + list (string * float) :=
  match py_get item "code" with
  | inl e => inl e
  | inr code =>
      match py_get item "mid" with
      | inl e => inl e
      | inr value =>
          if (truthy code && match value with JNull => false | _ => true end)%bool
          then match py_float value with
               | None => inr extracted
               | Some f =>
                   match py_upper code with
                   | inl e => inl e
                   | inr k => inr (dict_set extracted k f)
                   end
               end
          else inr extracted
      end
  end.

Fixpoint extract_loop (extracted : list (string * float)) (items : list json)
  : exn + list (string * float) :=
  match items with
  | [] => inr extracted
  | item :: rest =>
      match extract_step extracted item with
      | inl e => inl e
      | inr extracted' => extract_loop extracted' rest
      end
  end.

Definition extract_rates (raw_rates : json) : exn + list (string * float) :=
  match py_iter raw_rates with
  | inl e => inl e
  | inr items => extract_loop [] items
  end.

Definition rates_json (extracted : list (string * float)) : json :=
  JDict (map (fun kv => (fst kv, JNum (snd kv))) extracted).

(** Lines 575-583: the snapshot is written, or the failure is logged. *)
Definition write_cache (fetched_at : string) (extracted : list (string * float))
  : py unit :=
  writable <- gets cache_writable ;;
  if writable then
    modify (set_cache_file
      (Some (JsonText (JDict [("fetched_at"%string, JStr fetched_at);
                              ("rates"%string, rates_json extracted)]))))
  else log_emit CacheWriteFailed.

(** The [except Exception] handler at 554-560. *)
Definition fetch_failed (now : datetime) (cache_data : json) (exc : exn)
  : py unit :=
  log_emit (RatesFetchFailed exc) ;;;
  if truthy cache_data then
    fetched_at0 <- lift (py_get cache_data "fetched_at") ;;
    let fetched_at_str := py_or fetched_at0 (JStr (datetime_isoformat now)) in
    rates0 <- lift (py_get cache_data "rates") ;;
    _store_currency_rates (py_or rates0 (JDict [])) fetched_at_str
  else ret tt.

(** The body of the [try] at 549-553. *)
Definition live_fetch : py json :=
  payload <- http_get_json ;;
  lift (raw_rates_of payload).

(** Lines 549-583: the live fetch and what follows it. *)
Definition live_refresh (now : datetime) (cache_data : json) : py unit :=
  fetched <- try_except
               (raw_rates <- live_fetch ;; ret (Some raw_rates))
               (fun _ => true)
               (fun exc => fetch_failed now cache_data exc ;;; ret None) ;;
  match fetched with
  | None => ret tt
  | Some raw_rates =>
      now' <- utcnow ;;
      let fetched_at := datetime_isoformat now' in
      extracted_rates <- lift (extract_rates raw_rates) ;;
      _store_currency_rates (rates_json extracted_rates) (JStr fetched_at) ;;;
      write_cache fetched_at extracted_rates
  end.

(** Lines 540-545: is the snapshot's timestamp within the TTL? *)
Definition cache_is_fresh (now : datetime) (fetched_at_str : json) : py bool :=
  if truthy fetched_at_str then
    cache_timestamp <- try_except
                         (t <- lift (py_fromisoformat fetched_at_str) ;; ret (Some t))
                         is_ValueError (fun _ => ret None) ;;
    match cache_timestamp with
    | Some t => age <- lift (datetime_sub now t) ;; ret (age <=? CURRENCY_CACHE_TTL)
    | None => ret false
    end
  else ret false.

(** [ensure_currency_rates(force_refresh)]. *)
Definition ensure_currency_rates (force_refresh : bool) : py unit :=
  now <- utcnow ;;
  cache_data <- read_cache_data force_refresh ;;
  if (truthy cache_data && negb force_refresh)%bool then
    fetched_at_str <- lift (py_get cache_data "fetched_at") ;;
    rates0 <- lift (py_get cache_data "rates") ;;
    let rates := py_or rates0 (JDict []) in
    fresh <- cache_is_fresh now fetched_at_str ;;
    if fresh then _store_currency_rates rates fetched_at_str
    else live_refresh now cache_data
  else live_refresh now cache_data.

(* ===================================================================== *)
(** ** Conversion: [get_exchange_rate], [convert_amount] *)
(* ===================================================================== *)

(** [SELECT rate_to_pln FROM currency_rates WHERE currency_code = ?] and
    [fetchone()]. *)
Definition select_rate (code : string) (t : list rate_row) : option float :=
  match find (fun r => (currency_code r =? code)%string) t with
  | Some r => Some (rate_to_pln r)
  | None => None
  end.

(** [get_exchange_rate(currency)]. *)
Definition get_exchange_rate (currency : string) : py float :=
  if (currency =? "")%string then ret 1%float
  else
    let currency := upper currency in
    if (currency =? "PLN")%string then ret 1%float
    else
      ensure_currency_rates false ;;;
      row <- gets (fun w => select_rate currency (currency_rates w)) ;;
      ret (match row with Some r => r | None => 1%float end).

(** [convert_amount(amount, source_currency, target_currency)]. *)
Definition convert_amount (amount : option float)
  (source_currency target_currency : option string) : py float :=
  match amount with
  | None => ret 0%float
  | Some amount =>
      let source := upper (str_or source_currency "PLN") in
      let target := upper (str_or target_currency "PLN") in
      if (source =? target)%string then ret amount
      else
        source_rate <- get_exchange_rate source ;;
        target_rate <- get_exchange_rate target ;;
        if (target_rate =? 0)%float then ret (amount * source_rate)%float
        else
          let amount_pln := (amount * source_rate)%float in
          if (target =? "PLN")%string then ret amount_pln
          else lift (py_div amount_pln target_rate)
  end.

(** [normalize_currency(value, fallback)]. *)
Definition normalize_currency (value : option string) (fallback : string)
  : string :=
  if str_truthy value then
    let normalized := upper (strip (str_or value "")) in
    if (normalized =? "")%string then fallback else normalized
  else fallback.

(** [convert_to_base(amount, currency)]. *)
Definition convert_to_base (amount : float) (currency : option string)
  : py float :=
  convert_amount (Some amount)
    (Some (normalize_currency currency BASE_CURRENCY)) (Some BASE_CURRENCY).

(** [convert_from_base(amount, currency)]. *)
Definition convert_from_base (amount : float) (currency : option string)
  : py float :=
  convert_amount (Some amount) (Some BASE_CURRENCY)
    (Some (normalize_currency currency BASE_CURRENCY)).

End Rates.

(* ===================================================================== *)
(** ** Budgets: the notification check and the aggregation of [budgets()] *)
(* ===================================================================== *)

(** [BUDGET_ALERT_THRESHOLD = 0.9], the binary64 value of the literal. *)
Definition BUDGET_ALERT_THRESHOLD : float := 0x1.ccccccccccccdp-1%float.

Definition DEFAULT_BUDGET_TYPE : string := "custom".

(** The keys [maybe_send_budget_notification] reads from its [budget]
    dict. *)
Record budget_dict := {
  d_id : Z;
  d_name : option string;
  d_limit_amount : option float;
  d_spent_amount : option float;
  d_last_notified_at : option string
}.

(** [budget['last_notified_at'] = timestamp]. *)
Definition set_d_last_notified_at (timestamp : string) (budget : budget_dict)
  : budget_dict :=
  {| d_id := d_id budget; d_name := d_name budget;
     d_limit_amount := d_limit_amount budget;
     d_spent_amount := d_spent_amount budget;
     d_last_notified_at := Some timestamp |}.

(** [UPDATE budgets SET last_notified_at = ? WHERE id = ?]. *)
Definition update_last_notified_at (timestamp : string) (id : Z)
  (t : list budget_row) : list budget_row :=
  map (fun b =>
         if b_id b =? id then
           {| b_id := b_id b; b_user_id := b_user_id b;
              b_category_id := b_category_id b; b_name := b_name b;
              b_limit_amount := b_limit_amount b;
              b_budget_type := b_budget_type b;
              b_start_date := b_start_date b; b_end_date := b_end_date b;
              b_last_notified_at := Some timestamp |}
         else b) t.

(** [last_notified and last_notified[:10] == date.today().isoformat()]. *)
Definition notified_today (last_notified : option string) (today_ : Z) : bool :=
  match last_notified with
  | Some s =>
      (negb (s =? "")%string
       && (substring 0 10 s =? date_isoformat today_)%string)%bool
  | None => false
  end.

(** [maybe_send_budget_notification(conn, cursor, budget)]: the result and
    the dict as the call leaves it. *)
Definition maybe_send_budget_notification (budget : budget_dict)
  : py (bool * budget_dict) :=
  let limit_amount := float_or_zero (d_limit_amount budget) in
  let spent := float_or_zero (d_spent_amount budget) in
  if (limit_amount <=? 0)%float then ret (false, budget)
  else
    let utilization :=
      (if (limit_amount =? 0)%float then 0 else spent / limit_amount)%float in
    let over_limit := (limit_amount <? spent)%float in
    let threshold_hit :=
      ((BUDGET_ALERT_THRESHOLD <=? utilization)%float || over_limit)%bool in
    if negb threshold_hit then ret (false, budget)
    else
      today_ <- today ;;
      if notified_today (d_last_notified_at budget) today_ then ret (false, budget)
      else
        let name := str_or (d_name budget) "Budżet" in
        log_emit (if over_limit then BudgetOverLimit name spent limit_amount
                  else BudgetThreshold name utilization (limit_amount - spent)%float) ;;;
        now <- utcnow ;;
        let timestamp := datetime_isoformat now in
        modify (fun w => set_budgets_table
                  (update_last_notified_at timestamp (d_id budget) (budgets_table w)) w) ;;;
        ret (true, set_d_last_notified_at timestamp budget).

(** [{**budget, 'limit_amount': limit_pln, 'spent_amount': spent_pln}]. *)
Definition notify_payload (b : budget_row) (limit_pln spent_pln : float)
  : budget_dict :=
  {| d_id := b_id b; d_name := Some (b_name b);
     d_limit_amount := Some limit_pln; d_spent_amount := Some spent_pln;
     d_last_notified_at := b_last_notified_at b |}.

(** First day of the month of a date: [value.replace(day=1)]. *)
Definition first_of_month (day : Z) : Z :=
  let '(_, _, d) := civil_of_days day in day - (d - 1).

(** [end_of_month(value)]. *)
Definition end_of_month (value : Z) : Z :=
  let next_month := first_of_month (first_of_month value + 27 + 4) in
  next_month - 1.

(** A transaction as the first loop of [budgets()] keeps it. *)
Record txn_view := {
  v_budget_id : option Z;
  v_category_id : option Z;
  v_occurred_on : Z;
  v_amount_pln : float
}.

(** The four running values of the loop at 1845-1858. *)
Record tally := {
  spent_pln : float;
  total_transactions : Z;
  fallback_spent_pln : float;
  fallback_total : Z
}.

Definition tally0 : tally :=
  {| spent_pln := 0; total_transactions := 0;
     fallback_spent_pln := 0; fallback_total := 0 |}.

(** [bool(budget['category_id'])]. *)
Definition id_truthy (x : option Z) : bool :=
  match x with
  | Some n => negb (n =? 0)
  | None => false
  end.

Definition opt_Z_eqb (x y : option Z) : bool :=
  match x, y with
  | Some a, Some b => a =? b
  | None, None => true
  | _, _ => false
  end.

(** One turn of the loop at 1850-1858 for the budget [b] and its window. *)
Definition tally_step (b : budget_row) (start_date end_date : Z)
  (acc : tally) (txn : txn_view) : tally :=
  if ((v_occurred_on txn <? start_date) || (end_date <? v_occurred_on txn))%bool
  then acc
  else if opt_Z_eqb (v_budget_id txn) (Some (b_id b)) then
    {| spent_pln := (spent_pln acc + v_amount_pln txn)%float;
       total_transactions := total_transactions acc + 1;
       fallback_spent_pln := fallback_spent_pln acc;
       fallback_total := fallback_total acc |}
  else if (id_truthy (b_category_id b)
           && match v_budget_id txn with None => true | Some _ => false end
           && opt_Z_eqb (v_category_id txn) (b_category_id b))%bool then
    {| spent_pln := spent_pln acc;
       total_transactions := total_transactions acc;
       fallback_spent_pln := (fallback_spent_pln acc + v_amount_pln txn)%float;
       fallback_total := fallback_total acc + 1 |}
  else acc.

(** Lines 1845-1862: the spent amount and the transaction count that the
    budget reports, in the base currency. *)
Definition budget_spent (b : budget_row) (start_date end_date : Z)
  (transactions : list txn_view) : float * Z :=
  let t := fold_left (tally_step b start_date end_date) transactions tally0 in
  if ((spent_pln t =? 0)%float && id_truthy (b_category_id b))%bool
  then (fallback_spent_pln t, fallback_total t)
  else (spent_pln t, total_transactions t).

(** A budget as [budgets()] returns it. *)
Record budget_view := {
  bv_id : Z;
  bv_name : string;
  bv_category_id : option Z;
  bv_budget_type : string;
  bv_limit_amount : float;
  bv_spent_amount : float;
  bv_transaction_count : Z;
  bv_remaining : float;
  bv_currency : string;
  bv_utilization : option float;
  bv_last_notified_at : option string
}.

(** The columns the query at 1808-1812 selects: [converted_amount] is not
    among them. *)
Record expense_columns := {
  e_id : Z;
  e_budget_id : option Z;
  e_category_id : option Z;
  e_amount : float;
  e_currency : option string;
  e_occurred_on : string
}.

(** [SELECT id, budget_id, category_id, amount, currency, occurred_on FROM
    transactions WHERE user_id = ? AND type = 'expense']. *)
Definition select_expenses (user_id : Z) (t : list transaction_row)
  : list expense_columns :=
  map (fun r =>
         {| e_id := t_id r; e_budget_id := t_budget_id r;
            e_category_id := t_category_id r; e_amount := t_amount r;
            e_currency := t_currency r; e_occurred_on := t_occurred_on r |})
      (filter (fun r => ((t_user_id r =? user_id) && (t_type r =? "expense")%string)%bool) t).

Section Budgets.
Context `{PyLib}.

(** [datetime.fromisoformat(s).date()], with the day [d] when it raises
    [ValueError]. *)
Definition date_or (s : string) (d : Z) : Z :=
  match fromisoformat s with
  | Some t => dt_day t
  | None => d
  end.

(** The base-currency amount of one expense, lines 1822-1825. *)
Definition expense_amount_pln (txn : expense_columns) : py float :=
  convert_to_base (float_or_zero (Some (e_amount txn)))
    (Some (str_or (e_currency txn) BASE_CURRENCY)).

(** Lines 1815-1831: rows whose date does not parse are skipped. *)
Fixpoint collect_transactions (raw : list expense_columns) : py (list txn_view) :=
  match raw with
  | [] => ret []
  | txn :: rest =>
      let occurred_raw := substring 0 10 (e_occurred_on txn) in
      match fromisoformat occurred_raw with
      | None => collect_transactions rest
      | Some occurred =>
          amount_pln <- expense_amount_pln txn ;;
          views <- collect_transactions rest ;;
          ret ({| v_budget_id := e_budget_id txn;
                  v_category_id := e_category_id txn;
                  v_occurred_on := dt_day occurred;
                  v_amount_pln := amount_pln |} :: views)
      end
  end.

(** The window of a budget, lines 1834-1843. *)
Definition window_start (month_start : Z) (b : budget_row) : Z :=
  date_or (str_or (b_start_date b) (date_isoformat month_start)) month_start.

Definition window_end (month_end : Z) (b : budget_row) : Z :=
  date_or (str_or (b_end_date b) (date_isoformat month_end)) month_end.

(** Lines 1833-1885 for one budget. *)
Definition budget_stats (user_currency : string) (month_start month_end : Z)
  (transactions : list txn_view) (b : budget_row) : py budget_view :=
  let start_date := window_start month_start b in
  let end_date := window_end month_end b in
  let '(spent, count) := budget_spent b start_date end_date transactions in
  let limit_pln := float_or_zero (Some (b_limit_amount b)) in
  maybe_send_budget_notification (notify_payload b limit_pln spent) ;;;
  limit_display <- convert_from_base limit_pln (Some user_currency) ;;
  spent_display <- convert_from_base spent (Some user_currency) ;;
  ret {| bv_id := b_id b; bv_name := b_name b;
         bv_category_id := b_category_id b;
         bv_budget_type := str_or (b_budget_type b) DEFAULT_BUDGET_TYPE;
         bv_limit_amount := limit_display;
         bv_spent_amount := spent_display;
         bv_transaction_count := count;
         bv_remaining := (limit_display - spent_display)%float;
         bv_currency := user_currency;
         bv_utilization :=
           if (limit_display =? 0)%float then None
           else Some (spent_display / limit_display)%float;
         bv_last_notified_at := b_last_notified_at b |}.

Fixpoint for_each {A B} (f : A -> py B) (l : list A) : py (list B) :=
  match l with
  | [] => ret []
  | a :: l' => b <- f a ;; bs <- for_each f l' ;; ret (b :: bs)
  end.

(** The GET branch of [budgets()] for a resolved user, from line 1797 on:
    the recurring transactions of the user have been materialised.  The
    table has no [created_at] column here, so the result lists the budgets
    in table order where the query sorts them by creation time; each
    budget's figures do not depend on that order. *)
Definition budgets_get (user_id : Z) : py (list budget_view) :=
  raw_budgets <- gets (fun w => filter (fun b => b_user_id b =? user_id) (budgets_table w)) ;;
  user <- gets (fun w => find (fun u => u_id u =? user_id) (users w)) ;;
  let user_currency :=
    normalize_currency (match user with Some u => default_currency u | None => None end)
      BASE_CURRENCY in
  today_ <- today ;;
  let month_start := first_of_month today_ in
  let month_end := end_of_month today_ in
  raw_transactions <- gets (fun w => select_expenses user_id (transactions_table w)) ;;
  transactions <- collect_transactions raw_transactions ;;
  for_each (budget_stats user_currency month_start month_end transactions) raw_budgets.

End Budgets.

(* ===================================================================== *)
(** ** Savings goals: the three triggers and the handlers that write *)
(* ===================================================================== *)

(** A REAL that SQLite computes or binds: NaN becomes NULL. *)
Definition sql_real (f : float) : option float :=
  if is_nan f then None else Some f.

(** [a + b] and [a - b] on nullable REALs. *)
Definition sql_add (a b : option float) : option float :=
  match a, b with
  | Some x, Some y => sql_real (x + y)
  | _, _ => None
  end.

Definition sql_sub (a b : option float) : option float :=
  match a, b with
  | Some x, Some y => sql_real (x - y)
  | _, _ => None
  end.

(** The greater of a float and zero, as Python's [max(x, 0)] and SQLite's
    two-argument [MAX(x, 0)] agree on it: zero only when [x < 0]. *)
Definition float_max0 (x : float) : float :=
  if (x <? 0)%float then 0%float else x.

(** [MAX(a, 0)]: NULL when [a] is NULL. *)
Definition sql_max0 (a : option float) : option float :=
  match a with
  | Some x => Some (float_max0 x)
  | None => None
  end.

(** A goal row with another [current_amount]. *)
Definition with_current_amount (a : option float) (g : goal_row) : goal_row :=
  {| g_id := g_id g; g_user_id := g_user_id g; g_name := g_name g;
     g_target_amount := g_target_amount g; g_current_amount := a |}.

(** [UPDATE savings_goals SET current_amount = f(current_amount) WHERE id = ?]. *)
Definition update_current_amount (f : option float -> option float) (id : Z)
  (t : list goal_row) : list goal_row :=
  map (fun g =>
         if g_id g =? id then with_current_amount (f (g_current_amount g)) g
         else g) t.

(** [trg_savings_goal_contributions_insert]. *)
Definition trg_savings_goal_contributions_insert (new : contribution_row)
  : list goal_row -> list goal_row :=
  update_current_amount (fun current => sql_add current (Some (c_amount new)))
    (c_goal_id new).

(** [trg_savings_goal_contributions_update]. *)
Definition trg_savings_goal_contributions_update (old new : contribution_row)
  : list goal_row -> list goal_row :=
  update_current_amount
    (fun current => sql_add (sql_sub current (Some (c_amount old))) (Some (c_amount new)))
    (c_goal_id new).

(** [trg_savings_goal_contributions_delete]. *)
Definition trg_savings_goal_contributions_delete (old : contribution_row)
  : list goal_row -> list goal_row :=
  update_current_amount
    (fun current => sql_max0 (sql_sub current (Some (c_amount old))))
    (c_goal_id old).

(** The id an INTEGER PRIMARY KEY AUTOINCREMENT column gives a new row,
    taken here as one more than the largest in the table.  SQLite takes one
    more than the largest ever used, which differs only after the row with
    the largest id was deleted; either way the id is new to the table. *)
Definition next_id (ids : list Z) : Z := fold_left Z.max ids 0 + 1.

(** [INSERT INTO savings_goal_contributions (goal_id, amount, note)]: the
    row, then the insert trigger.  A NaN amount binds as NULL and meets
    NOT NULL; the foreign key is not enforced, the connection never turns
    [PRAGMA foreign_keys] on. *)
Definition insert_contribution (goal_id : Z) (amount : float) : py unit :=
  if is_nan amount then raise IntegrityError
  else
    modify (fun w =>
      let new := {| c_id := next_id (map c_id (savings_goal_contributions w));
                    c_goal_id := goal_id; c_amount := amount |} in
      set_savings_goals_table
        (trg_savings_goal_contributions_insert new (savings_goals_table w))
        (set_savings_goal_contributions (savings_goal_contributions w ++ [new]) w)).

(** [UPDATE savings_goal_contributions SET goal_id = ?, amount = ? WHERE
    id = ?]: every matching row is rewritten and the update trigger runs
    for it. *)
Definition update_contribution (id goal_id : Z) (amount : float) : py unit :=
  if is_nan amount then raise IntegrityError
  else
    modify (fun w =>
      let rewrite (c : contribution_row) :=
        {| c_id := c_id c; c_goal_id := goal_id; c_amount := amount |} in
      let hit := filter (fun c => c_id c =? id) (savings_goal_contributions w) in
      set_savings_goals_table
        (fold_left
           (fun goals old => trg_savings_goal_contributions_update old (rewrite old) goals)
           hit (savings_goals_table w))
        (set_savings_goal_contributions
           (map (fun c => if c_id c =? id then rewrite c else c)
              (savings_goal_contributions w)) w)).

(** [DELETE FROM savings_goal_contributions WHERE id = ?]: every matching
    row is removed and the delete trigger runs for it. *)
Definition delete_contribution (id : Z) : py unit :=
  modify (fun w =>
    let hit := filter (fun c => c_id c =? id) (savings_goal_contributions w) in
    set_savings_goals_table
      (fold_left
         (fun goals old => trg_savings_goal_contributions_delete old goals)
         hit (savings_goals_table w))
      (set_savings_goal_contributions
         (filter (fun c => negb (c_id c =? id)) (savings_goal_contributions w)) w)).

(** [SELECT * FROM savings_goals WHERE id = ?]. *)
Definition select_goal (id : Z) (t : list goal_row) : option goal_row :=
  find (fun g => g_id g =? id) t.

(** The sum of the amounts of the contributions recorded for a goal, added
    from zero in row order. *)
Definition contributed (goal_id : Z) (t : list contribution_row) : float :=
  fold_left (fun s c => (s + c_amount c)%float)
    (filter (fun c => c_goal_id c =? goal_id) t) 0%float.

(** The body of a POST to [/savings-goals] or a PUT to
    [/savings-goals/<id>], the fields the core reads. *)
Record goal_data := {
  gd_name : option string;
  gd_target_amount : json;
  gd_current_amount : json;
  gd_currency : option string
}.

(** The body of a POST to [/savings-goals/<id>/contributions]. *)
Record contribution_data := {
  cd_amount : json;
  cd_currency : option string
}.

Section Savings.
Context `{PyLib}.

(** [float(v)] where the caller does not catch. *)
Definition py_float_exn (v : json) : exn + float :=
  match py_float v with
  | Some f => inr f
  | None => match v with
            | JStr _ => inl ValueError
            | _ => inl TypeError
            end
  end.

(** The currency a new goal's amounts are read in, line 2065. *)
Definition goal_input_currency (user : user_row) (data : goal_data) : string :=
  normalize_currency
    (if str_truthy (gd_currency data) then gd_currency data
     else default_currency user) BASE_CURRENCY.

(** The POST branch of [savings_goals()] for a resolved user, lines
    2050-2087; the result is the HTTP status. *)
Definition savings_goals_post (user : user_row) (data : goal_data) : py Z :=
  let name := strip (str_or (gd_name data) "") in
  if ((name =? "")%string
      || match gd_target_amount data with JNull => true | _ => false end)%bool
  then ret 400
  else
    let input_currency := goal_input_currency user data in
    amounts <- try_except
                 (target <- lift (py_float_exn (gd_target_amount data)) ;;
                  target_pln <- convert_to_base target (Some input_currency) ;;
                  current <- lift (py_float_exn
                                     (py_or (gd_current_amount data) (JNum 0))) ;;
                  current_pln <- convert_to_base current (Some input_currency) ;;
                  ret (Some (target_pln, current_pln)))
                 is_TypeError_or_ValueError (fun _ => ret None) ;;
    match amounts with
    | None => ret 400
    | Some (target_pln, current_pln) =>
        if is_nan target_pln then raise IntegrityError
        else
          modify (fun w =>
            set_savings_goals_table
              (savings_goals_table w ++
                 [{| g_id := next_id (map g_id (savings_goals_table w));
                     g_user_id := u_id user; g_name := name;
                     g_target_amount := target_pln;
                     g_current_amount := sql_real current_pln |}]) w) ;;;
          ret 200
    end.

(** The PUT branch of [savings_goal_detail(goal_id)] for a resolved user,
    lines 2113-2154, on a body without [deadline], [category_id] and
    [is_active]. *)
Definition savings_goal_put (user : user_row) (goal_id : Z) (data : goal_data)
  : py Z :=
  let name := strip (str_or (gd_name data) "") in
  let input_currency := normalize_currency (gd_currency data) BASE_CURRENCY in
  target <- match gd_target_amount data with
            | JNull => ret None
            | v => f <- lift (py_float_exn v) ;;
                   x <- convert_to_base f (Some input_currency) ;; ret (Some x)
            end ;;
  current <- match gd_current_amount data with
             | JNull => ret None
             | v => f <- lift (py_float_exn v) ;;
                    x <- convert_to_base f (Some input_currency) ;; ret (Some x)
             end ;;
  if ((name =? "")%string
      && match target with None => true | Some _ => false end
      && match current with None => true | Some _ => false end)%bool
  then ret 400
  else
    hit <- gets (fun w => existsb (fun g => ((g_id g =? goal_id) && (g_user_id g =? u_id user))%bool)
                            (savings_goals_table w)) ;;
    if negb hit then ret 404
    else if match target with Some t => is_nan t | None => false end
    then raise IntegrityError
    else
      modify (fun w =>
        set_savings_goals_table
          (map (fun g =>
                  if ((g_id g =? goal_id) && (g_user_id g =? u_id user))%bool then
                    {| g_id := g_id g; g_user_id := g_user_id g;
                       g_name := if (name =? "")%string then g_name g else name;
                       g_target_amount :=
                         match target with Some t => t | None => g_target_amount g end;
                       g_current_amount :=
                         match current with
                         | Some c => sql_real c
                         | None => g_current_amount g
                         end |}
                  else g) (savings_goals_table w)) w) ;;;
      ret 200.

(** [savings_goal_contribution(goal_id)] for a resolved user, lines
    2160-2191. *)
Definition savings_goal_contribution (user : user_row) (goal_id : Z)
  (data : contribution_data) : py Z :=
  match cd_amount data with
  | JNull => ret 400
  | amount_json =>
      amount <- lift (py_float_exn amount_json) ;;
      if (amount <=? 0)%float then ret 400
      else
        goal <- gets (fun w => find (fun g => ((g_id g =? goal_id) && (g_user_id g =? u_id user))%bool)
                                 (savings_goals_table w)) ;;
        match goal with
        | None => ret 404
        | Some _ =>
            let user_currency := normalize_currency (default_currency user) BASE_CURRENCY in
            let currency :=
              if str_truthy (cd_currency data)
              then Some (upper (strip (str_or (cd_currency data) "")))
              else None in
            let contribution_currency :=
              normalize_currency
                (if str_truthy currency then currency else Some user_currency)
                BASE_CURRENCY in
            converted_amount <- convert_to_base amount (Some contribution_currency) ;;
            insert_contribution goal_id converted_amount ;;;
            ret 200
        end
  end.

End Savings.

(* ===================================================================== *)
(** ** An instance of the library interface *)
(* ===================================================================== *)

(** The day number of a year, month and day; the inverse of
    [civil_of_days] on calendar dates. *)
Definition days_of_civil (y m d : Z) : Z :=
  let y' := if m <=? 2 then y - 1 else y in
  let era := y' / 400 in
  let yoe := y' - era * 400 in
  let doy := (153 * (if 2 <? m then m - 3 else m + 9) + 2) / 5 + d - 1 in
  let doe := yoe * 365 + yoe / 4 - yoe / 100 + doy in
  era * 146097 + doe - 719468.

Fixpoint number_of_digits (acc : Z) (s : string) : option Z :=
  match s with
  | EmptyString => Some acc
  | String c s' =>
      let n := Z.of_nat (nat_of_ascii c) in
      if ((48 <=? n) && (n <=? 57))%bool
      then number_of_digits (acc * 10 + (n - 48)) s'
      else None
  end.

(** The decimal number a non-empty string of digits spells. *)
Definition number (s : string) : option Z :=
  match s with
  | EmptyString => None
  | _ => number_of_digits 0 s
  end.

(** YYYY-MM-DD, a calendar date. *)
Definition parse_date (s : string) : option Z :=
  match number (substring 0 4 s), number (substring 5 2 s), number (substring 8 2 s) with
  | Some y, Some m, Some d =>
      let days := days_of_civil y m d in
      if ((substring 4 1 s =? "-")%string && (substring 7 1 s =? "-")%string
          && (String.length s =? 10)%nat
          && (let '(y', m', d') := civil_of_days days in
              (y' =? y) && (m' =? m) && (d' =? d)))%bool
      then Some days else None
  | _, _, _ => None
  end.

(** HH:MM:SS, optionally followed by a point and six digits. *)
Definition parse_time (s : string) : option Z :=
  match number (substring 0 2 s), number (substring 3 2 s), number (substring 6 2 s) with
  | Some h, Some m, Some sec =>
      if ((substring 2 1 s =? ":")%string && (substring 5 1 s =? ":")%string
          && (h <? 24) && (m <? 60) && (sec <? 60))%bool
      then
        if (String.length s =? 8)%nat
        then Some ((h * 3600 + m * 60 + sec) * us_per_second)
        else match number (substring 9 6 s) with
             | Some f =>
                 if ((substring 8 1 s =? ".")%string && (String.length s =? 15)%nat)%bool
                 then Some ((h * 3600 + m * 60 + sec) * us_per_second + f)
                 else None
             | None => None
             end
      else None
  | _, _, _ => None
  end.

(** The timestamps this program writes, and plain dates: YYYY-MM-DD alone
    or followed by one separator character and a time. *)
Definition parse_isoformat (s : string) : option datetime :=
  match parse_date (substring 0 10 s) with
  | None => None
  | Some day =>
      if (String.length s =? 10)%nat
      then Some {| dt_day := day; dt_us := 0; dt_utcoffset := None |}
      else match parse_time (substring 11 (String.length s - 11) s) with
           | Some us => Some {| dt_day := day; dt_us := us; dt_utcoffset := None |}
           | None => None
           end
  end.

(** Text that spells a whole number, as a float. *)
Definition parse_float (s : string) : option float :=
  match number s with
  | Some n => if n <? 2 ^ 53 then Some (of_uint63 (Uint63.of_Z n)) else None
  | None => None
  end.

(** The instance the concrete runs below use. *)
Definition iso_lib : PyLib :=
  {| float_of_str := parse_float; fromisoformat := parse_isoformat |}.

(* ===================================================================== *)
(** ** The aggregation rule as the specification words it *)
(* ===================================================================== *)

(** A transaction lies in the budget's window. *)
Definition in_window (start_date end_date : Z) (txn : txn_view) : bool :=
  ((start_date <=? v_occurred_on txn) && (v_occurred_on txn <=? end_date))%bool.

(** [matched]: the in-window transactions whose [budget_id] is the
    budget's id. *)
Definition matched (b : budget_row) (start_date end_date : Z)
  (transactions : list txn_view) : list txn_view :=
  filter (fun txn =>
            (in_window start_date end_date txn
             && opt_Z_eqb (v_budget_id txn) (Some (b_id b)))%bool)
    transactions.

(** [fallback]: the in-window transactions with no [budget_id] whose
    [category_id] is the budget's. *)
Definition fallback (b : budget_row) (start_date end_date : Z)
  (transactions : list txn_view) : list txn_view :=
  filter (fun txn =>
            (in_window start_date end_date txn
             && match v_budget_id txn with None => true | Some _ => false end
             && opt_Z_eqb (v_category_id txn) (b_category_id b))%bool)
    transactions.

(** The sum of the base-currency amounts, added from zero in list order,
    and the number of transactions. *)
Definition sum_amounts (l : list txn_view) : float :=
  fold_left (fun s txn => (s + v_amount_pln txn)%float) l 0%float.

Definition count (l : list txn_view) : Z := Z.of_nat (List.length l).

(** The budget has a category. *)
Definition has_category (b : budget_row) : bool :=
  match b_category_id b with
  | Some _ => true
  | None => false
  end.

(** Step 3 of the matching algorithm. *)
Definition spent_by_rule (b : budget_row) (start_date end_date : Z)
  (transactions : list txn_view) : float * Z :=
  let m := matched b start_date end_date transactions in
  let f := fallback b start_date end_date transactions in
  if ((sum_amounts m =? 0)%float && has_category b)%bool
  then (sum_amounts f, count f)
  else (sum_amounts m, count m).

(* ===================================================================== *)
(** ** Worlds for the concrete runs *)
(* ===================================================================== *)

(** 2024-01-15T12:00:00 UTC. *)
Definition noon : Z := (19737 * 86400 + 12 * 3600) * us_per_second.

(** Empty tables, no cache file, no network, the server clock on UTC. *)
Definition quiet_world : world :=
  {| clock := noon; tz_offset := 0; cache_file := None; cache_writable := true;
     http := []; currency_rates := []; users := []; budgets_table := [];
     transactions_table := []; savings_goals_table := [];
     savings_goal_contributions := []; log := [] |}.

Definition rate (code : string) (r : float) : rate_row :=
  {| currency_code := code; rate_to_pln := r;
     fetched_at := JStr "2024-01-15T06:00:00" |}.

(** A cache snapshot fetched at the given time. *)
Definition snapshot (fetched : string) (rates : list (string * json)) : file_state :=
  JsonText (JDict [("fetched_at"%string, JStr fetched); ("rates"%string, JDict rates)]).

(** The source does not answer. *)
Definition unreachable : http_reply :=
  {| latency := 5 * us_per_second; outcome := ConnectionFailed |}.

(** A snapshot five days old, the source unreachable, the table empty. *)
Definition stale_world : world :=
  set_cache_file (Some (snapshot "2024-01-10T06:00:00" [("EUR"%string, JNum 4.5)]))
    (set_http [unreachable] quiet_world).

(** No cache file, the source unreachable, rates from an earlier run. *)
Definition offline_world : world :=
  set_currency_rates [rate "PLN" 1; rate "EUR" 4.25]
    (set_http [unreachable] quiet_world).

(** The same snapshot, and a source that answers with a table whose
    [rates] list holds a number where a rate object belongs. *)
Definition garbled_world : world :=
  set_cache_file (Some (snapshot "2024-01-10T06:00:00" [("EUR"%string, JNum 4.5)]))
    (set_http
       [{| latency := us_per_second;
           outcome := Response 200
                        (Some (JList [JDict [("rates"%string, JList [JNum 1])]])) |}]
       quiet_world).

(** A snapshot fetched six hours ago that quotes the base currency. *)
Definition quoted_base_world : world :=
  set_cache_file
    (Some (snapshot "2024-01-15T06:00:00"
             [("EUR"%string, JNum 4.5); ("pln"%string, JNum 2)]))
    quiet_world.

(** A snapshot fetched six hours ago whose code for the zloty is padded. *)
Definition padded_world : world :=
  set_cache_file (Some (snapshot "2024-01-15T06:00:00" [(" pln"%string, JNum 4)]))
    quiet_world.

(** A table that holds a rate of zero. *)
Definition zero_rate_world : world :=
  set_currency_rates [rate "PLN" 1; rate "EUR" 4.5; rate "XTS" 0] quiet_world.

Definition plain_user : user_row :=
  {| u_id := 7; default_currency := Some "PLN"%string |}.

Definition food_budget : budget_row :=
  {| b_id := 1; b_user_id := 7; b_category_id := Some 3; b_name := "Food";
     b_limit_amount := 1000; b_budget_type := Some "groceries"%string;
     b_start_date := None; b_end_date := None; b_last_notified_at := None |}.

(** The same budget at noon, the clock on UTC. *)
Definition utc_budget_world : world := set_budgets_table [food_budget] quiet_world.

(** 2024-01-15T23:10:00 UTC on a server one hour east of UTC, where it is
    ten past midnight on the 16th. *)
Definition past_midnight_world : world :=
  {| clock := (19737 * 86400 + 23 * 3600 + 600) * us_per_second;
     tz_offset := 3600 * us_per_second;
     cache_file := None; cache_writable := true; http := [];
     currency_rates := []; users := []; budgets_table := [food_budget];
     transactions_table := []; savings_goals_table := [];
     savings_goal_contributions := []; log := [] |}.

(** An expense of 100 EUR, recorded when the euro stood at 4.30. *)
Definition euro_expense : transaction_row :=
  {| t_id := 1; t_user_id := 7; t_category_id := Some 3; t_type := "expense";
     t_amount := 100; t_currency := Some "EUR"%string;
     t_converted_amount := Some 430%float; t_budget_id := Some 1;
     t_occurred_on := "2024-01-10" |}.

(** Noon of 2024-01-15, the euro now at 4.50, the source unreachable. *)
Definition repriced_world : world :=
  {| clock := noon; tz_offset := 0; cache_file := None; cache_writable := true;
     http := []; currency_rates := [rate "PLN" 1; rate "EUR" 4.5];
     users := [plain_user]; budgets_table := [food_budget];
     transactions_table := [euro_expense]; savings_goals_table := [];
     savings_goal_contributions := []; log := [] |}.

(** An expense from before budgets were linked: category 3, no budget,
    2024-01-10. *)
Definition legacy_view : txn_view :=
  {| v_budget_id := None; v_category_id := Some 3; v_occurred_on := 19732;
     v_amount_pln := 80 |}.

Definition bike_goal : goal_row :=
  {| g_id := 1; g_user_id := 7; g_name := "Bike"; g_target_amount := 500;
     g_current_amount := Some 10%float |}.

Definition first_deposit : contribution_row :=
  {| c_id := 1; c_goal_id := 1; c_amount := 50 |}.

(** A goal whose total was lowered to 10 by hand while its one
    contribution of 50 stays recorded. *)
Definition lowered_goal_world : world :=
  set_savings_goals_table [bike_goal]
    (set_savings_goal_contributions [first_deposit] quiet_world).

(** A request for a new goal with the given opening [current_amount]. *)
Definition bike_request (opening : json) : goal_data :=
  {| gd_name := Some "Bike"%string; gd_target_amount := JNum 500;
     gd_current_amount := opening; gd_currency := None |}.

(* ===================================================================== *)
(** ** The vocabulary of the properties *)
(* ===================================================================== *)

(** Every run of [c] moves the world along [R] and raises only in [E]. *)
Definition bounded (R : world -> world -> Prop) (E : exn -> Prop) {A} (c : py A)
  : Prop :=
  forall w, R w (snd (c w)) /\ forall e, fst (c w) = Raise e -> E e.

Definition any_world (w w' : world) : Prop := True.

Definition not_zero_division (e : exn) : Prop := e <> ZeroDivisionError.

(** No run of [c] raises [ZeroDivisionError]. *)
Definition no_zero_division {A} (c : py A) : Prop :=
  bounded any_world not_zero_division c.

(** A pure step does not fail with [ZeroDivisionError]. *)
Definition pure_nozd {A} (r : exn + A) : Prop :=
  forall e, r = inl e -> not_zero_division e.

(** The cache gives no snapshot: the file is missing, cannot be opened, is
    not JSON, or holds a value that is falsy. *)
Definition no_snapshot (w : world) : Prop :=
  match cache_file w with
  | None | Some Unreadable | Some NotJson => True
  | Some (JsonText v) => truthy v = false
  | Some NotUtf8 => False
  end.

(** A [fetched_at] the freshness test accepts without raising: a falsy
    value, or text that does not parse to an aware timestamp. *)
Definition readable_timestamp `{PyLib} (v : json) : Prop :=
  match v with
  | JStr s => match fromisoformat s with
              | Some t => dt_utcoffset t = None
              | None => True
              end
  | v => truthy v = false
  end.

(** A snapshot the refresh reads back without raising: a non-empty object
    whose [fetched_at] is readable and whose [rates] are falsy or an object
    with the entries [items], none of which becomes NaN. *)
Definition readable_snapshot `{PyLib} (d items : list (string * json)) : Prop :=
  d <> []
  /\ readable_timestamp (dict_get "fetched_at" d)
  /\ py_or (dict_get "rates" d) (JDict []) = JDict items
  /\ existsb (fun kv => is_nan (snd kv)) (sanitize items) = false.

(** The budget as the next request reads it back from the table. *)
Definition reread (id : Z) (limit_pln spent_pln : float) (w : world)
  : option budget_dict :=
  match find (fun b => b_id b =? id) (budgets_table w) with
  | Some b => Some (notify_payload b limit_pln spent_pln)
  | None => None
  end.

(** The loop of [budgets()] read as two filtered sums that continue from
    the running values; a budget without a category leaves the fallback
    values alone. *)
Definition tally_from (b : budget_row) (start_date end_date : Z)
  (acc : tally) (transactions : list txn_view) : tally :=
  let m := matched b start_date end_date transactions in
  let f := fallback b start_date end_date transactions in
  {| spent_pln := fold_left (fun s txn => (s + v_amount_pln txn)%float) m (spent_pln acc);
     total_transactions := total_transactions acc + count m;
     fallback_spent_pln :=
       if has_category b
       then fold_left (fun s txn => (s + v_amount_pln txn)%float) f (fallback_spent_pln acc)
       else fallback_spent_pln acc;
     fallback_total :=
       if has_category b then fallback_total acc + count f else fallback_total acc |}.

(** A sequence of [INSERT INTO savings_goal_contributions], each with its
    goal and amount; a statement that fails changes nothing. *)
Definition insert_all (inserts : list (Z * float)) (w : world) : world :=
  fold_left (fun w i => snd (insert_contribution (fst i) (snd i) w)) inserts w.

(** The stored total of the goal [id] is the sum of its contributions. *)
Definition total_agrees (id : Z) (w : world) : Prop :=
  exists g,
    select_goal id (savings_goals_table w) = Some g
    /\ g_current_amount g = sql_real (contributed id (savings_goal_contributions w)).

(* ===================================================================== *)
(** ** Calendar arithmetic: [end_of_month], [add_months], [next_recurring_date], the dashboard window *)
(* ===================================================================== *)

(** [date.min] and [date.max] as day numbers: 0001-01-01 and 9999-12-31. *)
Definition date_min : Z := -719162.
Definition date_max : Z := 2932896.

(** What date arithmetic raises when a value leaves the range of [date]:
    the constructor [ValueError], an addition [OverflowError]. *)
Inductive date_error := DateValueError | DateOverflowError.

(** The length of a month in the calendar of [date]. *)
Definition days_in_month (year month : Z) : Z :=
  if month =? 2 then
    if ((year mod 4 =? 0) && (negb (year mod 100 =? 0) || (year mod 400 =? 0)))%bool
    then 29 else 28
  else if ((month =? 4) || (month =? 6) || (month =? 9) || (month =? 11))%bool
       then 30 else 31.

(** [date(year, month, day)]. *)
Definition py_date (year month day : Z) : date_error + Z :=
  if ((1 <=? year) && (year <=? 9999) && (1 <=? month) && (month <=? 12)
      && (1 <=? day) && (day <=? days_in_month year month))%bool
  then inr (days_of_civil year month day)
  else inl DateValueError.

(** [value + timedelta(days=n)]. *)
Definition date_add_days (value n : Z) : date_error + Z :=
  if ((date_min <=? value + n) && (value + n <=? date_max))%bool
  then inr (value + n)
  else inl DateOverflowError.

(** The list literal of [add_months], for the year it is built in. *)
Definition month_lengths (year : Z) : list Z :=
  [31;
   if ((year mod 4 =? 0) && (negb (year mod 100 =? 0) || (year mod 400 =? 0)))%bool
   then 29 else 28;
   31; 30; 31; 30; 31; 31; 30; 31; 30; 31].

(** [add_months(base_date, months)]. *)
Definition add_months (base_date months : Z) : date_error + Z :=
  let '(base_year, base_month, base_day) := civil_of_days base_date in
  let month := base_month - 1 + months in
  let year := base_year + month / 12 in
  let month := month mod 12 + 1 in
  let day := Z.min base_day (nth (Z.to_nat (month - 1)) (month_lengths year) 0) in
  py_date year month day.

(** [next_recurring_date(current_date, frequency)]. *)
Definition next_recurring_date (current_date : Z) (frequency : string)
  : date_error + Z :=
  if (frequency =? "daily")%string then date_add_days current_date 1
  else if (frequency =? "weekly")%string then date_add_days current_date 7
  else if (frequency =? "monthly")%string then add_months current_date 1
  else if (frequency =? "quarterly")%string then add_months current_date 3
  else if (frequency =? "yearly")%string then add_months current_date 12
  else date_add_days current_date 30.

(** [end_of_month(value)] with the range of [date]: the 28th of the month
    plus four days must not pass [date.max]. *)
Definition end_of_month_checked (value : Z) : date_error + Z :=
  match date_add_days (first_of_month value + 27) 4 with
  | inl e => inl e
  | inr next => inr (first_of_month next - 1)
  end.

(** The [while] loop at 783-799 of [process_recurring_transactions], read
    for its dates: the days for which the body runs, in order, and
    [next_date] when the loop ends.  The body, which inserts one
    transaction per turn, does not touch the variables of the test and is
    taken to return.  [fuel] bounds the number of turns; [None] tells that
    it ran out. *)
Fixpoint due_dates (fuel : nat) (today : Z) (end_date : option Z)
  (frequency : string) (next_date : Z) : option (date_error + list Z * Z) :=
  match fuel with
  | O => None
  | S fuel' =>
      if ((next_date <=? today)
          && match end_date with
             | None => true
             | Some e => next_date <=? e
             end)%bool
      then
        match next_recurring_date next_date frequency with
        | inl e => Some (inl e)
        | inr next =>
            match due_dates fuel' today end_date frequency next with
            | Some (inr (dates, final)) => Some (inr (next_date :: dates, final))
            | r => r
            end
        end
      else Some (inr ([], next_date))
  end.

(** [value.weekday()]: Monday is 0; day 0, the first of January 1970, was
    a Thursday. *)
Definition weekday (value : Z) : Z := (value + 3) mod 7.

(** Lines 2202-2211 of [dashboard_summary]: the window, as the two texts
    the queries are given.  In the monthly branch [end_of_month] runs only
    when no [end_date] is passed, its result is overwritten, and [start]
    is set a second time. *)
Definition dashboard_period (today : Z) (period : string)
  (start_date end_date : option string) : date_error + string * string :=
  let start :=
    if (period =? "weekly")%string then
      match date_add_days today (- weekday today) with
      | inl e => inl e
      | inr monday => inr (date_isoformat monday)
      end
    else if (period =? "monthly")%string then
      let unused_end :=
        if str_truthy end_date then inr (str_or end_date "")
        else match end_of_month_checked today with
             | inl e => inl e
             | inr last => inr (date_isoformat last)
             end in
      match unused_end with
      | inl e => inl e
      | inr _ =>
          let '(year, _, _) := civil_of_days today in
          inr (date_isoformat (days_of_civil year 1 1))
      end
    else inr (str_or start_date (date_isoformat (first_of_month today))) in
  match start with
  | inl e => inl e
  | inr start => inr (start, str_or end_date (date_isoformat today))
  end.

(* ===================================================================== *)
(** ** Text: [slugify], the security questions, and the two validators *)
(* ===================================================================== *)

(** One character of [s.lower()]. *)
Definition lower_char (c : ascii) : ascii :=
  let n := nat_of_ascii c in
  if (Nat.leb 65 n && Nat.leb n 90)%bool then ascii_of_nat (n + 32) else c.

(** [s.lower()]. *)
Fixpoint lower (s : string) : string :=
  match s with
  | EmptyString => EmptyString
  | String c s' => String (lower_char c) (lower s')
  end.

(** The class [[a-z0-9]]. *)
Definition is_slug_char (c : ascii) : bool :=
  let n := nat_of_ascii c in
  ((Nat.leb 97 n && Nat.leb n 122) || (Nat.leb 48 n && Nat.leb n 57))%bool.

(** The replacement character. *)
Definition hyphen : ascii := "-"%char.

(** [re.sub(r'[^a-z0-9]+', '-', s)]: every maximal run of characters
    outside the class becomes one hyphen.  [in_run] tells that the
    character before belongs to such a run. *)
Fixpoint sub_runs (in_run : bool) (s : string) : string :=
  match s with
  | EmptyString => EmptyString
  | String c s' =>
      if is_slug_char c then String c (sub_runs false s')
      else if in_run then sub_runs true s'
           else String hyphen (sub_runs true s')
  end.

(** [s.lstrip('-')], [s.rstrip('-')] and [s.strip('-')]. *)
Fixpoint lstrip_hyphens (s : string) : string :=
  match s with
  | EmptyString => EmptyString
  | String c s' => if Ascii.eqb c hyphen then lstrip_hyphens s' else s
  end.

Fixpoint rstrip_hyphens (s : string) : string :=
  match s with
  | EmptyString => EmptyString
  | String c s' =>
      let r := rstrip_hyphens s' in
      if (Ascii.eqb c hyphen && (r =? "")%string)%bool then EmptyString
      else String c r
  end.

Definition strip_hyphens (s : string) : string :=
  rstrip_hyphens (lstrip_hyphens s).

(** [slugify(value)]. *)
Definition slugify (value : string) : string :=
  let slug := sub_runs false (lower value) in
  let slug := strip_hyphens slug in
  if (slug =? "")%string then "category"%string else slug.

(** The dict of question keys and their wording. *)
Definition SECURITY_QUESTION_CHOICES : list (string * string) :=
  [("pet_name", "Imię Twojego pupila");
   ("childhood_friend", "Imię Twojego najlepszego przyjaciela z dzieciństwa");
   ("birth_city", "Miasto urodzenia Twojej mamy");
   ("favorite_teacher", "Imię ulubionego nauczyciela");
   ("first_school", "Nazwa Twojej pierwszej szkoły")]%string.

(** [normalize_security_question_key(value)]. *)
Definition normalize_security_question_key (value : option string)
  : option string :=
  if str_truthy value then Some (lower (strip (str_or value ""))) else None.

(** [is_security_question_valid(value)]; [None] is not a key of the
    dict. *)
Definition is_security_question_valid (value : option string) : bool :=
  match normalize_security_question_key value with
  | Some normalized =>
      match assoc normalized SECURITY_QUESTION_CHOICES with
      | Some _ => true
      | None => false
      end
  | None => false
  end.

(** The regular expressions of the two validators: the empty set, the
    empty word, one character of a class, sequence, choice, repetition. *)
Inductive regex :=
| Void
| Eps
| Chars (p : ascii -> bool)
| Cat (r1 r2 : regex)
| Alt (r1 r2 : regex)
| Star (r : regex).

(** [r+] and [r{n,}]. *)
Definition Plus (r : regex) : regex := Cat r (Star r).

Fixpoint AtLeast (n : nat) (r : regex) : regex :=
  match n with
  | O => Star r
  | S n' => Cat r (AtLeast n' r)
  end.

(** [r] has the empty word. *)
Fixpoint nullable (r : regex) : bool :=
  match r with
  | Void => false
  | Eps => true
  | Chars _ => false
  | Cat r1 r2 => nullable r1 && nullable r2
  | Alt r1 r2 => nullable r1 || nullable r2
  | Star _ => true
  end.

(** What is left of [r] after the character [c]. *)
Fixpoint deriv (c : ascii) (r : regex) : regex :=
  match r with
  | Void => Void
  | Eps => Void
  | Chars p => if p c then Eps else Void
  | Cat r1 r2 =>
      if nullable r1 then Alt (Cat (deriv c r1) r2) (deriv c r2)
      else Cat (deriv c r1) r2
  | Alt r1 r2 => Alt (deriv c r1) (deriv c r2)
  | Star r1 => Cat (deriv c r1) (Star r1)
  end.

(** [r] matches the whole of [s]. *)
Fixpoint matches (r : regex) (s : string) : bool :=
  match s with
  | EmptyString => nullable r
  | String c s' => matches (deriv c r) s'
  end.

(** [r] matches a prefix of [s]: a lookahead [(?=r)] at the start. *)
Fixpoint matches_prefix (r : regex) (s : string) : bool :=
  (nullable r
   || match s with
      | EmptyString => false
      | String c s' => matches_prefix (deriv c r) s'
      end)%bool.

(** The line feed. *)
Definition newline : ascii := ascii_of_nat 10.

(** [s] without its last character when that is a newline. *)
Fixpoint chomp (s : string) : option string :=
  match s with
  | EmptyString => None
  | String c s' =>
      match s' with
      | EmptyString => if Ascii.eqb c newline then Some EmptyString else None
      | _ => match chomp s' with
             | Some r => Some (String c r)
             | None => None
             end
      end
  end.

(** [re.compile('^' r '$').match(s)]: [$] holds at the end of the text
    and before a newline that ends it. *)
Definition match_anchored (r : regex) (s : string) : bool :=
  (matches r s
   || match chomp s with
      | Some s' => matches r s'
      | None => false
      end)%bool.

(** The classes [[^@\s]], [@], [\.], [[A-Za-z]], [\d] and [.]. *)
Definition is_at (c : ascii) : bool := Ascii.eqb c "@"%char.
Definition is_dot (c : ascii) : bool := Ascii.eqb c "."%char.
Definition is_address_char (c : ascii) : bool := negb (is_at c || is_space c).
Definition is_letter (c : ascii) : bool :=
  let n := nat_of_ascii c in
  ((Nat.leb 65 n && Nat.leb n 90) || (Nat.leb 97 n && Nat.leb n 122))%bool.
Definition is_digit (c : ascii) : bool :=
  let n := nat_of_ascii c in (Nat.leb 48 n && Nat.leb n 57)%bool.
Definition not_newline (c : ascii) : bool := negb (Ascii.eqb c newline).

(** [EMAIL_REGEX], between its anchors. *)
Definition EMAIL_REGEX : regex :=
  Cat (Plus (Chars is_address_char))
    (Cat (Chars is_at)
       (Cat (Plus (Chars is_address_char))
          (Cat (Chars is_dot) (Plus (Chars is_address_char))))).

(** [is_valid_email(email)]. *)
Definition is_valid_email (email : string) : bool :=
  (negb (email =? "")%string && match_anchored EMAIL_REGEX email)%bool.

(** The two lookaheads of [PASSWORD_REGEX] and what follows them. *)
Definition PASSWORD_HAS_LETTER : regex := Cat (Star (Chars not_newline)) (Chars is_letter).
Definition PASSWORD_HAS_DIGIT : regex := Cat (Star (Chars not_newline)) (Chars is_digit).
Definition PASSWORD_BODY : regex := AtLeast 6 (Chars not_newline).

(** [is_strong_password(password)]. *)
Definition is_strong_password (password : string) : bool :=
  (negb (password =? "")%string
   && matches_prefix PASSWORD_HAS_LETTER password
   && matches_prefix PASSWORD_HAS_DIGIT password
   && match_anchored PASSWORD_BODY password)%bool.

(* ===================================================================== *)
(** ** Accounts: [resolve_user_id] *)
(* ===================================================================== *)

(** Table [users], the columns that identify an account. *)
Record account_row := {
  acc_id : Z;
  acc_email : string;
  acc_role : option string
}.

(** [SELECT * FROM users WHERE email = ?] and [fetchone()]. *)
Definition get_user_by_email (email : string) (t : list account_row)
  : option account_row :=
  find (fun a => (acc_email a =? email)%string) t.

(** [current.get('role') != 'admin']. *)
Definition not_admin (current : account_row) : bool :=
  match acc_role current with
  | Some role => negb (role =? "admin")%string
  | None => true
  end.

(** [resolve_user_id(cursor, email)]; [current] is [g.current_user], the
    account of the session when the request is authenticated. *)
Definition resolve_user_id (current : option account_row)
  (t : list account_row) (email : option string) : option Z :=
  let by_email :=
    if negb (str_truthy email) then None
    else match get_user_by_email (str_or email "") t with
         | None => None
         | Some user =>
             match current with
             | Some c =>
                 if (not_admin c && negb (acc_id user =? acc_id c))%bool then None
                 else Some (acc_id user)
             | None => Some (acc_id user)
             end
         end in
  match current with
  | Some c =>
      let own := (str_or email "" =? acc_email c)%string in
      if (str_truthy email && negb own && not_admin c)%bool then None
      else if (negb (str_truthy email) || own)%bool then Some (acc_id c)
      else by_email
  | None => by_email
  end.

(* ===================================================================== *)
(** ** Default categories: [seed_default_categories] and [seed_all_users] *)
(* ===================================================================== *)

(** Table [categories]. *)
Record category_row := {
  cat_id : Z;
  cat_user_id : Z;
  cat_name : string;
  cat_type : string;
  cat_color : option string;
  cat_icon_url : option string
}.

(** One dict of the list of defaults. *)
Record category_template := {
  tpl_name : string;
  tpl_color : string;
  tpl_icon_url : string
}.

(** [get_default_expense_categories()]. *)
Definition get_default_expense_categories : list category_template :=
  [ {| tpl_name := "Zakupy spożywcze"; tpl_color := "#27ae60";
       tpl_icon_url := "https://img.icons8.com/color/96/ingredients.png" |};
    {| tpl_name := "Restauracje i kawiarnie"; tpl_color := "#e67e22";
       tpl_icon_url := "https://img.icons8.com/color/96/restaurant.png" |};
    {| tpl_name := "Transport"; tpl_color := "#2980b9";
       tpl_icon_url := "https://img.icons8.com/color/96/car.png" |};
    {| tpl_name := "Mieszkanie i rachunki"; tpl_color := "#8e44ad";
       tpl_icon_url := "https://img.icons8.com/color/96/home.png" |};
    {| tpl_name := "Rozrywka"; tpl_color := "#f39c12";
       tpl_icon_url := "https://img.icons8.com/color/96/popcorn.png" |};
    {| tpl_name := "Zdrowie i uroda"; tpl_color := "#d35400";
       tpl_icon_url := "https://img.icons8.com/color/96/spa.png" |};
    {| tpl_name := "Edukacja"; tpl_color := "#16a085";
       tpl_icon_url := "https://img.icons8.com/color/96/graduation-cap.png" |};
    {| tpl_name := "Podróże"; tpl_color := "#1abc9c";
       tpl_icon_url := "https://img.icons8.com/color/96/around-the-globe.png" |};
    {| tpl_name := "Prezenty"; tpl_color := "#c0392b";
       tpl_icon_url := "https://img.icons8.com/color/96/gift.png" |};
    {| tpl_name := "Hobby i sport"; tpl_color := "#9b59b6";
       tpl_icon_url := "https://img.icons8.com/color/96/dumbbell.png" |};
    {| tpl_name := "Zwierzęta"; tpl_color := "#2c3e50";
       tpl_icon_url := "https://img.icons8.com/color/96/dog.png" |};
    {| tpl_name := "Inne wydatki"; tpl_color := "#7f8c8d";
       tpl_icon_url := "https://img.icons8.com/color/96/more.png" |} ]%string.

(** [SELECT name FROM categories WHERE user_id = ? AND type = 'expense'],
    as the set [existing_names]. *)
Definition expense_names (user_id : Z) (t : list category_row) : list string :=
  map cat_name
    (filter (fun r => ((cat_user_id r =? user_id) && (cat_type r =? "expense")%string)%bool) t).

(** The row one template is inserted as. *)
Definition category_of (user_id : Z) (template : category_template)
  (t : list category_row) : category_row :=
  {| cat_id := next_id (map cat_id t); cat_user_id := user_id;
     cat_name := tpl_name template; cat_type := "expense";
     cat_color := Some (tpl_color template);
     cat_icon_url := Some (tpl_icon_url template) |}.

(** One turn of the loop at 713-731 on [existing_names] and the table. *)
Definition seed_step (user_id : Z) (state : list string * list category_row)
  (template : category_template) : list string * list category_row :=
  let '(existing_names, t) := state in
  if existsb (String.eqb (tpl_name template)) existing_names then state
  else (tpl_name template :: existing_names,
        t ++ [category_of user_id template t]).

(** [seed_default_categories(user_id)] on the table. *)
Definition seed_default_categories (user_id : Z) (t : list category_row)
  : list category_row :=
  snd (fold_left (seed_step user_id) get_default_expense_categories
         (expense_names user_id t, t)).

(** [_count_categories(user_id)]. *)
Definition _count_categories (user_id : Z) (t : list category_row) : Z :=
  Z.of_nat (List.length (filter (fun r => cat_user_id r =? user_id) t)).

(** Insertion into an ascending list. *)
Fixpoint insert_sorted (x : Z) (l : list Z) : list Z :=
  match l with
  | [] => [x]
  | y :: l' => if x <=? y then x :: l else y :: insert_sorted x l'
  end.

(** [SELECT id FROM users ORDER BY id ASC]. *)
Definition _collect_user_ids (users : list user_row) : list Z :=
  fold_right insert_sorted [] (map u_id users).

(** What [seed_all_users] prints. *)
Inductive seed_report :=
| NoUsers
| Updated (accounts : Z) (categories : Z).

(** [seed_all_users()] on a database whose schema is in place. *)
Definition seed_all_users (users : list user_row) (t : list category_row)
  : list category_row * seed_report :=
  let user_ids := _collect_user_ids users in
  match user_ids with
  | [] => (t, NoUsers)
  | _ =>
      let '(t', total_categories) :=
        fold_left
          (fun '(t, total_categories) user_id =>
             let before_categories := _count_categories user_id t in
             let t' := seed_default_categories user_id t in
             (t', total_categories + (_count_categories user_id t' - before_categories)))
          user_ids (t, 0) in
      (t', Updated (Z.of_nat (List.length user_ids)) total_categories)
  end.

(* ===================================================================== *)
(** ** A world whose source answers *)
(* ===================================================================== *)

(** No cache file, and a source that answers with two quotations, one
    under a lower-case code and one whose rate is text. *)
Definition answering_world : world :=
  set_http
    [{| latency := us_per_second;
        outcome :=
          Response 200
            (Some (JList
                     [JDict
                        [("rates"%string,
                          JList [JDict [("code"%string, JStr "eur");
                                        ("mid"%string, JNum 4.5)];
                                 JDict [("code"%string, JStr "USD");
                                        ("mid"%string, JStr "4")]])]])) |}]
    quiet_world.

(* ===================================================================== *)
(** ** The vocabulary of the further properties *)
(* ===================================================================== *)

(** The keys of a dict of extracted rates: one entry per code, each code
    non-empty and already upper-cased. *)
Definition rate_codes (l : list (string * float)) : Prop :=
  NoDup (map fst l)
  /\ forall k, In k (map fst l) -> k <> ""%string /\ upper k = k.

(** The world a forced refresh leaves when the source answers. *)
Definition refreshed `{PyLib} (extracted : list (string * float)) (w1 : world) : world :=
  let stamp := datetime_isoformat (datetime_of_us (clock w1)) in
  let stored :=
    set_currency_rates (rate_rows (sanitize (map (fun kv => (fst kv, JNum (snd kv))) extracted))
                          (JStr stamp)) w1 in
  if cache_writable w1
  then set_cache_file
         (Some (JsonText (JDict [("fetched_at"%string, JStr stamp);
                                 ("rates"%string, rates_json extracted)]))) stored
  else set_log (log w1 ++ [CacheWriteFailed]) stored.

(** The ledger tables and the server's settings are as they were. *)
Definition keeps_ledgers (w w' : world) : Prop :=
  users w' = users w
  /\ budgets_table w' = budgets_table w
  /\ transactions_table w' = transactions_table w
  /\ savings_goals_table w' = savings_goals_table w
  /\ savings_goal_contributions w' = savings_goal_contributions w
  /\ tz_offset w' = tz_offset w
  /\ cache_writable w' = cache_writable w.

(** The exceptions that a refresh of the rates lets through. *)
Definition refresh_error (e : exn) : Prop :=
  e = UnicodeDecodeError \/ e = TypeError \/ e = AttributeError
  \/ e = IntegrityError \/ e = InterfaceError.

(** Every run of [c] keeps the ledger and raises only such exceptions. *)
Definition contained {A} (c : py A) : Prop :=
  bounded keeps_ledgers refresh_error c.

(** A pure step raises only such exceptions. *)
Definition pure_contained {A} (r : exn + A) : Prop :=
  forall e, r = inl e -> refresh_error e.

(** A budget row without its notification stamp. *)
Definition forget_stamp (b : budget_row) : budget_row :=
  {| b_id := b_id b; b_user_id := b_user_id b;
     b_category_id := b_category_id b; b_name := b_name b;
     b_limit_amount := b_limit_amount b;
     b_budget_type := b_budget_type b;
     b_start_date := b_start_date b; b_end_date := b_end_date b;
     b_last_notified_at := None |}.

(** The ledger is as it was, but for the notification stamps of the
    budgets. *)
Definition only_stamps (w w' : world) : Prop :=
  users w' = users w
  /\ transactions_table w' = transactions_table w
  /\ savings_goals_table w' = savings_goals_table w
  /\ savings_goal_contributions w' = savings_goal_contributions w
  /\ tz_offset w' = tz_offset w
  /\ cache_writable w' = cache_writable w
  /\ map forget_stamp (budgets_table w') = map forget_stamp (budgets_table w).

(** Every run of [c] writes stamps only and raises only such exceptions. *)
Definition stamping {A} (c : py A) : Prop := bounded only_stamps refresh_error c.

(** Every run of [c] keeps the ledger, whatever it raises. *)
Definition framed {A} (c : py A) : Prop :=
  bounded keeps_ledgers (fun _ => True) c.

(** A calendar date. *)
Definition valid_date (y m d : Z) : Prop :=
  1 <= m <= 12 /\ 1 <= d <= days_in_month y m.

(** Months counted from year 0: the index of a month and back. *)
Definition month_index (y m : Z) : Z := 12 * y + (m - 1).

(** The first day and the length of the month with a given index. *)
Definition month_start (i : Z) : Z := days_of_civil (i / 12) (i mod 12 + 1) 1.
Definition month_length (i : Z) : Z := days_in_month (i / 12) (i mod 12 + 1).

(** [p] holds of the [n] integers from [z] on. *)
Fixpoint all_from (n : nat) (p : Z -> bool) (z : Z) : bool :=
  match n with
  | O => true
  | S n' => p z && all_from n' p (z + 1)
  end.

(** Every day number is a calendar date, and is the number of that date. *)
Definition day_ok (z : Z) : bool :=
  let '(y, m, d) := civil_of_days z in
  ((1 <=? m) && (m <=? 12) && (1 <=? d) && (d <=? days_in_month y m)
   && (days_of_civil y m d =? z))%bool.

(** A month starts where the month before it ends. *)
Definition month_ok (i : Z) : bool :=
  (month_start (i + 1) =? month_start i + month_length i).

(** The day is not after [end_date], when there is one. *)
Definition within (end_date : option Z) (d : Z) : Prop :=
  match end_date with
  | Some e => d <= e
  | None => True
  end.

(** Words of [[a-z0-9]] joined by single hyphens; [after_hyphen] tells
    that a word must start here. *)
Fixpoint hyphenated (after_hyphen : bool) (s : string) : bool :=
  match s with
  | EmptyString => negb after_hyphen
  | String c s' =>
      if is_slug_char c then hyphenated false s'
      else (Ascii.eqb c hyphen && negb after_hyphen && hyphenated true s')%bool
  end.

(** A slug: one word or more of [[a-z0-9]], joined by single hyphens. *)
Definition is_slug (s : string) : bool :=
  (negb (s =? "")%string && hyphenated true s)%bool.

(** The runs are replaced: what comes out is a chain of words and single
    hyphens that may start and end with a hyphen. *)
Fixpoint chain (after_hyphen : bool) (s : string) : bool :=
  match s with
  | EmptyString => true
  | String c s' =>
      if is_slug_char c then chain false s'
      else (Ascii.eqb c hyphen && negb after_hyphen && chain true s')%bool
  end.

(** The words of a regular expression. *)
Inductive lang : regex -> string -> Prop :=
| lang_eps : lang Eps ""
| lang_class p c : p c = true -> lang (Chars p) (String c "")
| lang_cat r1 r2 s1 s2 : lang r1 s1 -> lang r2 s2 -> lang (Cat r1 r2) (s1 ++ s2)
| lang_alt_l r1 r2 s : lang r1 s -> lang (Alt r1 r2) s
| lang_alt_r r1 r2 s : lang r2 s -> lang (Alt r1 r2) s
| lang_star_nil r : lang (Star r) ""
| lang_star_cons r s1 s2 : lang r s1 -> lang (Star r) s2 -> lang (Star r) (s1 ++ s2).

(** Every character of [s] is in the class. *)
Fixpoint all_chars (p : ascii -> bool) (s : string) : bool :=
  match s with
  | EmptyString => true
  | String c s' => p c && all_chars p s'
  end.

(** Some character of [s] is in the class. *)
Fixpoint some_char (p : ascii -> bool) (s : string) : bool :=
  match s with
  | EmptyString => false
  | String c s' => p c || some_char p s'
  end.

(** A non-empty word of characters that are neither [@] nor space. *)
Definition address_part (s : string) : Prop :=
  s <> ""%string /\ all_chars is_address_char s = true.

(** A character of the class occurs on the first line of [s]. *)
Fixpoint first_line_has (p : ascii -> bool) (s : string) : bool :=
  match s with
  | EmptyString => false
  | String c s' => (p c || (not_newline c && first_line_has p s'))%bool
  end.

(** The user has an expense category of that name. *)
Definition has_expense_category (user_id : Z) (name : string)
  (t : list category_row) : Prop :=
  exists r, In r t /\ cat_user_id r = user_id /\ cat_type r = "expense"%string
            /\ cat_name r = name.

(** The state of the loop: the names are those of the user's expense
    categories, and the table has grown by rows for the user. *)
Definition seeding (user_id : Z) (t0 : list category_row)
  (state : list string * list category_row) : Prop :=
  (forall name, In name (fst state) <-> has_expense_category user_id name (snd state))
  /\ exists added,
       snd state = t0 ++ added
       /\ NoDup (map cat_name added)
       /\ forall r, In r added ->
            cat_user_id r = user_id /\ cat_type r = "expense"%string
            /\ ~ has_expense_category user_id (cat_name r) t0.

(** The loop of [seed_all_users] over any list of ids. *)
Definition seed_each (user_ids : list Z) (start : list category_row * Z)
  : list category_row * Z :=
  fold_left
    (fun '(t, total_categories) user_id =>
       let before_categories := _count_categories user_id t in
       let t' := seed_default_categories user_id t in
       (t', total_categories + (_count_categories user_id t' - before_categories)))
    user_ids start.

(* ===================================================================== *)
(** * Properties *)
(* ===================================================================== *)

(** ** Running a computation *)

Lemma bind_run {A B} (c : py A) (k : A -> py B) w a w' :
  c w = (Ret a, w') -> bind c k w = k a w'.
Proof. intros Hc. unfold bind. now rewrite Hc. Qed.

Section Bounded.
Variable R : world -> world -> Prop.
Variable E : exn -> Prop.
Hypothesis R_refl : forall w, R w w.
Hypothesis R_trans : forall w1 w2 w3, R w1 w2 -> R w2 w3 -> R w1 w3.

Lemma bounded_ret {A} (a : A) : bounded R E (ret a).
Proof. intros w; split; [apply R_refl | discriminate]. Qed.

Lemma bounded_gets {A} (f : world -> A) : bounded R E (gets f).
Proof. intros w; split; [apply R_refl | discriminate]. Qed.

Lemma bounded_raise {A} (e : exn) : E e -> bounded R E (@raise A e).
Proof. intros He w; split; [apply R_refl | cbn; congruence]. Qed.

Lemma bounded_modify (f : world -> world) :
  (forall w, R w (f w)) -> bounded R E (modify f).
Proof. intros Hf w; split; [apply Hf | discriminate]. Qed.

Lemma bounded_lift {A} (r : exn + A) :
  (forall e, r = inl e -> E e) -> bounded R E (lift r).
Proof.
  intros Hr. destruct r as [e | a]; cbn.
  - apply bounded_raise. now apply Hr.
  - apply bounded_ret.
Qed.

Lemma bounded_bind {A B} (c : py A) (k : A -> py B) :
  bounded R E c -> (forall a, bounded R E (k a)) -> bounded R E (bind c k).
Proof.
  intros Hc Hk w. unfold bind.
  destruct (Hc w) as [HR HE].
  destruct (c w) as [[a | e] w'] eqn:Hcw; cbn in *.
  - destruct (Hk a w') as [HR' HE']. split; eauto.
  - split; [assumption |]. intros e' He'. inversion He'; subst. now apply HE.
Qed.

Lemma bounded_try_except {A} (c : py A) (catches : exn -> bool) (h : exn -> py A) :
  (forall w, R w (snd (c w)) /\
             forall e, fst (c w) = Raise e -> catches e = false -> E e) ->
  (forall e, bounded R E (h e)) -> bounded R E (try_except c catches h).
Proof.
  intros Hc Hh w. unfold try_except.
  destruct (Hc w) as [HR HE].
  destruct (c w) as [[a | e] w'] eqn:Hcw; cbn in *.
  - split; [assumption | discriminate].
  - destruct (catches e) eqn:Hcatch.
    + destruct (Hh e w') as [HR' HE']. split; eauto.
    + split; [assumption |]. intros e' He'. inversion He'; subst. now apply HE.
Qed.

End Bounded.

(** ** Conversion never divides by zero *)

Lemma any_world_refl w : any_world w w.
Proof. exact I. Qed.

Lemma any_world_trans w1 w2 w3 :
  any_world w1 w2 -> any_world w2 w3 -> any_world w1 w3.
Proof. intros; exact I. Qed.

Create HintDb nozd.
#[local] Hint Resolve any_world_refl any_world_trans : nozd.
#[local] Hint Extern 1 (not_zero_division _) =>
  (unfold not_zero_division; congruence) : nozd.
#[local] Hint Extern 1 (any_world _ _) => exact I : nozd.

Ltac pure_cases :=
  unfold pure_nozd, not_zero_division; intros; congruence.

Lemma nozd_ret {A} (a : A) : no_zero_division (ret a).
Proof. apply bounded_ret; auto with nozd. Qed.

Lemma nozd_gets {A} (f : world -> A) : no_zero_division (gets f).
Proof. apply bounded_gets; auto with nozd. Qed.

Lemma nozd_modify f : no_zero_division (modify f).
Proof. apply bounded_modify; auto with nozd. Qed.

Lemma nozd_raise {A} e : e <> ZeroDivisionError -> no_zero_division (@raise A e).
Proof. intros; apply bounded_raise; auto with nozd. Qed.

Lemma nozd_lift {A} (r : exn + A) : pure_nozd r -> no_zero_division (lift r).
Proof. intros Hr; apply bounded_lift; auto with nozd. Qed.

Lemma nozd_bind {A B} (c : py A) (k : A -> py B) :
  no_zero_division c -> (forall a, no_zero_division (k a)) ->
  no_zero_division (bind c k).
Proof. apply bounded_bind; auto with nozd. Qed.

Lemma nozd_try_except {A} (c : py A) catches (h : exn -> py A) :
  no_zero_division c -> (forall e, no_zero_division (h e)) ->
  no_zero_division (try_except c catches h).
Proof.
  intros Hc Hh. apply bounded_try_except; auto with nozd.
  intros w. destruct (Hc w) as [HR HE]. split; auto.
Qed.

Lemma nozd_log_emit r : no_zero_division (log_emit r).
Proof. apply nozd_modify. Qed.

Lemma nozd_utcnow : no_zero_division utcnow.
Proof. apply nozd_gets. Qed.

#[local] Hint Resolve nozd_ret nozd_gets nozd_modify nozd_lift nozd_log_emit
  nozd_utcnow : nozd.

Ltac nozd :=
  repeat first
    [ progress auto with nozd
    | apply nozd_raise; congruence
    | apply nozd_bind; [| intros ]
    | apply nozd_try_except; [| intros ]
    | match goal with
      | |- no_zero_division (if ?b then _ else _) => destruct b
      | |- no_zero_division (match ?x with _ => _ end) => destruct x
      end ].

Lemma py_get_nozd v k : pure_nozd (py_get v k).
Proof. destruct v; cbn; pure_cases. Qed.

Lemma py_items_nozd v : pure_nozd (py_items v).
Proof. destruct v; cbn; pure_cases. Qed.

Lemma py_first_nozd v : pure_nozd (py_first v).
Proof. destruct v as [| | | [|] | [|] |]; cbn; pure_cases. Qed.

Lemma py_item_nozd v k : pure_nozd (py_item v k).
Proof. destruct v; cbn; try pure_cases. destruct (assoc k d); pure_cases. Qed.

Lemma py_iter_nozd v : pure_nozd (py_iter v).
Proof. destruct v; cbn; pure_cases. Qed.

Lemma py_upper_nozd v : pure_nozd (py_upper v).
Proof. destruct v; cbn; pure_cases. Qed.

Lemma datetime_sub_nozd a b : pure_nozd (datetime_sub a b).
Proof.
  unfold datetime_sub.
  destruct (dt_utcoffset a), (dt_utcoffset b); pure_cases.
Qed.

#[local] Hint Resolve py_get_nozd py_items_nozd py_first_nozd py_item_nozd
  py_iter_nozd py_upper_nozd datetime_sub_nozd : nozd.

Section NoZeroDivision.
Context `{PyLib}.

Lemma py_fromisoformat_nozd v : pure_nozd (py_fromisoformat v).
Proof.
  destruct v; cbn; try pure_cases. destruct (fromisoformat s); pure_cases.
Qed.

Lemma raw_rates_of_nozd payload : pure_nozd (raw_rates_of payload).
Proof.
  unfold raw_rates_of. destruct (truthy payload); [| pure_cases].
  destruct (py_first payload) eqn:Hf.
  - intros e' He'. inversion He'; subst. eapply py_first_nozd; eauto.
  - apply py_item_nozd.
Qed.

Lemma extract_step_nozd extracted item : pure_nozd (extract_step extracted item).
Proof.
  unfold extract_step.
  destruct (py_get item "code") as [e | code] eqn:Hc.
  { intros e' He'. inversion He'; subst. eapply py_get_nozd; eauto. }
  destruct (py_get item "mid") as [e | value] eqn:Hm.
  { intros e' He'. inversion He'; subst. eapply py_get_nozd; eauto. }
  destruct (_ && _)%bool; [| pure_cases].
  destruct (py_float value); [| pure_cases].
  destruct (py_upper code) eqn:Hu; [| pure_cases].
  intros e' He'. inversion He'; subst. eapply py_upper_nozd; eauto.
Qed.

Lemma extract_loop_nozd items : forall extracted,
  pure_nozd (extract_loop extracted items).
Proof.
  induction items as [| item rest IH]; intros extracted; cbn; [pure_cases |].
  destruct (extract_step extracted item) eqn:Hs; [| apply IH].
  intros e' He'. inversion He'; subst. eapply extract_step_nozd; eauto.
Qed.

Lemma extract_rates_nozd raw : pure_nozd (extract_rates raw).
Proof.
  unfold extract_rates. destruct (py_iter raw) eqn:Hi; [| apply extract_loop_nozd].
  intros e' He'. inversion He'; subst. eapply py_iter_nozd; eauto.
Qed.

#[local] Hint Resolve py_fromisoformat_nozd raw_rates_of_nozd extract_rates_nozd
  : nozd.

Lemma store_currency_rates_nozd rates fetched :
  no_zero_division (_store_currency_rates rates fetched).
Proof. unfold _store_currency_rates. nozd. Qed.

Lemma json_load_cache_nozd : no_zero_division json_load_cache.
Proof.
  intros w. split; [exact I |]. unfold json_load_cache.
  destruct (cache_file w) as [[| | |]|]; cbn; intros e He; inversion He;
    auto with nozd.
Qed.

Lemma http_get_json_nozd : no_zero_division http_get_json.
Proof.
  intros w. split; [exact I |]. unfold http_get_json.
  destruct (http w) as [| r rest]; cbn; [intros e He; inversion He; auto with nozd |].
  destruct (outcome r) as [| status [body |]]; cbn;
    try destruct (_ && _)%bool; cbn; intros e He; inversion He; auto with nozd.
Qed.

#[local] Hint Resolve store_currency_rates_nozd json_load_cache_nozd
  http_get_json_nozd : nozd.

Lemma read_cache_data_nozd force : no_zero_division (read_cache_data force).
Proof. unfold read_cache_data. nozd. Qed.

Lemma write_cache_nozd fetched extracted :
  no_zero_division (write_cache fetched extracted).
Proof. unfold write_cache. nozd. Qed.

Lemma fetch_failed_nozd now cache_data exc :
  no_zero_division (fetch_failed now cache_data exc).
Proof. unfold fetch_failed. nozd. Qed.

Lemma live_fetch_nozd : no_zero_division live_fetch.
Proof. unfold live_fetch. nozd. Qed.

#[local] Hint Resolve read_cache_data_nozd write_cache_nozd fetch_failed_nozd
  live_fetch_nozd : nozd.

Lemma live_refresh_nozd now cache_data :
  no_zero_division (live_refresh now cache_data).
Proof. unfold live_refresh. nozd. Qed.

Lemma cache_is_fresh_nozd now v : no_zero_division (cache_is_fresh now v).
Proof. unfold cache_is_fresh. nozd. Qed.

#[local] Hint Resolve live_refresh_nozd cache_is_fresh_nozd : nozd.

Lemma ensure_currency_rates_nozd force :
  no_zero_division (ensure_currency_rates force).
Proof. unfold ensure_currency_rates. nozd. Qed.

#[local] Hint Resolve ensure_currency_rates_nozd : nozd.

Lemma get_exchange_rate_nozd currency :
  no_zero_division (get_exchange_rate currency).
Proof. unfold get_exchange_rate. nozd. Qed.

#[local] Hint Resolve get_exchange_rate_nozd : nozd.

Lemma py_div_nozd x y : (y =? 0)%float = false -> pure_nozd (py_div x y).
Proof. intros Hy. unfold py_div. rewrite Hy. pure_cases. Qed.

Lemma convert_amount_nozd amount source target :
  no_zero_division (convert_amount amount source target).
Proof.
  unfold convert_amount. destruct amount as [a |]; [| nozd].
  destruct (_ =? _)%string; [nozd |].
  apply nozd_bind; [nozd | intros source_rate].
  apply nozd_bind; [nozd | intros target_rate].
  destruct (target_rate =? 0)%float eqn:Hz; [nozd |].
  destruct (_ =? _)%string; [nozd |].
  apply nozd_lift. now apply py_div_nozd.
Qed.

End NoZeroDivision.

(** ** Currency codes: trimming and upper-casing *)

Lemma is_space_upper_char c : is_space (upper_char c) = is_space c.
Proof.
  destruct c as [[|] [|] [|] [|] [|] [|] [|] [|]]; reflexivity.
Qed.

Lemma upper_empty s : (upper s =? "")%string = (s =? "")%string.
Proof. destruct s; reflexivity. Qed.

Lemma upper_lstrip s : upper (lstrip s) = lstrip (upper s).
Proof.
  induction s as [| c s IH]; cbn [lstrip upper]; [reflexivity |].
  rewrite is_space_upper_char. destruct (is_space c); [exact IH | reflexivity].
Qed.

Lemma upper_rstrip s : upper (rstrip s) = rstrip (upper s).
Proof.
  induction s as [| c s IH]; cbn [rstrip upper]; [reflexivity |].
  rewrite is_space_upper_char, <- IH, upper_empty.
  destruct (is_space c && _)%bool; reflexivity.
Qed.

Lemma upper_strip s : upper (strip s) = strip (upper s).
Proof. unfold strip. now rewrite upper_rstrip, upper_lstrip. Qed.

(** Codes that [normalize_currency] tells apart are told apart by the
    comparison [convert_amount] makes. *)
Lemma codes_distinct_of_normalized (s t : option string) :
  normalize_currency s "PLN" <> normalize_currency t "PLN" ->
  upper (str_or s "PLN") <> upper (str_or t "PLN").
Proof.
  intros Hne Heq. apply Hne. clear Hne.
  assert (Hnorm : forall v : option string,
             normalize_currency v "PLN"
             = if str_truthy v
               then (if (strip (upper (str_or v "PLN")) =? "")%string then "PLN"%string
                     else strip (upper (str_or v "PLN")))
               else "PLN"%string).
  { intros [v |]; [| reflexivity]. unfold normalize_currency, str_truthy, str_or.
    destruct (v =? "")%string; [reflexivity |]. cbn [negb].
    now rewrite upper_strip. }
  assert (Hfalsy : forall v : option string,
             str_truthy v = false -> upper (str_or v "PLN") = "PLN"%string).
  { intros [v |]; unfold str_truthy, str_or; [| reflexivity].
    destruct (v =? "")%string; [reflexivity | discriminate]. }
  rewrite !Hnorm.
  destruct (str_truthy s) eqn:Hs, (str_truthy t) eqn:Ht.
  - now rewrite Heq.
  - rewrite Heq, (Hfalsy t Ht). reflexivity.
  - rewrite <- Heq, (Hfalsy s Hs). reflexivity.
  - reflexivity.
Qed.

(** ** Conversion with a rate of zero *)

Section ZeroRate.
Context `{PyLib}.

(** C5.  [convert_amount] never raises [ZeroDivisionError], whatever the
    amount, the currencies and the world; and for a non-null amount and two
    currencies whose codes differ (after the upper-casing the function
    applies, so in particular whenever their normalized codes differ), when
    the rate found for the target is 0 the result is the amount times the
    source rate, the division skipped. *)
Theorem convert_amount_zero_rate_guard :
  (forall amount source_currency target_currency w,
      fst (convert_amount amount source_currency target_currency w)
      <> Raise ZeroDivisionError)
  /\
  (forall amount source_currency target_currency source_rate target_rate w w1 w2,
      upper (str_or source_currency "PLN") <> upper (str_or target_currency "PLN") ->
      get_exchange_rate (upper (str_or source_currency "PLN")) w = (Ret source_rate, w1) ->
      get_exchange_rate (upper (str_or target_currency "PLN")) w1 = (Ret target_rate, w2) ->
      (target_rate =? 0)%float = true ->
      convert_amount (Some amount) source_currency target_currency w
      = (Ret (amount * source_rate)%float, w2)).
Proof.
  split.
  - intros amount s t w Hraise.
    destruct (convert_amount_nozd amount s t w) as [_ HE].
    now apply (HE ZeroDivisionError).
  - intros amount s t rs rt w w1 w2 Hne Hs Ht Hz.
    unfold convert_amount.
    apply String.eqb_neq in Hne. rewrite Hne.
    unfold bind. rewrite Hs, Ht, Hz. reflexivity.
Qed.

End ZeroRate.

Lemma convert_amount_zero_rate_guard_witness :
  exists w2,
    convert_amount (H := iso_lib) (Some 100%float) (Some "eur"%string)
      (Some "xts"%string) zero_rate_world = (Ret 450%float, w2).
Proof.
  eexists.
  eapply (proj2 (@convert_amount_zero_rate_guard iso_lib) 100%float
            (Some "eur"%string) (Some "xts"%string) 4.5%float 0%float zero_rate_world).
  - vm_compute. discriminate.
  - vm_compute. reflexivity.
  - vm_compute. reflexivity.
  - vm_compute. reflexivity.
Defined.

(** ** Dicts and the rate table *)

Lemma assoc_dict_set_eq {A} (d : list (string * A)) k v :
  assoc k (dict_set d k v) = Some v.
Proof.
  induction d as [| [k' v'] d IH]; cbn.
  - now rewrite String.eqb_refl.
  - destruct (k' =? k)%string eqn:Hk; cbn; rewrite Hk; auto.
Qed.

Lemma assoc_dict_set_ne {A} (d : list (string * A)) k k' v :
  k <> k' -> assoc k' (dict_set d k v) = assoc k' d.
Proof.
  intros Hne. induction d as [| [k0 v0] d IH]; cbn.
  - apply String.eqb_neq in Hne. now rewrite Hne.
  - destruct (k0 =? k)%string eqn:Hk; cbn.
    + apply String.eqb_eq in Hk. subst k0.
      apply String.eqb_neq in Hne. now rewrite Hne.
    + now rewrite IH.
Qed.

Lemma dict_set_keys_in {A} (d : list (string * A)) k v x :
  In x (map fst (dict_set d k v)) -> x = k \/ In x (map fst d).
Proof.
  induction d as [| [k' v'] d IH]; cbn.
  - intros [<- | []]. now left.
  - destruct (k' =? k)%string; cbn; intuition.
Qed.

Lemma dict_set_NoDup {A} (d : list (string * A)) k v :
  NoDup (map fst d) -> NoDup (map fst (dict_set d k v)).
Proof.
  induction d as [| [k' v'] d IH]; cbn; intros Hd.
  - constructor; [intros [] | constructor].
  - inversion Hd as [| ? ? Hnotin Hd']; subst.
    destruct (k' =? k)%string eqn:Hk; cbn.
    + constructor; assumption.
    + constructor; [| auto].
      intros Hin. apply dict_set_keys_in in Hin. destruct Hin as [-> | Hin].
      * now rewrite String.eqb_refl in Hk.
      * contradiction.
Qed.

Lemma rate_rows_from fetched (s : list (string * float)) : forall t,
  NoDup (map fst s) ->
  (forall r, In r t -> ~ In (currency_code r) (map fst s)) ->
  fold_left (fun t kv => insert_or_replace_rate t (rate_row_of fetched kv)) s t
  = t ++ map (rate_row_of fetched) s.
Proof.
  induction s as [| [k v] s IH]; intros t Hnd Hdisj; cbn [fold_left map].
  - now rewrite app_nil_r.
  - inversion Hnd as [| ? ? Hnotin Hnd']; subst.
    rewrite IH; auto.
    + unfold insert_or_replace_rate; cbn [rate_row_of currency_code fst].
      assert (Hf : filter (fun x => negb (currency_code x =? k)%string) t = t).
      { apply forallb_filter_id. apply forallb_forall. intros r Hr.
        apply negb_true_iff, String.eqb_neq. intros Heq.
        apply (Hdisj r Hr). cbn. now left. }
      rewrite Hf, <- app_assoc. reflexivity.
    + intros r Hr. unfold insert_or_replace_rate in Hr.
      apply in_app_or in Hr. destruct Hr as [Hr | [<- | []]].
      * apply filter_In in Hr. destruct Hr as [Hr _].
        intros Hin. apply (Hdisj r Hr). cbn. now right.
      * cbn. assumption.
Qed.

(** With one entry per code, no [INSERT OR REPLACE] replaces anything. *)
Lemma rate_rows_map s fetched :
  NoDup (map fst s) -> rate_rows s fetched = map (rate_row_of fetched) s.
Proof.
  intros Hnd. unfold rate_rows. rewrite rate_rows_from; auto.
Qed.

Lemma select_rate_map s fetched code :
  select_rate code (map (rate_row_of fetched) s) = assoc code s.
Proof.
  unfold select_rate. induction s as [| [k v] s IH]; cbn; [reflexivity |].
  destruct (k =? code)%string; auto.
Qed.

Section RateTable.
Context `{PyLib}.

Lemma sanitize_step_NoDup d entry :
  NoDup (map fst d) -> NoDup (map fst (sanitize_step d entry)).
Proof.
  intros Hd. destruct entry as [code value]. unfold sanitize_step.
  destruct (code =? "")%string; [assumption |].
  destruct (py_float value); [now apply dict_set_NoDup | assumption].
Qed.

Lemma fold_sanitize_NoDup items : forall d,
  NoDup (map fst d) -> NoDup (map fst (fold_left sanitize_step items d)).
Proof.
  induction items as [| e items IH]; intros d Hd; cbn; auto.
  apply IH. now apply sanitize_step_NoDup.
Qed.

Lemma sanitize_NoDup items : NoDup (map fst (sanitize items)).
Proof.
  apply fold_sanitize_NoDup. cbn. constructor; [intros [] | constructor].
Qed.

(** The table a store leaves maps each code to its sanitized rate. *)
Lemma select_rate_rows items fetched code :
  select_rate code (rate_rows (sanitize items) fetched) = assoc code (sanitize items).
Proof.
  rewrite rate_rows_map by apply sanitize_NoDup. apply select_rate_map.
Qed.

Lemma rate_rows_codes_NoDup items fetched :
  NoDup (map currency_code (rate_rows (sanitize items) fetched)).
Proof.
  rewrite rate_rows_map by apply sanitize_NoDup.
  rewrite map_map. cbn. apply sanitize_NoDup.
Qed.

Lemma sanitize_step_keeps k d entry :
  assoc k d <> None -> assoc k (sanitize_step d entry) <> None.
Proof.
  intros Hk. destruct entry as [code value]. unfold sanitize_step.
  destruct (code =? "")%string; [assumption |].
  destruct (py_float value) as [f |]; [| assumption].
  destruct (String.eqb_spec (upper code) k) as [-> | Hne].
  - rewrite assoc_dict_set_eq. discriminate.
  - now rewrite assoc_dict_set_ne.
Qed.

Lemma fold_sanitize_keeps k items : forall d,
  assoc k d <> None -> assoc k (fold_left sanitize_step items d) <> None.
Proof.
  induction items as [| e items IH]; intros d Hd; cbn; [assumption |].
  apply IH. now apply sanitize_step_keeps.
Qed.

Lemma fold_sanitize_untouched k items : forall d,
  (forall kv, In kv items -> upper (fst kv) <> k) ->
  assoc k (fold_left sanitize_step items d) = assoc k d.
Proof.
  induction items as [| [code value] items IH]; intros d Hk; cbn; [reflexivity |].
  rewrite IH by (intros kv Hkv; apply Hk; now right).
  unfold sanitize_step. destruct (code =? "")%string; [reflexivity |].
  destruct (py_float value) as [f |]; [| reflexivity].
  apply assoc_dict_set_ne. apply (Hk (code, value)). now left.
Qed.

(** ** The refresh, step by step *)

Lemma store_run items fetched w :
  sqlite_bindable fetched = true ->
  is_null fetched = false ->
  existsb (fun kv => is_nan (snd kv)) (sanitize items) = false ->
  _store_currency_rates (JDict items) fetched w
  = (Ret tt, set_currency_rates (rate_rows (sanitize items) fetched) w).
Proof.
  intros Hb Hz Hn. unfold _store_currency_rates. cbn [py_items lift].
  unfold bind, ret. rewrite Hb, Hz, Hn. reflexivity.
Qed.

Lemma read_cache_data_forced w : read_cache_data true w = (Ret JNull, w).
Proof. reflexivity. Qed.

Lemma read_cache_data_none w :
  no_snapshot w ->
  exists v, read_cache_data false w = (Ret v, w) /\ truthy v = false.
Proof.
  unfold no_snapshot, read_cache_data, bind, gets, try_except, json_load_cache.
  cbn. destruct (cache_file w) as [[| | | v] |] eqn:Hc; cbn; rewrite ?Hc; cbn;
    intros Hs; try contradiction; eauto; exists JNull; split; reflexivity.
Qed.

Lemma read_cache_data_json w v :
  cache_file w = Some (JsonText v) -> read_cache_data false w = (Ret v, w).
Proof.
  intros Hc.
  unfold read_cache_data, bind, gets, try_except, json_load_cache.
  cbn. repeat (rewrite Hc; cbn). reflexivity.
Qed.

(** When the body of the [try] raises, the handler decides the outcome. *)
Lemma live_refresh_failed now cache_data w e w1 :
  live_fetch w = (Raise e, w1) ->
  live_refresh now cache_data w
  = bind (fetch_failed now cache_data e) (fun _ => ret tt) w1.
Proof.
  intros Hf. unfold live_refresh, try_except.
  unfold bind at 1. unfold bind at 1. rewrite Hf. cbn.
  unfold bind. destruct (fetch_failed now cache_data e w1) as [[[] | e'] w2];
    reflexivity.
Qed.

Lemma fetch_failed_no_cache now cache_data e w :
  truthy cache_data = false ->
  fetch_failed now cache_data e w
  = (Ret tt, set_log (log w ++ [RatesFetchFailed e]) w).
Proof.
  intros Ht. unfold fetch_failed, bind, log_emit, modify. rewrite Ht. reflexivity.
Qed.

Lemma cache_is_fresh_run now v w :
  dt_utcoffset now = None -> readable_timestamp v ->
  exists b, cache_is_fresh now v w = (Ret b, w).
Proof.
  unfold cache_is_fresh, readable_timestamp. intros Hnow Hv.
  destruct (truthy v) eqn:Ht; [| eexists; reflexivity].
  destruct v; try congruence.
  unfold try_except, bind, lift. cbn.
  destruct (fromisoformat s) as [t |]; cbn; [| eexists; reflexivity].
  unfold datetime_sub. rewrite Hnow, Hv. cbn. eexists; reflexivity.
Qed.

(** A failed fetch leaves the rate table to the handler. *)
Lemma live_fetch_failed_rates w e w1 :
  live_fetch w = (Raise e, w1) -> currency_rates w1 = currency_rates w.
Proof.
  unfold live_fetch, bind, http_get_json.
  destruct (http w) as [| r rest]; cbn; [intros Hf; now inversion Hf |].
  destruct (outcome r) as [| status [body |]]; cbn;
    try destruct (_ && _)%bool; cbn;
    try (intros Hf; now inversion Hf).
  destruct (raw_rates_of body); cbn; intros Hf; now inversion Hf.
Qed.

Lemma ensure_without_snapshot force w e w1 v :
  live_fetch w = (Raise e, w1) ->
  read_cache_data force w = (Ret v, w) -> truthy v = false ->
  exists w', ensure_currency_rates force w = (Ret tt, w')
             /\ currency_rates w' = currency_rates w.
Proof.
  intros Hf Hr Hv. unfold ensure_currency_rates.
  rewrite (bind_run utcnow _ w (datetime_of_us (clock w)) w) by reflexivity.
  rewrite (bind_run _ _ w v w Hr). rewrite Hv. cbn [andb].
  rewrite (live_refresh_failed _ _ _ _ _ Hf).
  unfold bind. rewrite fetch_failed_no_cache by assumption.
  eexists; split; [reflexivity |]. cbn. eapply live_fetch_failed_rates; eauto.
Qed.


(** After every store that returns, the table has one row per currency
    code, one of them for PLN; its rate is 1.0 when no entry of the input
    spells PLN in any letter case. *)
Theorem store_currency_rates_rows rates fetched w w' :
  _store_currency_rates rates fetched w = (Ret tt, w') ->
  NoDup (map currency_code (currency_rates w'))
  /\ (exists r, select_rate "PLN" (currency_rates w') = Some r)
  /\ ((forall items kv,
          rates = JDict items -> In kv items -> upper (fst kv) <> "PLN"%string) ->
      select_rate "PLN" (currency_rates w') = Some 1%float).
Proof.
  unfold _store_currency_rates. destruct rates as [| | | | | items];
    try (cbn; intros Hr; now inversion Hr).
  cbn [py_items lift]. rewrite (bind_run (ret items) _ w items w) by reflexivity.
  destruct (negb (sqlite_bindable fetched)); [intros Hr; now inversion Hr |].
  destruct (is_null fetched || existsb _ _)%bool; [intros Hr; now inversion Hr |].
  intros Hr. inversion Hr; subst. cbn [currency_rates set_currency_rates].
  split; [apply rate_rows_codes_NoDup |].
  rewrite select_rate_rows. split.
  - destruct (assoc "PLN" (sanitize items)) eqn:Ha; [eauto |].
    exfalso. revert Ha. apply fold_sanitize_keeps. discriminate.
  - intros Hnone. unfold sanitize. rewrite fold_sanitize_untouched; [reflexivity |].
    intros kv Hkv. now apply (Hnone items).
Qed.

(** C4.  [get_exchange_rate] returns 1.0 and leaves the world untouched,
    the store unread, when the currency is empty or its upper-cased form is
    PLN; and it returns 1.0 when, after the refresh it triggers, the store
    has no row for the upper-cased currency. *)
Theorem get_exchange_rate_base_and_unknown :
  (forall currency w,
      currency = ""%string \/ upper currency = "PLN"%string ->
      get_exchange_rate currency w = (Ret 1%float, w))
  /\
  (forall currency w w',
      ensure_currency_rates false w = (Ret tt, w') ->
      select_rate (upper currency) (currency_rates w') = None ->
      fst (get_exchange_rate currency w) = Ret 1%float).
Proof.
  split.
  - intros currency w [-> | Hbase]; [reflexivity |].
    unfold get_exchange_rate. rewrite Hbase.
    destruct (currency =? "")%string; reflexivity.
  - intros currency w w' Hrefresh Hrow.
    unfold get_exchange_rate.
    destruct (currency =? "")%string; [reflexivity |].
    destruct (upper currency =? "PLN")%string; [reflexivity |].
    unfold bind, gets. rewrite Hrefresh, Hrow. reflexivity.
Qed.

End RateTable.


(** The parsing loop at 564-571 runs after the [try] has ended: a reply
    that is JSON and has [payload[0]['rates']], but whose rate item is not
    an object, makes [item.get] raise [AttributeError] out of
    [ensure_currency_rates], and the snapshot on disk is not stored. *)
Lemma rate_item_not_an_object_raises :
  fst (live_fetch garbled_world) = Ret (JList [JNum 1])
  /\ fst (ensure_currency_rates (H := iso_lib) false garbled_world)
     = Raise AttributeError
  /\ currency_rates (snd (ensure_currency_rates (H := iso_lib) false garbled_world))
     = [].
Proof. repeat split; vm_compute; reflexivity. Qed.


(** C2.  A rate quoted for PLN replaces the 1.0 the table is seeded with:
    stored directly, and read from a fresh snapshot by the refresh. *)
Theorem store_currency_rates_base_overridden :
  (let w' := snd (_store_currency_rates (H := iso_lib)
                    (JDict [("EUR"%string, JNum 4.5); ("PLN"%string, JNum 2)])
                    (JStr "2024-01-15T06:00:00") quiet_world) in
   map currency_code (currency_rates w') = ["PLN"%string; "EUR"%string]
   /\ select_rate "PLN" (currency_rates w') = Some 2%float)
  /\
  (let r := ensure_currency_rates (H := iso_lib) false quoted_base_world in
   fst r = Ret tt /\ select_rate "PLN" (currency_rates (snd r)) = Some 2%float).
Proof. repeat split; vm_compute; reflexivity. Qed.

Lemma store_currency_rates_rows_witness :
  exists w',
    _store_currency_rates (H := iso_lib) (JDict [("eur"%string, JNum 4.5)])
      (JStr "2024-01-15T06:00:00") quiet_world = (Ret tt, w')
    /\ NoDup (map currency_code (currency_rates w'))
    /\ select_rate "PLN" (currency_rates w') = Some 1%float.
Proof.
  eexists. split; [vm_compute; reflexivity |].
  destruct (@store_currency_rates_rows iso_lib (JDict [("eur"%string, JNum 4.5)])
              (JStr "2024-01-15T06:00:00") quiet_world _ eq_refl) as (Hnd & _ & Hpln).
  split; [exact Hnd |]. apply Hpln.
  intros items kv Heq Hin. inversion Heq; subst.
  destruct Hin as [<- | []]. vm_compute. discriminate.
Defined.

Lemma get_exchange_rate_base_and_unknown_witness :
  get_exchange_rate (H := iso_lib) "pln" offline_world = (Ret 1%float, offline_world)
  /\ fst (get_exchange_rate (H := iso_lib) "usd" offline_world) = Ret 1%float.
Proof.
  destruct (@get_exchange_rate_base_and_unknown iso_lib) as [Hbase Hunknown].
  split.
  - apply Hbase. right. reflexivity.
  - eapply Hunknown; vm_compute; reflexivity.
Defined.

(** C4 as stated fails for a padded code: [" pln"] normalizes to PLN, yet
    the lookup returns the rate stored under the padded code, and on a
    server without cache or network the refresh it triggers is logged. *)
Lemma padded_base_code_reads_store :
  normalize_currency (Some " pln"%string) BASE_CURRENCY = "PLN"%string
  /\ fst (get_exchange_rate (H := iso_lib) " pln" padded_world) = Ret 4%float
  /\ log (snd (get_exchange_rate (H := iso_lib) " pln" offline_world))
     = [RatesFetchFailed RequestException].
Proof. repeat split; vm_compute; reflexivity. Qed.

(** ** The notification check *)

(** C3.  On a server one hour east of UTC, ten past midnight: the first
    check notifies and stamps the budget with the UTC time, still the day
    before; ten minutes later, on the same local day and the same UTC day,
    the budget read back from the table, and the dict of the first call
    alike, are checked against the local date and notify again. *)
Theorem budget_notified_twice_in_one_day :
  let first := maybe_send_budget_notification
                 (notify_payload food_budget 1000 950) past_midnight_world in
  let later := set_clock (clock (snd first) + 600 * us_per_second) (snd first) in
  exists d1 d2,
    fst first = Ret (true, d1)
    /\ reread 1 1000 950 later = Some d2
    /\ d_last_notified_at d2 = Some "2024-01-15T23:10:00"%string
    /\ fst (today past_midnight_world) = Ret 19738
    /\ fst (today later) = Ret 19738
    /\ fst (maybe_send_budget_notification d2 later)
       = Ret (true, set_d_last_notified_at "2024-01-15T23:20:00" d2)
    /\ fst (maybe_send_budget_notification d1 later)
       = Ret (true, set_d_last_notified_at "2024-01-15T23:20:00" d1)
    /\ List.length (log (snd (maybe_send_budget_notification d2 later))) = 2%nat.
Proof.
  cbv zeta. eexists. eexists.
  repeat split; vm_compute; reflexivity.
Qed.

Lemma isoformat_date_prefix t :
  substring 0 10 (datetime_isoformat t) = date_isoformat (dt_day t)
  /\ (datetime_isoformat t =? "")%string = false.
Proof.
  unfold datetime_isoformat, date_isoformat.
  destruct (civil_of_days (dt_day t)) as [[y m] d].
  unfold digits4, digits2. cbn [append substring String.eqb]. split; reflexivity.
Qed.

Lemma notified_today_stamp t day :
  dt_day t = day -> notified_today (Some (datetime_isoformat t)) day = true.
Proof.
  intros <-. unfold notified_today.
  destruct (isoformat_date_prefix t) as [Hprefix Hnonempty].
  rewrite Hprefix, Hnonempty. cbn [negb andb]. apply String.eqb_refl.
Qed.

(** A check that notifies stamps the dict with the UTC time of the call. *)
Lemma maybe_send_stamp budget w d w1 :
  maybe_send_budget_notification budget w = (Ret (true, d), w1) ->
  d_last_notified_at d = Some (datetime_isoformat (datetime_of_us (clock w))).
Proof.
  unfold maybe_send_budget_notification.
  destruct (_ <=? _)%float; [intros Hr; inversion Hr |].
  destruct (negb _); [intros Hr; inversion Hr |].
  unfold bind, today, gets.
  destruct (notified_today _ _); [intros Hr; inversion Hr |].
  unfold log_emit, modify, utcnow, gets, ret. cbn [clock set_log].
  intros Hr. inversion Hr. reflexivity.
Qed.

(** Once a check has notified, a later check of a budget that carries its
    stamp, made on the same UTC day on a server whose local time is UTC,
    returns false and changes nothing. *)
Theorem budget_notified_once_per_utc_day budget w d w1 budget' w2 :
  maybe_send_budget_notification budget w = (Ret (true, d), w1) ->
  d_last_notified_at budget' = d_last_notified_at d ->
  tz_offset w2 = 0 ->
  clock w2 / us_per_day = clock w / us_per_day ->
  maybe_send_budget_notification budget' w2 = (Ret (false, budget'), w2).
Proof.
  intros Hfirst Hsame Hutc Hday.
  apply maybe_send_stamp in Hfirst. rewrite <- Hsame in Hfirst.
  unfold maybe_send_budget_notification.
  destruct (_ <=? _)%float; [reflexivity |].
  destruct (negb _); [reflexivity |].
  unfold bind, today, gets. rewrite Hutc, Z.add_0_r, Hfirst.
  rewrite notified_today_stamp; [reflexivity |].
  cbn [dt_day datetime_of_us]. now rewrite Hday.
Qed.

Lemma budget_notified_once_per_utc_day_witness :
  exists d w1,
    maybe_send_budget_notification (notify_payload food_budget 1000 950)
      utc_budget_world = (Ret (true, d), w1)
    /\ maybe_send_budget_notification d (set_clock (clock w1 + 1200 * us_per_second) w1)
       = (Ret (false, d), set_clock (clock w1 + 1200 * us_per_second) w1).
Proof.
  eexists. eexists. split; [vm_compute; reflexivity |].
  eapply (budget_notified_once_per_utc_day (notify_payload food_budget 1000 950)
            utc_budget_world).
  - vm_compute. reflexivity.
  - reflexivity.
  - reflexivity.
  - vm_compute. reflexivity.
Defined.

(** ** The aggregation of [budgets()] *)

Lemma tally_eta (t : tally) :
  t = {| spent_pln := spent_pln t; total_transactions := total_transactions t;
         fallback_spent_pln := fallback_spent_pln t;
         fallback_total := fallback_total t |}.
Proof. now destruct t. Qed.

Lemma count_cons txn l : count (txn :: l) = count l + 1.
Proof. unfold count. cbn [List.length]. lia. Qed.

Lemma outside_window start_date end_date txn :
  ((v_occurred_on txn <? start_date) || (end_date <? v_occurred_on txn))%bool
  = negb (in_window start_date end_date txn).
Proof.
  unfold in_window. rewrite negb_andb, !Z.leb_antisym, !negb_involutive.
  reflexivity.
Qed.

(** Ids start at 1, so a category id other than 0 is truthy exactly when
    it is set. *)
Lemma id_truthy_has_category b :
  b_category_id b <> Some 0 -> id_truthy (b_category_id b) = has_category b.
Proof.
  unfold id_truthy, has_category. intros Hcat.
  destruct (b_category_id b) as [c |]; [| reflexivity].
  apply negb_true_iff, Z.eqb_neq. congruence.
Qed.

Lemma fold_tally_step b start_date end_date transactions : forall acc,
  b_category_id b <> Some 0 ->
  fold_left (tally_step b start_date end_date) transactions acc
  = tally_from b start_date end_date acc transactions.
Proof.
  induction transactions as [| txn rest IH]; intros acc Hcat.
  - unfold tally_from, count. cbn. rewrite !Z.add_0_r.
    destruct (has_category b); apply tally_eta.
  - cbn [fold_left]. rewrite IH by assumption.
    unfold tally_step, tally_from, matched, fallback. cbn [filter].
    rewrite outside_window, (id_truthy_has_category b Hcat).
    destruct (in_window start_date end_date txn); cbn [negb andb]; [| reflexivity].
    destruct (opt_Z_eqb (v_budget_id txn) (Some (b_id b))) eqn:Hm.
    + assert (Hsome : match v_budget_id txn with None => true | Some _ => false end = false).
      { destruct (v_budget_id txn); [reflexivity | discriminate]. }
      rewrite Hsome.
      cbn [andb fold_left spent_pln total_transactions fallback_spent_pln fallback_total].
      rewrite count_cons. f_equal. lia.
    + destruct (has_category b) eqn:Hhas; cbn [andb]; [| reflexivity].
      destruct (match v_budget_id txn with None => true | Some _ => false end);
        cbn [andb]; [| reflexivity].
      destruct (opt_Z_eqb (v_category_id txn) (b_category_id b)); [| reflexivity].
      cbn [fold_left spent_pln total_transactions fallback_spent_pln fallback_total].
      rewrite count_cons. f_equal. lia.
Qed.

(** The loop of [budgets()] computes step 3 of the matching algorithm. *)
Lemma budget_spent_by_rule b start_date end_date transactions :
  b_category_id b <> Some 0 ->
  budget_spent b start_date end_date transactions
  = spent_by_rule b start_date end_date transactions.
Proof.
  intros Hcat. unfold budget_spent, spent_by_rule.
  rewrite fold_tally_step by assumption.
  rewrite (id_truthy_has_category b Hcat).
  unfold tally_from, tally0, sum_amounts, count.
  cbn [spent_pln total_transactions fallback_spent_pln fallback_total].
  destruct (_ && _)%bool eqn:Hc.
  - apply andb_true_iff in Hc. destruct Hc as [_ Hhas]. rewrite Hhas. reflexivity.
  - reflexivity.
Qed.

Section BudgetStats.
Context `{PyLib}.


End BudgetStats.


(** C7.  An expense of 100 EUR stored with [converted_amount] 430 counts
    as 450 in its budget once the euro stands at 4.50: the aggregation
    converts the amount again and does not read the stored value. *)
Theorem budgets_recompute_converted_amount :
  t_converted_amount euro_expense = Some 430%float
  /\ exists v w',
       budgets_get (H := iso_lib) 7 repriced_world = (Ret [v], w')
       /\ bv_transaction_count v = 1
       /\ bv_spent_amount v = 450%float.
Proof.
  split; [reflexivity |]. eexists. eexists.
  split; [vm_compute; reflexivity | split; reflexivity].
Qed.

(** The query of [budgets()] returns the same rows whatever the table
    holds in [converted_amount]. *)
Lemma select_expenses_ignores_converted_amount user_id t c :
  select_expenses user_id
    (map (fun r =>
            {| t_id := t_id r; t_user_id := t_user_id r;
               t_category_id := t_category_id r; t_type := t_type r;
               t_amount := t_amount r; t_currency := t_currency r;
               t_converted_amount := c r; t_budget_id := t_budget_id r;
               t_occurred_on := t_occurred_on r |}) t)
  = select_expenses user_id t.
Proof.
  unfold select_expenses. induction t as [| r t IH]; cbn; [reflexivity |].
  destruct (_ && _)%bool; cbn; now rewrite IH.
Qed.

(** ** Floats: NaN *)

Lemma is_nan_Prim2SF x : is_nan x = true <-> Prim2SF x = S754_nan.
Proof.
  unfold Prim2SF. destruct (is_nan x); split; intros Hx; try reflexivity;
    try discriminate.
  destruct (is_zero x); [discriminate |].
  destruct (is_infinity x); [discriminate |].
  destruct (Z.frexp x) as [r e].
  destruct (shr_fexp _ _ _ _ _) as [shr e'].
  destruct (shr_m shr); discriminate.
Qed.

Lemma nan_add x y : is_nan x = true -> is_nan (x + y) = true.
Proof.
  intros Hx. apply is_nan_Prim2SF. rewrite add_spec.
  apply is_nan_Prim2SF in Hx. rewrite Hx. reflexivity.
Qed.

Lemma nan_ltb x y : is_nan x = true -> (x <? y)%float = false.
Proof.
  intros Hx. rewrite ltb_spec. apply is_nan_Prim2SF in Hx. rewrite Hx. reflexivity.
Qed.

Lemma sql_add_real x y : sql_add (sql_real x) (Some y) = sql_real (x + y).
Proof.
  unfold sql_real at 1. destruct (is_nan x) eqn:Hx; cbn.
  - unfold sql_real. now rewrite nan_add.
  - reflexivity.
Qed.

Lemma sql_max0_real x : sql_max0 (sql_real x) = sql_real (float_max0 x).
Proof.
  unfold sql_real at 1. destruct (is_nan x) eqn:Hx; cbn.
  - unfold float_max0. rewrite nan_ltb by assumption. unfold sql_real. now rewrite Hx.
  - unfold float_max0, sql_real. destruct (x <? 0)%float; [reflexivity | now rewrite Hx].
Qed.

Lemma float_max0_not_negative x : (float_max0 x <? 0)%float = false.
Proof.
  unfold float_max0. destruct (x <? 0)%float eqn:Hx; [reflexivity | assumption].
Qed.

(** ** The goals table under the triggers *)

Lemma select_goal_updated f id t g :
  select_goal id t = Some g ->
  select_goal id (update_current_amount f id t)
  = Some (with_current_amount (f (g_current_amount g)) g).
Proof.
  unfold select_goal. induction t as [| g0 t IH]; cbn; [discriminate |].
  destruct (g_id g0 =? id) eqn:Hid; cbn.
  - rewrite Hid. intros Hg. inversion Hg; subst. reflexivity.
  - rewrite Hid. exact IH.
Qed.

Lemma select_goal_other f id id' t :
  id <> id' ->
  select_goal id (update_current_amount f id' t) = select_goal id t.
Proof.
  intros Hne. unfold select_goal. induction t as [| g0 t IH]; cbn; [reflexivity |].
  destruct (g_id g0 =? id') eqn:Hid'; cbn.
  - apply Z.eqb_eq in Hid'. destruct (g_id g0 =? id) eqn:Hid.
    + apply Z.eqb_eq in Hid. congruence.
    + exact IH.
  - destruct (g_id g0 =? id); [reflexivity | exact IH].
Qed.

Lemma filter_none {A} (f : A -> bool) (t : list A) :
  (forall y, In y t -> f y = false) -> filter f t = [].
Proof.
  induction t as [| x t IH]; cbn; intros Hf; [reflexivity |].
  rewrite (Hf x) by now left. apply IH. intros y Hy. apply Hf. now right.
Qed.

(** A primary key selects one row. *)
Lemma filter_primary_key (t : list contribution_row) c :
  NoDup (map c_id t) -> In c t -> filter (fun x => c_id x =? c_id c) t = [c].
Proof.
  induction t as [| x t IH]; cbn; [contradiction |].
  intros Hnd Hin. inversion Hnd as [| ? ? Hnotin Hnd']; subst.
  destruct Hin as [-> | Hin].
  - rewrite Z.eqb_refl. f_equal.
    apply filter_none. intros y Hy.
    apply Z.eqb_neq. intros Heq. apply Hnotin. rewrite <- Heq. now apply in_map.
  - destruct (c_id x =? c_id c) eqn:Hx; [| auto].
    apply Z.eqb_eq in Hx. exfalso. apply Hnotin. rewrite Hx. now apply in_map.
Qed.

(** C9.  Deleting a contribution of amount A that belongs to a goal whose
    [current_amount] is C leaves the goal with max(C - A, 0), stored as a
    REAL, and that value is never below zero. *)
Theorem delete_contribution_floors_at_zero w g c C :
  NoDup (map c_id (savings_goal_contributions w)) ->
  In c (savings_goal_contributions w) ->
  select_goal (c_goal_id c) (savings_goals_table w) = Some g ->
  g_current_amount g = Some C ->
  exists w' g',
    delete_contribution (c_id c) w = (Ret tt, w')
    /\ select_goal (c_goal_id c) (savings_goals_table w') = Some g'
    /\ g_current_amount g' = sql_real (float_max0 (C - c_amount c))
    /\ forall r, g_current_amount g' = Some r -> (r <? 0)%float = false.
Proof.
  intros Hkey Hin Hg HC. unfold delete_contribution, modify.
  rewrite (filter_primary_key _ c Hkey Hin). cbn [fold_left].
  eexists. eexists. split; [reflexivity |].
  cbn [savings_goals_table set_savings_goals_table set_savings_goal_contributions].
  unfold trg_savings_goal_contributions_delete.
  rewrite (select_goal_updated _ _ _ g Hg). split; [reflexivity |].
  cbn [g_current_amount with_current_amount]. rewrite HC.
  cbn [sql_sub]. rewrite sql_max0_real. split; [reflexivity |].
  intros r Hr. unfold sql_real in Hr.
  destruct (is_nan _); inversion Hr. apply float_max0_not_negative.
Qed.

Lemma delete_contribution_floors_at_zero_witness :
  exists w' g',
    delete_contribution 1 lowered_goal_world = (Ret tt, w')
    /\ select_goal 1 (savings_goals_table w') = Some g'
    /\ g_current_amount g' = Some 0%float
    /\ forall r, g_current_amount g' = Some r -> (r <? 0)%float = false.
Proof.
  apply (delete_contribution_floors_at_zero lowered_goal_world bike_goal
           first_deposit 10%float).
  - repeat constructor; intros [].
  - left. reflexivity.
  - reflexivity.
  - reflexivity.
Defined.

(** C10.  Updating the amount of a contribution from O to N on a goal whose
    [current_amount] is C stores C - O + N, with no floor; from C = 10,
    O = 50, N = 5, where O - N > C, the goal is left at -35. *)
Theorem update_contribution_has_no_floor :
  (forall w g c C N,
      NoDup (map c_id (savings_goal_contributions w)) ->
      In c (savings_goal_contributions w) ->
      select_goal (c_goal_id c) (savings_goals_table w) = Some g ->
      g_current_amount g = Some C ->
      is_nan N = false ->
      exists w' g',
        update_contribution (c_id c) (c_goal_id c) N w = (Ret tt, w')
        /\ select_goal (c_goal_id c) (savings_goals_table w') = Some g'
        /\ g_current_amount g' = sql_real (C - c_amount c + N))
  /\
  (exists w' g',
      update_contribution 1 1 5 lowered_goal_world = (Ret tt, w')
      /\ select_goal 1 (savings_goals_table w') = Some g'
      /\ g_current_amount g' = Some (-35)%float
      /\ (-35 <? 0)%float = true
      /\ (10 <? 50 - 5)%float = true).
Proof.
  split.
  - intros w g c C N Hkey Hin Hg HC HN.
    unfold update_contribution, modify. rewrite HN.
    rewrite (filter_primary_key _ c Hkey Hin). cbn [fold_left].
    eexists. eexists. split; [reflexivity |].
    cbn [savings_goals_table set_savings_goals_table set_savings_goal_contributions].
    unfold trg_savings_goal_contributions_update. cbn [c_goal_id c_amount].
    rewrite (select_goal_updated _ _ _ g Hg). split; [reflexivity |].
    cbn [g_current_amount with_current_amount]. rewrite HC.
    cbn [sql_sub]. apply sql_add_real.
  - eexists. eexists. repeat split; vm_compute; reflexivity.
Qed.

Lemma update_contribution_has_no_floor_witness :
  exists w' g',
    update_contribution 1 1 5 lowered_goal_world = (Ret tt, w')
    /\ select_goal 1 (savings_goals_table w') = Some g'
    /\ g_current_amount g' = Some (-35)%float.
Proof.
  apply (proj1 update_contribution_has_no_floor lowered_goal_world bike_goal
           first_deposit 10%float 5%float).
  - repeat constructor; intros [].
  - left. reflexivity.
  - reflexivity.
  - reflexivity.
  - reflexivity.
Defined.

(** ** The running total and the sum of the contributions *)

Lemma contributed_app id t c :
  contributed id (t ++ [c])
  = if c_goal_id c =? id then (contributed id t + c_amount c)%float
    else contributed id t.
Proof.
  unfold contributed. rewrite filter_app. cbn [filter].
  destruct (c_goal_id c =? id).
  - now rewrite fold_left_app.
  - now rewrite app_nil_r.
Qed.

Lemma insert_keeps_total id goal_id amount w :
  total_agrees id w -> total_agrees id (snd (insert_contribution goal_id amount w)).
Proof.
  intros (g & Hg & Hsum). unfold insert_contribution.
  destruct (is_nan amount); [exists g; auto |].
  unfold modify, total_agrees.
  cbn [snd savings_goals_table savings_goal_contributions set_savings_goals_table
         set_savings_goal_contributions].
  rewrite contributed_app. cbn [c_goal_id c_amount].
  unfold trg_savings_goal_contributions_insert. cbn [c_goal_id c_amount].
  destruct (goal_id =? id) eqn:Hid.
  - apply Z.eqb_eq in Hid. subst goal_id.
    rewrite (select_goal_updated _ _ _ g Hg). eexists. split; [reflexivity |].
    cbn [g_current_amount with_current_amount]. rewrite Hsum. apply sql_add_real.
  - apply Z.eqb_neq in Hid.
    rewrite select_goal_other by congruence. exists g. auto.
Qed.

Lemma insert_all_keeps_total id inserts : forall w,
  total_agrees id w -> total_agrees id (insert_all inserts w).
Proof.
  induction inserts as [| i rest IH]; intros w Hw; [exact Hw |].
  apply IH. now apply insert_keeps_total.
Qed.

Lemma fold_max_ge ids : forall m, m <= fold_left Z.max ids m.
Proof.
  induction ids as [| x ids IH]; intros m; cbn; [lia |].
  specialize (IH (Z.max m x)). lia.
Qed.

Lemma fold_max_bound ids : forall m x, In x ids -> x <= fold_left Z.max ids m.
Proof.
  induction ids as [| y ids IH]; intros m x Hin; cbn; [contradiction |].
  destruct Hin as [-> | Hin]; [| now apply IH].
  pose proof (fold_max_ge ids (Z.max m x)). lia.
Qed.

Lemma next_id_fresh ids : ~ In (next_id ids) ids.
Proof.
  unfold next_id. intros Hin. apply (fold_max_bound ids 0) in Hin. lia.
Qed.

Lemma select_goal_app_fresh t g :
  ~ In (g_id g) (map g_id t) -> select_goal (g_id g) (t ++ [g]) = Some g.
Proof.
  unfold select_goal. induction t as [| x t IH]; cbn; intros Hfresh.
  - now rewrite Z.eqb_refl.
  - destruct (g_id x =? g_id g) eqn:Hx.
    + apply Z.eqb_eq in Hx. tauto.
    + apply IH. tauto.
Qed.

Lemma contributed_none id t :
  (forall c, In c t -> c_goal_id c <> id) -> contributed id t = 0%float.
Proof.
  intros Hnone. unfold contributed. rewrite filter_none; [reflexivity |].
  intros c Hc. apply Z.eqb_neq. now apply Hnone.
Qed.

Section GoalCreation.
Context `{PyLib}.

Lemma convert_to_base_base amount w :
  convert_to_base amount (Some "PLN"%string) w = (Ret amount, w).
Proof. reflexivity. Qed.

(** A goal created in the base currency without opening amount is a new
    row with [current_amount] 0. *)
Lemma savings_goals_post_base user data w w' :
  goal_input_currency user data = "PLN"%string ->
  truthy (gd_current_amount data) = false ->
  savings_goals_post user data w = (Ret 200, w') ->
  exists name target,
    w' = set_savings_goals_table
           (savings_goals_table w ++
              [{| g_id := next_id (map g_id (savings_goals_table w));
                  g_user_id := u_id user; g_name := name;
                  g_target_amount := target;
                  g_current_amount := Some 0%float |}]) w.
Proof.
  intros Hcur Hzero. unfold savings_goals_post. rewrite Hcur.
  destruct (_ || _)%bool; [intros Hr; inversion Hr |].
  unfold py_or. rewrite Hzero.
  destruct (py_float_exn (gd_target_amount data)) as [e | target] eqn:Ht.
  - cbv beta iota zeta delta [lift ret raise bind try_except].
    destruct (is_TypeError_or_ValueError e); intros Hr; inversion Hr.
  - cbv beta iota zeta delta [lift ret raise bind try_except].
    rewrite !convert_to_base_base.
    change (py_float_exn (JNum 0)) with (@inr exn float 0%float).
    cbv beta iota. rewrite !convert_to_base_base.
    destruct (is_nan target); intros Hr; inversion Hr. eauto.
Qed.


End GoalCreation.



(* ===================================================================== *)
(** ** The refresh when the cache is fresh and when the source answers *)
(* ===================================================================== *)

Section MoreRates.
Context `{PyLib}.

Lemma datetime_of_us_age now t :
  dt_utcoffset t = None ->
  datetime_sub (datetime_of_us now) t
  = inr (now - (dt_day t * us_per_day + dt_us t)).
Proof.
  intros Ht. unfold datetime_sub, datetime_of_us. cbn [dt_utcoffset dt_day dt_us].
  rewrite Ht. f_equal.
  assert (Hd : us_per_day <> 0) by (unfold us_per_day, us_per_second; lia).
  pose proof (Z.div_mod now us_per_day Hd). lia.
Qed.

Lemma ensure_fresh_run w d s t items :
  cache_file w = Some (JsonText (JDict d)) ->
  dict_get "fetched_at" d = JStr s -> s <> ""%string ->
  fromisoformat s = Some t -> dt_utcoffset t = None ->
  clock w - (dt_day t * us_per_day + dt_us t) <= CURRENCY_CACHE_TTL ->
  py_or (dict_get "rates" d) (JDict []) = JDict items ->
  existsb (fun kv => is_nan (snd kv)) (sanitize items) = false ->
  ensure_currency_rates false w
  = (Ret tt, set_currency_rates (rate_rows (sanitize items) (JStr s)) w).
Proof.
  intros Hc Hf Hs Ht Hoff Hage Hrates Hnan.
  unfold ensure_currency_rates.
  rewrite (bind_run utcnow _ w (datetime_of_us (clock w)) w) by reflexivity.
  rewrite (bind_run _ _ w _ w (read_cache_data_json w _ Hc)).
  assert (Hd : truthy (JDict d) = true).
  { destruct d; [discriminate Hf | reflexivity]. }
  rewrite Hd. cbn [negb andb py_get lift].
  rewrite (bind_run (ret _) _ w (dict_get "fetched_at" d) w) by reflexivity.
  rewrite (bind_run (ret _) _ w (dict_get "rates" d) w) by reflexivity.
  rewrite Hrates, Hf.
  assert (Hfresh : cache_is_fresh (datetime_of_us (clock w)) (JStr s) w = (Ret true, w)).
  { unfold cache_is_fresh. cbn [truthy].
    apply String.eqb_neq in Hs. rewrite Hs. cbn [negb].
    unfold try_except, bind, lift, py_fromisoformat. rewrite Ht.
    cbn [ret]. unfold ret at 1 2. cbv beta iota.
    rewrite (datetime_of_us_age _ _ Hoff).
    apply Z.leb_le in Hage. now rewrite Hage. }
  rewrite (bind_run _ _ w true w Hfresh).
  apply store_run; auto.
Qed.

Lemma upper_char_idem c : upper_char (upper_char c) = upper_char c.
Proof.
  destruct c as [[|] [|] [|] [|] [|] [|] [|] [|]]; reflexivity.
Qed.

Lemma upper_idem s : upper (upper s) = upper s.
Proof.
  induction s as [| c s IH]; cbn [upper]; [reflexivity |].
  now rewrite upper_char_idem, IH.
Qed.

Lemma extract_step_codes extracted item extracted' :
  rate_codes extracted -> extract_step extracted item = inr extracted' ->
  rate_codes extracted'.
Proof.
  intros [Hnd Hk]. unfold extract_step.
  destruct (py_get item "code") as [e | code]; [discriminate |].
  destruct (py_get item "mid") as [e | value]; [discriminate |].
  destruct (truthy code && _)%bool eqn:Ht; [| intros Hx; inversion Hx; subst; now split].
  destruct (py_float value) as [f |]; [| intros Hx; inversion Hx; subst; now split].
  destruct code as [| | | c | |]; try discriminate. cbn [py_upper].
  intros Hx; inversion Hx; subst. split; [now apply dict_set_NoDup |].
  intros k Hin. apply dict_set_keys_in in Hin. destruct Hin as [-> | Hin]; [| auto].
  split; [| apply upper_idem].
  apply andb_true_iff in Ht. destruct Ht as [Ht _]. cbn in Ht.
  intros Hu. apply String.eqb_eq in Hu. rewrite upper_empty in Hu.
  rewrite Hu in Ht. discriminate.
Qed.

Lemma extract_loop_codes items : forall extracted extracted',
  rate_codes extracted -> extract_loop extracted items = inr extracted' ->
  rate_codes extracted'.
Proof.
  induction items as [| item items IH]; intros extracted extracted' Hc; cbn.
  - intros Hx; inversion Hx; now subst.
  - destruct (extract_step extracted item) as [e | x] eqn:Hs; [discriminate |].
    apply IH. eapply extract_step_codes; eauto.
Qed.

Lemma extract_rates_codes raw extracted :
  extract_rates raw = inr extracted -> rate_codes extracted.
Proof.
  unfold extract_rates. destruct (py_iter raw) as [e | items]; [discriminate |].
  apply extract_loop_codes. split; [constructor | intros k []].
Qed.

Lemma assoc_notin {A} k (l : list (string * A)) :
  ~ In k (map fst l) -> assoc k l = None.
Proof.
  induction l as [| [k' v] l IH]; cbn; [reflexivity |].
  intros Hn. destruct (String.eqb_spec k' k) as [-> | Hne].
  - exfalso. apply Hn. now left.
  - apply IH. intros Hin. apply Hn. now right.
Qed.

Lemma assoc_in {A} k v (l : list (string * A)) :
  NoDup (map fst l) -> In (k, v) l -> assoc k l = Some v.
Proof.
  induction l as [| [k' v'] l IH]; cbn; [intros _ [] |].
  intros Hnd [Heq | Hin].
  - inversion Heq; subst. now rewrite String.eqb_refl.
  - inversion Hnd as [| ? ? Hnotin Hnd']; subst.
    destruct (String.eqb_spec k' k) as [-> | Hne].
    + exfalso. apply Hnotin. change k with (fst (k, v)). now apply in_map.
    + auto.
Qed.

Lemma in_assoc {A} k v (l : list (string * A)) :
  assoc k l = Some v -> In (k, v) l.
Proof.
  induction l as [| [k' v'] l IH]; cbn; [discriminate |].
  destruct (String.eqb_spec k' k) as [-> | Hne].
  - intros Hx; inversion Hx; subst. now left.
  - intros Hx. right. auto.
Qed.

(** Sanitizing a dict of extracted rates gives the same rates, with PLN
    at 1.0 when the dict has no entry for it. *)
Lemma fold_sanitize_extracted code (l : list (string * float)) : forall d,
  rate_codes l ->
  assoc code (fold_left sanitize_step (map (fun kv => (fst kv, JNum (snd kv))) l) d)
  = match assoc code l with
    | Some f => Some f
    | None => assoc code d
    end.
Proof.
  induction l as [| [k f] l IH]; intros d [Hnd Hk]; cbn [map fold_left assoc fst snd];
    [reflexivity |].
  inversion Hnd as [| ? ? Hnotin Hnd']; subst.
  rewrite IH by (split; [assumption | intros k' Hk'; apply Hk; now right]).
  destruct (Hk k (or_introl eq_refl)) as [Hne Hup].
  unfold sanitize_step. apply String.eqb_neq in Hne. rewrite Hne.
  cbn [py_float]. rewrite Hup.
  destruct (String.eqb_spec k code) as [-> | Hneq].
  - rewrite (assoc_notin _ _ Hnotin). apply assoc_dict_set_eq.
  - destruct (assoc code l); [reflexivity |]. now apply assoc_dict_set_ne.
Qed.

Lemma sanitize_extracted code (l : list (string * float)) :
  rate_codes l ->
  assoc code (sanitize (map (fun kv => (fst kv, JNum (snd kv))) l))
  = match assoc code l with
    | Some f => Some f
    | None => if (code =? "PLN")%string then Some 1%float else None
    end.
Proof.
  intros Hc. unfold sanitize. rewrite fold_sanitize_extracted by assumption.
  destruct (assoc code l); [reflexivity |]. cbn.
  rewrite String.eqb_sym. destruct (code =? "PLN")%string; reflexivity.
Qed.

Lemma sanitize_extracted_no_nan (l : list (string * float)) :
  rate_codes l ->
  existsb (fun kv => is_nan (snd kv)) l = false ->
  existsb (fun kv => is_nan (snd kv))
    (sanitize (map (fun kv => (fst kv, JNum (snd kv))) l)) = false.
Proof.
  intros Hc Hn.
  destruct (existsb _ (sanitize _)) eqn:He; [| reflexivity].
  apply existsb_exists in He. destruct He as [[k v] [Hin Hv]]. cbn in Hv.
  apply (assoc_in _ _ _ (sanitize_NoDup _)) in Hin.
  rewrite sanitize_extracted in Hin by assumption.
  destruct (assoc k l) as [f |] eqn:Ha.
  - inversion Hin; subst. apply in_assoc in Ha.
    assert (Hex : existsb (fun kv => is_nan (snd kv)) l = true).
    { apply existsb_exists. exists (k, v). now split. }
    congruence.
  - destruct (k =? "PLN")%string; [| discriminate].
    inversion Hin; subst. discriminate Hv.
Qed.

(** A request changes the clock and the queue of replies, nothing else. *)
Lemma live_fetch_frame w r w1 :
  live_fetch w = (r, w1) ->
  cache_file w1 = cache_file w /\ cache_writable w1 = cache_writable w
  /\ log w1 = log w /\ currency_rates w1 = currency_rates w.
Proof.
  unfold live_fetch, bind, http_get_json.
  destruct (http w) as [| rep rest]; cbn; [intros Hf; inversion Hf; now subst |].
  destruct (outcome rep) as [| status [body |]]; cbn;
    try destruct (_ && _)%bool; cbn;
    try (intros Hf; inversion Hf; subst; now cbn).
  destruct (raw_rates_of body); cbn; intros Hf; inversion Hf; subst; now cbn.
Qed.

Lemma live_refresh_run now cache_data w raw w1 extracted :
  live_fetch w = (Ret raw, w1) ->
  extract_rates raw = inr extracted ->
  existsb (fun kv => is_nan (snd kv)) extracted = false ->
  live_refresh now cache_data w = (Ret tt, refreshed extracted w1).
Proof.
  intros Hf He Hn. unfold live_refresh, try_except.
  unfold bind at 1. unfold bind at 1. rewrite Hf. cbn [ret].
  cbv beta iota.
  rewrite (bind_run utcnow _ w1 (datetime_of_us (clock w1)) w1) by reflexivity.
  rewrite He. cbn [lift].
  rewrite (bind_run (ret extracted) _ w1 extracted w1) by reflexivity.
  unfold rates_json at 1.
  rewrite (bind_run _ _ w1 tt _
             (store_run _ (JStr _) w1 eq_refl eq_refl
                (sanitize_extracted_no_nan _ (extract_rates_codes _ _ He) Hn))).
  unfold write_cache, refreshed, bind, gets, modify, log_emit.
  cbn [cache_writable set_currency_rates log].
  destruct (cache_writable w1); reflexivity.
Qed.

(** When the source answers a forced refresh with quotations that the
    parsing loop accepts, none of them NaN, the call returns and the store
    maps every quoted code to its rate, PLN to 1.0 unless PLN is quoted,
    and no other code.  The snapshot goes to the cache file; when the file
    cannot be written the failure is logged, the call still returns and
    the stored rates stay. *)
Theorem ensure_currency_rates_forced_refresh w raw w1 extracted :
  live_fetch w = (Ret raw, w1) ->
  extract_rates raw = inr extracted ->
  existsb (fun kv => is_nan (snd kv)) extracted = false ->
  exists w',
    ensure_currency_rates true w = (Ret tt, w')
    /\ (forall code,
           select_rate code (currency_rates w')
           = match assoc code extracted with
             | Some f => Some f
             | None => if (code =? "PLN")%string then Some 1%float else None
             end)
    /\ (cache_writable w = true ->
        cache_file w'
        = Some (JsonText
                  (JDict [("fetched_at"%string,
                           JStr (datetime_isoformat (datetime_of_us (clock w1))));
                          ("rates"%string, rates_json extracted)]))
        /\ log w' = log w)
    /\ (cache_writable w = false ->
        cache_file w' = cache_file w /\ log w' = log w ++ [CacheWriteFailed]).
Proof.
  intros Hf He Hn. exists (refreshed extracted w1).
  destruct (live_fetch_frame _ _ _ Hf) as (Hcf & Hcw & Hlog & _).
  split; [| split; [| split]].
  - unfold ensure_currency_rates.
    rewrite (bind_run utcnow _ w (datetime_of_us (clock w)) w) by reflexivity.
    rewrite (bind_run _ _ w JNull w (read_cache_data_forced w)).
    cbn [truthy andb]. now apply live_refresh_run with (raw := raw).
  - intros code. unfold refreshed.
    destruct (cache_writable w1); cbn [currency_rates set_cache_file set_log set_currency_rates];
      rewrite select_rate_rows; apply sanitize_extracted;
      eapply extract_rates_codes; eauto.
  - intros Hw. unfold refreshed. rewrite Hcw, Hw. cbn. now split.
  - intros Hw. unfold refreshed. rewrite Hcw, Hw. cbn. rewrite Hlog. now split.
Qed.

(** Writing the cache and reading it back.  After a forced refresh that
    wrote its snapshot, a call without [force_refresh] that finds this
    snapshot no more than 24 hours later stores the same rows again and
    sends no request, provided the timestamp the refresh wrote parses back
    to the time it stands for. *)
Theorem refreshed_rates_are_reused w raw w1 extracted w' w2 :
  live_fetch w = (Ret raw, w1) ->
  extract_rates raw = inr extracted ->
  existsb (fun kv => is_nan (snd kv)) extracted = false ->
  cache_writable w = true ->
  ensure_currency_rates true w = (Ret tt, w') ->
  fromisoformat (datetime_isoformat (datetime_of_us (clock w1)))
  = Some (datetime_of_us (clock w1)) ->
  cache_file w2 = cache_file w' ->
  clock w2 - clock w1 <= CURRENCY_CACHE_TTL ->
  ensure_currency_rates false w2
  = (Ret tt, set_currency_rates (currency_rates w') w2).
Proof.
  intros Hf He Hn Hw Hrun Hiso Hc2 Hage.
  destruct (live_fetch_frame _ _ _ Hf) as (Hcf & Hcw & Hlog & _).
  assert (Hw' : w' = refreshed extracted w1).
  { unfold ensure_currency_rates in Hrun.
    rewrite (bind_run utcnow _ w (datetime_of_us (clock w)) w) in Hrun by reflexivity.
    rewrite (bind_run _ _ w JNull w (read_cache_data_forced w)) in Hrun.
    cbn [truthy andb] in Hrun.
    rewrite (live_refresh_run _ _ _ _ _ _ Hf He Hn) in Hrun. now inversion Hrun. }
  subst w'. unfold refreshed in *. rewrite Hcw, Hw in *.
  cbn [cache_file set_cache_file currency_rates set_currency_rates] in *.
  set (stamp := datetime_isoformat (datetime_of_us (clock w1))) in *.
  assert (Hstamp : stamp <> ""%string).
  { unfold stamp, datetime_isoformat, date_isoformat.
    destruct (civil_of_days _) as [[y m] d]. discriminate. }
  eapply ensure_fresh_run with (t := datetime_of_us (clock w1)).
  - exact Hc2.
  - reflexivity.
  - exact Hstamp.
  - exact Hiso.
  - reflexivity.
  - cbn [dt_day dt_us datetime_of_us].
    assert (Hd : us_per_day <> 0) by (unfold us_per_day, us_per_second; lia).
    pose proof (Z.div_mod (clock w1) us_per_day Hd). lia.
  - unfold dict_get, rates_json. cbn [assoc String.eqb Ascii.eqb Bool.eqb].
    unfold py_or. cbn [truthy]. destruct extracted; reflexivity.
  - apply sanitize_extracted_no_nan; [eapply extract_rates_codes; eauto | assumption].
Qed.



End MoreRates.



Lemma ensure_currency_rates_forced_refresh_witness :
  exists w',
    ensure_currency_rates (H := iso_lib) true answering_world = (Ret tt, w')
    /\ select_rate "EUR" (currency_rates w') = Some 4.5%float
    /\ select_rate "USD" (currency_rates w') = Some 4%float
    /\ select_rate "PLN" (currency_rates w') = Some 1%float
    /\ select_rate "CHF" (currency_rates w') = None.
Proof.
  destruct (ensure_currency_rates_forced_refresh (H := iso_lib) answering_world
              (JList [JDict [("code"%string, JStr "eur"); ("mid"%string, JNum 4.5)];
                      JDict [("code"%string, JStr "USD"); ("mid"%string, JStr "4")]])
              (set_clock (noon + us_per_second) (set_http [] answering_world))
              [("EUR"%string, 4.5%float); ("USD"%string, 4%float)])
    as (w' & Hrun & Hrates & _).
  - reflexivity.
  - vm_compute. reflexivity.
  - vm_compute. reflexivity.
  - exists w'. split; [exact Hrun |].
    repeat split; rewrite Hrates; reflexivity.
Defined.

Lemma refreshed_rates_are_reused_witness :
  exists w',
    ensure_currency_rates (H := iso_lib) true answering_world = (Ret tt, w')
    /\ ensure_currency_rates (H := iso_lib) false
         (set_clock (clock w' + 3600 * us_per_second) w')
       = (Ret tt,
          set_currency_rates (currency_rates w')
            (set_clock (clock w' + 3600 * us_per_second) w')).
Proof.
  eexists. split; [vm_compute; reflexivity |].
  eapply (refreshed_rates_are_reused (H := iso_lib) answering_world
            (JList [JDict [("code"%string, JStr "eur"); ("mid"%string, JNum 4.5)];
                    JDict [("code"%string, JStr "USD"); ("mid"%string, JStr "4")]])
            (set_clock (noon + us_per_second) (set_http [] answering_world))
            [("EUR"%string, 4.5%float); ("USD"%string, 4%float)]).
  - reflexivity.
  - vm_compute. reflexivity.
  - vm_compute. reflexivity.
  - reflexivity.
  - vm_compute. reflexivity.
  - vm_compute. reflexivity.
  - reflexivity.
  - vm_compute. discriminate.
Defined.

(* ===================================================================== *)
(** ** What a refresh can touch and raise *)
(* ===================================================================== *)

Lemma keeps_ledgers_refl w : keeps_ledgers w w.
Proof. repeat split. Qed.

Lemma keeps_ledgers_trans w1 w2 w3 :
  keeps_ledgers w1 w2 -> keeps_ledgers w2 w3 -> keeps_ledgers w1 w3.
Proof.
  unfold keeps_ledgers. intros (a1 & a2 & a3 & a4 & a5 & a6 & a7)
    (b1 & b2 & b3 & b4 & b5 & b6 & b7).
  repeat split; congruence.
Qed.

Create HintDb contained.
#[local] Hint Resolve keeps_ledgers_refl keeps_ledgers_trans : contained.
#[local] Hint Extern 1 (refresh_error _) =>
  (unfold refresh_error; tauto) : contained.
#[local] Hint Extern 1 (keeps_ledgers _ _) => (repeat split) : contained.

Ltac pure_contained :=
  unfold pure_contained, refresh_error; intros;
  match goal with
  | H : _ = inl _ |- _ => inversion H; subst; tauto
  end.

Lemma contained_ret {A} (a : A) : contained (ret a).
Proof. apply bounded_ret; auto with contained. Qed.

Lemma contained_gets {A} (f : world -> A) : contained (gets f).
Proof. apply bounded_gets; auto with contained. Qed.

Lemma contained_raise {A} e : refresh_error e -> contained (@raise A e).
Proof. intros; apply bounded_raise; auto with contained. Qed.

Lemma contained_lift {A} (r : exn + A) : pure_contained r -> contained (lift r).
Proof. intros Hr; apply bounded_lift; auto with contained. Qed.

Lemma contained_bind {A B} (c : py A) (k : A -> py B) :
  contained c -> (forall a, contained (k a)) -> contained (bind c k).
Proof. apply bounded_bind. exact keeps_ledgers_trans. Qed.

Lemma contained_try_except {A} (c : py A) catches (h : exn -> py A) :
  (forall w, keeps_ledgers w (snd (c w)) /\
             forall e, fst (c w) = Raise e -> catches e = false -> refresh_error e) ->
  (forall e, contained (h e)) -> contained (try_except c catches h).
Proof. apply bounded_try_except. exact keeps_ledgers_trans. Qed.

Lemma contained_log_emit r : contained (log_emit r).
Proof. apply bounded_modify. intros w. repeat split. Qed.

Lemma contained_utcnow : contained utcnow.
Proof. apply contained_gets. Qed.

Lemma contained_set_currency_rates t : contained (modify (set_currency_rates t)).
Proof. apply bounded_modify. intros w. repeat split. Qed.

Lemma contained_set_cache_file f : contained (modify (set_cache_file f)).
Proof. apply bounded_modify. intros w. repeat split. Qed.

#[local] Hint Resolve contained_ret contained_gets contained_lift
  contained_log_emit contained_utcnow contained_set_currency_rates
  contained_set_cache_file : contained.

Ltac contained :=
  repeat first
    [ progress auto with contained
    | apply contained_raise; unfold refresh_error; tauto
    | apply contained_bind; [| intros ]
    | match goal with
      | |- contained (if ?b then _ else _) => destruct b
      | |- contained (match ?x with _ => _ end) => destruct x
      end ].

Lemma py_get_contained v k : pure_contained (py_get v k).
Proof. destruct v; cbn; pure_contained. Qed.

Lemma py_items_contained v : pure_contained (py_items v).
Proof. destruct v; cbn; pure_contained. Qed.

Lemma py_iter_contained v : pure_contained (py_iter v).
Proof. destruct v; cbn; pure_contained. Qed.

Lemma py_upper_contained v : pure_contained (py_upper v).
Proof. destruct v; cbn; pure_contained. Qed.

Lemma datetime_sub_contained a b : pure_contained (datetime_sub a b).
Proof.
  unfold datetime_sub.
  destruct (dt_utcoffset a), (dt_utcoffset b); pure_contained.
Qed.

#[local] Hint Resolve py_get_contained py_items_contained py_iter_contained
  py_upper_contained datetime_sub_contained : contained.

Section Containment.
Context `{PyLib}.

Lemma extract_step_contained extracted item :
  pure_contained (extract_step extracted item).
Proof.
  unfold extract_step.
  destruct (py_get item "code") as [e | code] eqn:Hc.
  { intros e' He'. inversion He'; subst. eapply py_get_contained; eauto. }
  destruct (py_get item "mid") as [e | value] eqn:Hm.
  { intros e' He'. inversion He'; subst. eapply py_get_contained; eauto. }
  destruct (_ && _)%bool; [| pure_contained].
  destruct (py_float value); [| pure_contained].
  destruct (py_upper code) eqn:Hu; [| pure_contained].
  intros e' He'. inversion He'; subst. eapply py_upper_contained; eauto.
Qed.

Lemma extract_loop_contained items : forall extracted,
  pure_contained (extract_loop extracted items).
Proof.
  induction items as [| item rest IH]; intros extracted; cbn; [pure_contained |].
  destruct (extract_step extracted item) eqn:Hs; [| apply IH].
  intros e' He'. inversion He'; subst. eapply extract_step_contained; eauto.
Qed.

Lemma extract_rates_contained raw : pure_contained (extract_rates raw).
Proof.
  unfold extract_rates. destruct (py_iter raw) eqn:Hi; [| apply extract_loop_contained].
  intros e' He'. inversion He'; subst. eapply py_iter_contained; eauto.
Qed.

#[local] Hint Resolve extract_rates_contained : contained.

Lemma store_currency_rates_contained rates fetched :
  contained (_store_currency_rates rates fetched).
Proof. unfold _store_currency_rates. contained. Qed.

#[local] Hint Resolve store_currency_rates_contained : contained.

(** Reading the cache: [OSError] and [JSONDecodeError] are caught. *)
Lemma read_cache_data_contained force : contained (read_cache_data force).
Proof.
  unfold read_cache_data. apply contained_bind; [contained | intros exists_].
  destruct (_ && _)%bool; [| contained].
  apply contained_try_except; [| intros; contained].
  intros w. unfold json_load_cache.
  destruct (cache_file w) as [[| | |]|]; cbn; split;
    auto with contained; intros e He; inversion He; subst;
    cbn; (discriminate || auto with contained).
Qed.

Lemma write_cache_contained fetched extracted :
  contained (write_cache fetched extracted).
Proof. unfold write_cache. contained. Qed.

Lemma fetch_failed_contained now cache_data exc :
  contained (fetch_failed now cache_data exc).
Proof. unfold fetch_failed. contained. Qed.

#[local] Hint Resolve read_cache_data_contained write_cache_contained
  fetch_failed_contained : contained.

(** The request moves the clock and the queue of replies; whatever it
    raises is caught by [except Exception]. *)
Lemma live_fetch_keeps_ledgers w : keeps_ledgers w (snd (live_fetch w)).
Proof.
  unfold live_fetch, bind, http_get_json.
  destruct (http w) as [| rep rest]; cbn; [repeat split |].
  destruct (outcome rep) as [| status [body |]]; cbn;
    try destruct (_ && _)%bool; cbn; try (now repeat split).
  destruct (raw_rates_of body); cbn; repeat split.
Qed.

Lemma live_refresh_contained now cache_data :
  contained (live_refresh now cache_data).
Proof.
  unfold live_refresh. apply contained_bind.
  - apply contained_try_except.
    + intros w. unfold bind.
      pose proof (live_fetch_keeps_ledgers w) as Hk.
      destruct (live_fetch w) as [[raw | e] w1]; cbn in *; split; auto;
        intros e' He'; discriminate.
    + intros e. contained.
  - intros [raw |]; contained.
Qed.

Lemma py_fromisoformat_caught v e :
  py_fromisoformat v = inl e -> is_ValueError e = false -> refresh_error e.
Proof.
  destruct v; cbn; try (intros Hx; inversion Hx; subst; unfold refresh_error; tauto).
  destruct (fromisoformat s); intros Hx; inversion Hx; subst. discriminate.
Qed.

Lemma cache_is_fresh_contained now v : contained (cache_is_fresh now v).
Proof.
  unfold cache_is_fresh. destruct (truthy v); [| contained].
  apply contained_bind.
  - apply contained_try_except; [| intros; contained].
    intros w. unfold bind, lift.
    destruct (py_fromisoformat v) as [e | t] eqn:Hp; cbn; split;
      auto with contained; intros e' He'; inversion He'; subst.
    intros Hc. eapply py_fromisoformat_caught; eauto.
  - intros [t |]; contained.
Qed.

#[local] Hint Resolve live_refresh_contained cache_is_fresh_contained : contained.

Lemma ensure_currency_rates_contained force :
  contained (ensure_currency_rates force).
Proof. unfold ensure_currency_rates. contained. Qed.

#[local] Hint Resolve ensure_currency_rates_contained : contained.

Lemma get_exchange_rate_contained currency :
  contained (get_exchange_rate currency).
Proof. unfold get_exchange_rate. contained. Qed.

#[local] Hint Resolve get_exchange_rate_contained : contained.

Lemma convert_amount_contained amount source target :
  contained (convert_amount amount source target).
Proof.
  unfold convert_amount. destruct amount as [a |]; [| contained].
  destruct (_ =? _)%string; [contained |].
  apply contained_bind; [contained | intros source_rate].
  apply contained_bind; [contained | intros target_rate].
  destruct (target_rate =? 0)%float eqn:Hz; [contained |].
  destruct (_ =? _)%string; [contained |].
  apply contained_lift. unfold py_div. rewrite Hz. pure_contained.
Qed.


End Containment.

(* ===================================================================== *)
(** ** What [GET /budgets] writes *)
(* ===================================================================== *)

Lemma only_stamps_refl w : only_stamps w w.
Proof. repeat split. Qed.

Lemma only_stamps_trans w1 w2 w3 :
  only_stamps w1 w2 -> only_stamps w2 w3 -> only_stamps w1 w3.
Proof.
  unfold only_stamps. intros (a1 & a2 & a3 & a4 & a5 & a6 & a7)
    (b1 & b2 & b3 & b4 & b5 & b6 & b7).
  repeat split; congruence.
Qed.

Lemma keeps_ledgers_only_stamps w w' : keeps_ledgers w w' -> only_stamps w w'.
Proof.
  unfold keeps_ledgers, only_stamps. intros (a1 & a2 & a3 & a4 & a5 & a6 & a7).
  repeat split; congruence.
Qed.

Lemma contained_stamping {A} (c : py A) : contained c -> stamping c.
Proof.
  intros Hc w. destruct (Hc w) as [HR HE]. split; [| exact HE].
  now apply keeps_ledgers_only_stamps.
Qed.

Lemma stamping_bind {A B} (c : py A) (k : A -> py B) :
  stamping c -> (forall a, stamping (k a)) -> stamping (bind c k).
Proof. apply bounded_bind. exact only_stamps_trans. Qed.

Lemma stamping_ret {A} (a : A) : stamping (ret a).
Proof. apply bounded_ret. exact only_stamps_refl. Qed.

Lemma stamping_gets {A} (f : world -> A) : stamping (gets f).
Proof. apply bounded_gets. exact only_stamps_refl. Qed.

Lemma update_last_notified_at_forget timestamp id t :
  map forget_stamp (update_last_notified_at timestamp id t) = map forget_stamp t.
Proof.
  unfold update_last_notified_at. rewrite map_map. apply map_ext.
  intros b. destruct (b_id b =? id); reflexivity.
Qed.

Lemma maybe_send_stamping budget : stamping (maybe_send_budget_notification budget).
Proof.
  intros w. unfold maybe_send_budget_notification.
  destruct (_ <=? _)%float; [split; [apply only_stamps_refl | discriminate] |].
  destruct (negb _); [split; [apply only_stamps_refl | discriminate] |].
  unfold bind, today, gets.
  destruct (notified_today _ _); [split; [apply only_stamps_refl | discriminate] |].
  unfold log_emit, modify, utcnow, gets, ret. cbn [fst snd]. split; [| discriminate].
  unfold only_stamps.
  cbn [users transactions_table savings_goals_table savings_goal_contributions
         tz_offset cache_writable budgets_table set_budgets_table set_log].
  repeat split. apply update_last_notified_at_forget.
Qed.

Section BudgetsFrame.
Context `{PyLib}.

Lemma convert_to_base_contained amount currency :
  contained (convert_to_base amount currency).
Proof. unfold convert_to_base. apply convert_amount_contained. Qed.

Lemma convert_from_base_contained amount currency :
  contained (convert_from_base amount currency).
Proof. unfold convert_from_base. apply convert_amount_contained. Qed.

Lemma collect_transactions_stamping raw : stamping (collect_transactions raw).
Proof.
  induction raw as [| txn rest IH]; cbn [collect_transactions]; [apply stamping_ret |].
  destruct (fromisoformat _); [| exact IH].
  apply stamping_bind.
  - apply contained_stamping. unfold expense_amount_pln. apply convert_to_base_contained.
  - intros amount_pln. apply stamping_bind; [exact IH |]. intros views. apply stamping_ret.
Qed.

Lemma budget_stats_stamping user_currency month_start month_end transactions b :
  stamping (budget_stats user_currency month_start month_end transactions b).
Proof.
  unfold budget_stats. destruct (budget_spent _ _ _ _) as [spent count].
  apply stamping_bind; [apply maybe_send_stamping | intros _].
  apply stamping_bind;
    [apply contained_stamping, convert_from_base_contained | intros limit_display].
  apply stamping_bind;
    [apply contained_stamping, convert_from_base_contained | intros spent_display].
  apply stamping_ret.
Qed.

Lemma for_each_stamping {A B} (f : A -> py B) (l : list A) :
  (forall a, stamping (f a)) -> stamping (for_each f l).
Proof.
  intros Hf. induction l as [| a l IH]; cbn [for_each]; [apply stamping_ret |].
  apply stamping_bind; [apply Hf | intros b].
  apply stamping_bind; [exact IH | intros bs]. apply stamping_ret.
Qed.


End BudgetsFrame.

(* ===================================================================== *)
(** ** The notification check and the savings handlers, outcome by outcome *)
(* ===================================================================== *)

(** [maybe_send_budget_notification] always returns.  When it returns
    [False] the dict and the world are untouched.  When it returns [True]
    the limit is not zero or below, the budget was not stamped with
    today's local date, the dict carries the UTC timestamp of the call,
    and the world differs by one log record and by that timestamp in the
    rows of the budget's id, nothing else. *)
Theorem maybe_send_budget_notification_effects budget w :
  let stamp := datetime_isoformat (datetime_of_us (clock w)) in
  exists flag d w',
    maybe_send_budget_notification budget w = (Ret (flag, d), w')
    /\ (flag = false -> d = budget /\ w' = w)
    /\ (flag = true ->
        (float_or_zero (d_limit_amount budget) <=? 0)%float = false
        /\ notified_today (d_last_notified_at budget)
             ((clock w + tz_offset w) / us_per_day) = false
        /\ d = set_d_last_notified_at stamp budget
        /\ exists record,
             w' = set_budgets_table
                    (update_last_notified_at stamp (d_id budget) (budgets_table w))
                    (set_log (log w ++ [record]) w)).
Proof.
  intros stamp. unfold maybe_send_budget_notification.
  destruct (_ <=? _)%float eqn:Hl.
  { exists false, budget, w. repeat split; discriminate. }
  destruct (negb _).
  { exists false, budget, w. repeat split; discriminate. }
  unfold bind, today, gets.
  destruct (notified_today _ _) eqn:Hn.
  { exists false, budget, w. repeat split; discriminate. }
  unfold log_emit, modify, utcnow, gets, ret. cbn [clock set_log budgets_table].
  eexists true, _, _. split; [reflexivity |]. split; [discriminate |].
  intros _. repeat split; try assumption. eexists. reflexivity.
Qed.

Section SavingsHandlers.
Context `{PyLib}.

Lemma convert_to_base_keeps amount currency w :
  keeps_ledgers w (snd (convert_to_base amount currency w)).
Proof. unfold convert_to_base. apply convert_amount_contained. Qed.

(** A POST of a contribution answers 200 only for a goal of that id that
    belongs to the user; it then appends one contribution row with a new
    id, for that goal, with an amount that is not NaN, and adds the amount
    to [current_amount] of the goal.  On every other outcome, a 400, a
    404 or an exception, the goals and the contributions are as they
    were. *)
Theorem savings_goal_contribution_outcomes user goal_id data w :
  let r := fst (savings_goal_contribution user goal_id data w) in
  let w' := snd (savings_goal_contribution user goal_id data w) in
  (r = Ret 200 ->
   exists g amount,
     In g (savings_goals_table w) /\ g_id g = goal_id /\ g_user_id g = u_id user
     /\ is_nan amount = false
     /\ savings_goal_contributions w'
        = savings_goal_contributions w
          ++ [{| c_id := next_id (map c_id (savings_goal_contributions w));
                 c_goal_id := goal_id; c_amount := amount |}]
     /\ savings_goals_table w'
        = update_current_amount (fun current => sql_add current (Some amount))
            goal_id (savings_goals_table w))
  /\ (r <> Ret 200 ->
      savings_goals_table w' = savings_goals_table w
      /\ savings_goal_contributions w' = savings_goal_contributions w).
Proof.
  cbv zeta.
  destruct (savings_goal_contribution user goal_id data w) as [r w'] eqn:Hrun.
  cbn [fst snd].
  assert (Hsame : forall e : res Z, e <> Ret 200 -> (e, w) = (r, w') ->
            (r = Ret 200 ->
             exists g amount,
               In g (savings_goals_table w) /\ g_id g = goal_id /\ g_user_id g = u_id user
               /\ is_nan amount = false
               /\ savings_goal_contributions w'
                  = savings_goal_contributions w
                    ++ [{| c_id := next_id (map c_id (savings_goal_contributions w));
                           c_goal_id := goal_id; c_amount := amount |}]
               /\ savings_goals_table w'
                  = update_current_amount (fun current => sql_add current (Some amount))
                      goal_id (savings_goals_table w))
            /\ (r <> Ret 200 ->
                savings_goals_table w' = savings_goals_table w
                /\ savings_goal_contributions w' = savings_goal_contributions w)).
  { intros e He Hx. inversion Hx; subst. split; [contradiction | auto]. }
  unfold savings_goal_contribution in Hrun.
  destruct (cd_amount data) as [| b | f | s | l | d] eqn:Ha;
    try (apply (Hsame (Ret 400)); [discriminate | exact Hrun]).
  all: unfold bind at 1 in Hrun.
  all: destruct (py_float_exn _) as [e | amount]; cbn [lift raise ret] in Hrun;
    [apply (Hsame (Raise e)); [discriminate | exact Hrun] |].
  all: destruct (amount <=? 0)%float;
    [apply (Hsame (Ret 400)); [discriminate | exact Hrun] |].
  all: unfold bind at 1, gets at 1 in Hrun.
  all: destruct (find _ (savings_goals_table w)) as [g |] eqn:Hg;
    [| apply (Hsame (Ret 404)); [discriminate | exact Hrun]].
  all: apply find_some in Hg; destruct Hg as [Hin Hkey];
    apply andb_true_iff in Hkey; destruct Hkey as [Hid Hu];
    apply Z.eqb_eq in Hid; apply Z.eqb_eq in Hu.
  all: unfold bind at 1 in Hrun.
  all: match type of Hrun with
       | context [convert_to_base ?a ?c ?w0] =>
           pose proof (convert_to_base_keeps a c w0) as Hk;
           destruct (convert_to_base a c w0) as [[converted | e] w1]
       end; cbn [snd] in Hk;
    destruct Hk as (_ & _ & _ & Hgoals & Hcontr & _);
    [| inversion Hrun; subst; split; [discriminate | auto]].
  all: unfold insert_contribution, bind in Hrun.
  all: destruct (is_nan converted) eqn:Hnan; cbn [raise modify ret] in Hrun;
    inversion Hrun; subst;
    [split; [discriminate | auto] |].
  all: split; [intros _ | intros Hx; now contradiction Hx].
  all: exists g, converted;
    cbn [savings_goal_contributions savings_goals_table set_savings_goals_table
           set_savings_goal_contributions];
    rewrite Hgoals, Hcontr; repeat split; auto.
Qed.

Lemma nth_error_map_if {A} (p : A -> bool) (f : A -> A) (t : list A) n x :
  nth_error t n = Some x -> p x = false ->
  nth_error (map (fun y => if p y then f y else y) t) n = Some x.
Proof.
  intros Hn Hp. rewrite nth_error_map, Hn. cbn. now rewrite Hp.
Qed.


End SavingsHandlers.

Lemma select_goal_fold_other (f : contribution_row -> option float -> option float)
    (target : contribution_row -> Z) id (hit : list contribution_row) : forall t,
  (forall c, In c hit -> target c <> id) ->
  select_goal id
    (fold_left (fun goals c => update_current_amount (f c) (target c) goals) hit t)
  = select_goal id t.
Proof.
  induction hit as [| c hit IH]; intros t Hne; cbn [fold_left]; [reflexivity |].
  rewrite IH by (intros c' Hc'; apply Hne; now right).
  apply select_goal_other. intros Heq. apply (Hne c (or_introl eq_refl)). auto.
Qed.

(** The three statements on contributions, with their triggers, leave
    every other goal alone: an insert and an update change at most the
    goal named in the new row (an update that moves a contribution does
    not adjust the goal it leaves), and a delete changes at most the goals
    of the rows it removes. *)
Theorem contribution_triggers_touch_one_goal id w :
  (forall goal_id amount,
      id <> goal_id ->
      select_goal id (savings_goals_table (snd (insert_contribution goal_id amount w)))
      = select_goal id (savings_goals_table w))
  /\ (forall contribution_id goal_id amount,
         id <> goal_id ->
         select_goal id
           (savings_goals_table (snd (update_contribution contribution_id goal_id amount w)))
         = select_goal id (savings_goals_table w))
  /\ (forall contribution_id,
         (forall c, In c (savings_goal_contributions w) ->
                    c_id c = contribution_id -> c_goal_id c <> id) ->
         select_goal id
           (savings_goals_table (snd (delete_contribution contribution_id w)))
         = select_goal id (savings_goals_table w)).
Proof.
  split; [| split].
  - intros goal_id amount Hne. unfold insert_contribution.
    destruct (is_nan amount); [reflexivity |].
    cbn [modify snd savings_goals_table set_savings_goals_table].
    unfold trg_savings_goal_contributions_insert. cbn [c_goal_id].
    now apply select_goal_other.
  - intros cid goal_id amount Hne. unfold update_contribution.
    destruct (is_nan amount); [reflexivity |].
    cbn [modify snd savings_goals_table set_savings_goals_table].
    unfold trg_savings_goal_contributions_update. cbn [c_goal_id c_amount].
    apply (select_goal_fold_other
             (fun old current => sql_add (sql_sub current (Some (c_amount old))) (Some amount))
             (fun _ => goal_id)).
    intros c _. auto.
  - intros cid Hne. unfold delete_contribution.
    cbn [modify snd savings_goals_table set_savings_goals_table].
    unfold trg_savings_goal_contributions_delete.
    apply (select_goal_fold_other
             (fun old current => sql_max0 (sql_sub current (Some (c_amount old))))
             c_goal_id).
    intros c Hc. apply filter_In in Hc. destruct Hc as [Hin Hid].
    apply Z.eqb_eq in Hid. now apply Hne.
Qed.

Lemma framed_of_contained {A} (c : py A) : contained c -> framed c.
Proof. intros Hc w. destruct (Hc w) as [HR _]. split; [exact HR | auto]. Qed.

Lemma framed_bind {A B} (c : py A) (k : A -> py B) :
  framed c -> (forall a, framed (k a)) -> framed (bind c k).
Proof. apply bounded_bind. exact keeps_ledgers_trans. Qed.

Lemma framed_ret {A} (a : A) : framed (ret a).
Proof. apply bounded_ret. exact keeps_ledgers_refl. Qed.

Lemma framed_lift {A} (r : exn + A) : framed (lift r).
Proof. apply bounded_lift; [exact keeps_ledgers_refl | auto]. Qed.

Lemma framed_try_except {A} (c : py A) catches (h : exn -> py A) :
  framed c -> (forall e, framed (h e)) -> framed (try_except c catches h).
Proof.
  intros Hc Hh. apply bounded_try_except; [exact keeps_ledgers_trans | | exact Hh].
  intros w. destruct (Hc w) as [HR _]. split; auto.
Qed.

Section GoalCreationOutcomes.
Context `{PyLib}.

Lemma convert_to_base_framed amount currency :
  framed (convert_to_base amount currency).
Proof. apply framed_of_contained, convert_to_base_contained. Qed.

(** A POST of a savings goal never changes a contribution and changes no
    goal unless it answers 200.  When it answers 200 it has appended one
    goal and changed no other: the new row has an id no goal had, belongs
    to the user, carries the trimmed name, which is not empty, and a
    target that was given and is not NaN. *)
Theorem savings_goals_post_outcomes user data w :
  let r := fst (savings_goals_post user data w) in
  let w' := snd (savings_goals_post user data w) in
  savings_goal_contributions w' = savings_goal_contributions w
  /\ (r <> Ret 200 -> savings_goals_table w' = savings_goals_table w)
  /\ (r = Ret 200 ->
      exists g,
        savings_goals_table w' = savings_goals_table w ++ [g]
        /\ ~ In (g_id g) (map g_id (savings_goals_table w))
        /\ g_user_id g = u_id user
        /\ g_name g = strip (str_or (gd_name data) "")
        /\ g_name g <> ""%string
        /\ gd_target_amount data <> JNull
        /\ is_nan (g_target_amount g) = false).
Proof.
  cbv zeta.
  destruct (savings_goals_post user data w) as [r w'] eqn:Hrun. cbn [fst snd].
  assert (Hsame : forall (e : res Z) w0, e <> Ret 200 -> keeps_ledgers w w0 ->
            (e, w0) = (r, w') ->
            savings_goal_contributions w' = savings_goal_contributions w
            /\ (r <> Ret 200 -> savings_goals_table w' = savings_goals_table w)
            /\ (r = Ret 200 ->
                exists g,
                  savings_goals_table w' = savings_goals_table w ++ [g]
                  /\ ~ In (g_id g) (map g_id (savings_goals_table w))
                  /\ g_user_id g = u_id user
                  /\ g_name g = strip (str_or (gd_name data) "")
                  /\ g_name g <> ""%string
                  /\ gd_target_amount data <> JNull
                  /\ is_nan (g_target_amount g) = false)).
  { intros e w0 He (_ & _ & _ & Hg & Hc & _) Hx. inversion Hx; subst.
    repeat split; auto. contradiction. }
  unfold savings_goals_post in Hrun.
  destruct (String.eqb_spec (strip (str_or (gd_name data) "")) "") as [Hname | Hname];
    [apply (Hsame (Ret 400) w); [discriminate | apply keeps_ledgers_refl | exact Hrun] |].
  assert (Htarget : gd_target_amount data <> JNull
                    \/ (Ret 400, w) = (r, w')).
  { destruct (gd_target_amount data); cbn [orb] in Hrun;
      try (left; discriminate). right. exact Hrun. }
  destruct Htarget as [Htarget | Hx];
    [| apply (Hsame (Ret 400) w); [discriminate | apply keeps_ledgers_refl | exact Hx]].
  assert (Hno : match gd_target_amount data with JNull => true | _ => false end = false).
  { destruct (gd_target_amount data); try reflexivity. contradiction. }
  rewrite Hno in Hrun. cbn [orb] in Hrun.
  unfold bind at 1 in Hrun.
  match type of Hrun with
  | context [try_except ?body ?catches ?h w] =>
      assert (Hframe : framed (try_except body catches h));
      [ apply framed_try_except;
        [ apply framed_bind; [apply framed_lift | intros target];
          apply framed_bind; [apply convert_to_base_framed | intros target_pln];
          apply framed_bind; [apply framed_lift | intros current];
          apply framed_bind; [apply convert_to_base_framed | intros current_pln];
          apply framed_ret
        | intros e; apply framed_ret ]
      | destruct (Hframe w) as [Hk _];
        destruct (try_except body catches h w) as [[amounts | e] w1] ]
  end; cbn [snd] in Hk.
  - destruct amounts as [[target_pln current_pln] |];
      [| apply (Hsame (Ret 400) w1); [discriminate | exact Hk | exact Hrun]].
    destruct (is_nan target_pln) eqn:Hnan;
      [apply (Hsame (Raise IntegrityError) w1); [discriminate | exact Hk | exact Hrun] |].
    unfold bind, modify, ret in Hrun. inversion Hrun; subst. clear Hrun.
    destruct Hk as (_ & _ & _ & Hg & Hc & _).
    cbn [savings_goal_contributions savings_goals_table set_savings_goals_table].
    rewrite Hg. split; [exact Hc |]. split; [intros Hx; now contradiction Hx |].
    intros _. eexists. split; [reflexivity |].
    cbn [g_id g_user_id g_name g_target_amount].
    repeat split; auto. apply next_id_fresh.
  - apply (Hsame (Raise e) w1); [discriminate | exact Hk | exact Hrun].
Qed.

End GoalCreationOutcomes.

(* ===================================================================== *)
(** ** The calendar *)
(* ===================================================================== *)

Lemma all_from_spec n p : forall z,
  all_from n p z = true -> forall i, z <= i < z + Z.of_nat n -> p i = true.
Proof.
  induction n as [| n IH]; intros z Hall i Hi; [lia |].
  cbn [all_from] in Hall. apply andb_true_iff in Hall. destruct Hall as [Hz Hrest].
  destruct (Z.eq_dec i z) as [-> | Hne]; [assumption |].
  apply (IH (z + 1) Hrest). lia.
Qed.

Lemma leap_period y k :
  ((y + 400 * k) mod 4 =? 0) = (y mod 4 =? 0)
  /\ ((y + 400 * k) mod 100 =? 0) = (y mod 100 =? 0)
  /\ ((y + 400 * k) mod 400 =? 0) = (y mod 400 =? 0).
Proof.
  replace (y + 400 * k) with (y + (100 * k) * 4) at 1 by lia.
  replace (y + 400 * k) with (y + (4 * k) * 100) at 1 by lia.
  replace (y + 400 * k) with (y + k * 400) at 1 by lia.
  rewrite !Z.mod_add by lia. auto.
Qed.

Lemma days_in_month_period y m k :
  days_in_month (y + 400 * k) m = days_in_month y m.
Proof.
  unfold days_in_month. destruct (leap_period y k) as (-> & -> & ->). reflexivity.
Qed.

Lemma civil_of_days_period z k :
  civil_of_days (z + 146097 * k)
  = let '(y, m, d) := civil_of_days z in (y + 400 * k, m, d).
Proof.
  unfold civil_of_days.
  replace (z + 146097 * k + 719468) with (z + 719468 + k * 146097) by lia.
  rewrite Z.div_add by lia.
  replace (z + 719468 + k * 146097 - ((z + 719468) / 146097 + k) * 146097)
    with (z + 719468 - (z + 719468) / 146097 * 146097) by lia.
  cbv zeta. f_equal. f_equal. lia.
Qed.

Lemma days_of_civil_period y m d k :
  days_of_civil (y + 400 * k) m d = days_of_civil y m d + 146097 * k.
Proof.
  unfold days_of_civil.
  replace (if m <=? 2 then y + 400 * k - 1 else y + 400 * k)
    with ((if m <=? 2 then y - 1 else y) + k * 400)
    by (destruct (m <=? 2); lia).
  rewrite Z.div_add by lia. cbv zeta.
  set (y' := if m <=? 2 then y - 1 else y).
  replace (y' + k * 400 - (y' / 400 + k) * 400) with (y' - y' / 400 * 400) by lia.
  lia.
Qed.

Lemma days_of_civil_day y m d : days_of_civil y m d = days_of_civil y m 1 + (d - 1).
Proof. unfold days_of_civil. cbv zeta. lia. Qed.

Lemma era_days_ok : all_from (Z.to_nat 146097) day_ok 0 = true.
Proof. vm_cast_no_check (eq_refl true). Qed.

Lemma civil_of_days_valid z :
  let '(y, m, d) := civil_of_days z in
  valid_date y m d /\ days_of_civil y m d = z.
Proof.
  pose proof (Z.div_mod z 146097 ltac:(lia)) as Hz.
  pose proof (Z.mod_pos_bound z 146097 ltac:(lia)) as Hb.
  set (k := z / 146097) in *. set (z0 := z mod 146097) in *.
  assert (Hok : day_ok z0 = true).
  { apply (all_from_spec _ _ 0 era_days_ok). rewrite Z2Nat.id; lia. }
  replace z with (z0 + 146097 * k) by lia.
  rewrite civil_of_days_period. unfold day_ok in Hok.
  destruct (civil_of_days z0) as [[y m] d].
  rewrite !andb_true_iff in Hok. destruct Hok as [[[[H1 H2] H3] H4] H5].
  unfold valid_date. rewrite days_in_month_period, days_of_civil_period.
  apply Z.eqb_eq in H5. lia.
Qed.

Lemma month_index_year y m : 1 <= m <= 12 -> month_index y m / 12 = y.
Proof.
  intros Hm. unfold month_index.
  replace (12 * y + (m - 1)) with (m - 1 + y * 12) by lia.
  rewrite Z.div_add by lia. rewrite Z.div_small; lia.
Qed.

Lemma month_index_month y m : 1 <= m <= 12 -> month_index y m mod 12 + 1 = m.
Proof.
  intros Hm. unfold month_index.
  replace (12 * y + (m - 1)) with (m - 1 + y * 12) by lia.
  rewrite Z.mod_add by lia. rewrite Z.mod_small; lia.
Qed.

Lemma month_start_index y m : 1 <= m <= 12 ->
  month_start (month_index y m) = days_of_civil y m 1.
Proof.
  intros Hm. unfold month_start.
  now rewrite month_index_year, month_index_month.
Qed.

Lemma month_length_index y m : 1 <= m <= 12 ->
  month_length (month_index y m) = days_in_month y m.
Proof.
  intros Hm. unfold month_length.
  now rewrite month_index_year, month_index_month.
Qed.

Lemma month_start_period i k : month_start (i + 4800 * k) = month_start i + 146097 * k.
Proof.
  unfold month_start.
  replace (i + 4800 * k) with (i + (400 * k) * 12) by lia.
  rewrite Z.div_add, Z.mod_add by lia. apply days_of_civil_period.
Qed.

Lemma month_length_period i k : month_length (i + 4800 * k) = month_length i.
Proof.
  unfold month_length.
  replace (i + 4800 * k) with (i + (400 * k) * 12) by lia.
  rewrite Z.div_add, Z.mod_add by lia. apply days_in_month_period.
Qed.

Lemma era_months_ok : all_from (Z.to_nat 4800) month_ok 0 = true.
Proof. vm_cast_no_check (eq_refl true). Qed.

(** A month starts where the month before it ends. *)
Lemma month_start_succ i : month_start (i + 1) = month_start i + month_length i.
Proof.
  pose proof (Z.div_mod i 4800 ltac:(lia)) as Hi.
  pose proof (Z.mod_pos_bound i 4800 ltac:(lia)) as Hb.
  set (k := i / 4800) in *. set (i0 := i mod 4800) in *.
  assert (Hok : month_ok i0 = true).
  { apply (all_from_spec _ _ 0 era_months_ok). rewrite Z2Nat.id; lia. }
  apply Z.eqb_eq in Hok. clearbody k i0. subst i.
  replace (4800 * k + i0 + 1) with (i0 + 1 + 4800 * k) by lia.
  replace (4800 * k + i0) with (i0 + 4800 * k) by lia.
  rewrite !month_start_period, month_length_period. lia.
Qed.

Lemma days_in_month_bounds y m : 28 <= days_in_month y m <= 31.
Proof.
  unfold days_in_month.
  destruct (m =? 2); [destruct (_ && _)%bool; lia |].
  destruct (_ || _)%bool; lia.
Qed.

Lemma month_start_bounds i n :
  0 <= n -> month_start i + 28 * n <= month_start (i + n) <= month_start i + 31 * n.
Proof.
  intros Hn. revert n Hn.
  apply (natlike_ind (fun n => month_start i + 28 * n <= month_start (i + n)
                               <= month_start i + 31 * n)).
  - replace (i + 0) with i by lia. lia.
  - intros n Hn IH.
    replace (i + Z.succ n) with (i + n + 1) by lia.
    rewrite month_start_succ.
    pose proof (days_in_month_bounds ((i + n) / 12) ((i + n) mod 12 + 1)).
    unfold month_length. lia.
Qed.

Lemma valid_date_day y m d :
  valid_date y m d ->
  days_of_civil y m d = month_start (month_index y m) + (d - 1)
  /\ 1 <= d <= month_length (month_index y m).
Proof.
  intros [Hm Hd]. rewrite month_start_index, month_length_index by assumption.
  split; [apply days_of_civil_day | assumption].
Qed.

(** Earlier months hold earlier days. *)
Lemma month_order y m d y' m' d' :
  valid_date y m d -> valid_date y' m' d' ->
  month_index y m < month_index y' m' ->
  days_of_civil y m d < days_of_civil y' m' d'.
Proof.
  intros Hv Hv' Hlt.
  destruct (valid_date_day _ _ _ Hv) as [-> Hd].
  destruct (valid_date_day _ _ _ Hv') as [-> Hd'].
  set (i := month_index y m) in *. set (i' := month_index y' m') in *.
  pose proof (month_start_bounds (i + 1) (i' - i - 1) ltac:(lia)) as Hb.
  replace (i + 1 + (i' - i - 1)) with i' in Hb by lia.
  rewrite month_start_succ in Hb. lia.
Qed.

(** A calendar date is the date of its day number. *)
Lemma civil_of_days_of_civil y m d :
  valid_date y m d -> civil_of_days (days_of_civil y m d) = (y, m, d).
Proof.
  intros Hv. pose proof (civil_of_days_valid (days_of_civil y m d)) as Hz.
  destruct (civil_of_days (days_of_civil y m d)) as [[y2 m2] d2].
  destruct Hz as [Hv2 Heq].
  destruct (Z.lt_trichotomy (month_index y2 m2) (month_index y m)) as [Hlt | [He | Hgt]].
  - pose proof (month_order _ _ _ _ _ _ Hv2 Hv Hlt). lia.
  - assert (y2 = y).
    { rewrite <- (month_index_year y2 m2), <- (month_index_year y m), He;
        [reflexivity | apply Hv | apply Hv2]. }
    assert (m2 = m).
    { rewrite <- (month_index_month y2 m2), <- (month_index_month y m), He;
        [reflexivity | apply Hv | apply Hv2]. }
    subst. rewrite (days_of_civil_day y m d2), (days_of_civil_day y m d) in Heq.
    f_equal. lia.
  - pose proof (month_order _ _ _ _ _ _ Hv Hv2 Hgt). lia.
Qed.

Lemma first_of_month_start value :
  let '(y, m, d) := civil_of_days value in
  first_of_month value = days_of_civil y m 1.
Proof.
  unfold first_of_month. pose proof (civil_of_days_valid value) as Hv.
  destruct (civil_of_days value) as [[y m] d]. destruct Hv as [_ Hz].
  rewrite days_of_civil_day in Hz. lia.
Qed.

Lemma valid_date_first y m : 1 <= m <= 12 -> valid_date y m 1.
Proof.
  intros Hm. split; [assumption |]. pose proof (days_in_month_bounds y m). lia.
Qed.

(** The model of [end_of_month] on any day number. *)
Lemma end_of_month_civil value :
  let '(y, m, d) := civil_of_days value in
  civil_of_days (end_of_month value) = (y, m, days_in_month y m)
  /\ value <= end_of_month value
  /\ end_of_month value = days_of_civil y m 1 + (days_in_month y m - 1).
Proof.
  pose proof (civil_of_days_valid value) as Hv.
  pose proof (first_of_month_start value) as Hf.
  destruct (civil_of_days value) as [[y m] d] eqn:Hc.
  destruct Hv as [[Hm Hd] Hz].
  set (i := month_index y m).
  pose proof (month_start_succ i) as Hs.
  unfold i in Hs at 2 3. rewrite month_start_index, month_length_index in Hs by assumption.
  pose proof (days_in_month_bounds y m) as Hb.
  (* the day four days after the 28th lies in the next month *)
  set (y' := (i + 1) / 12) in *. set (m' := (i + 1) mod 12 + 1) in *.
  assert (Hm' : 1 <= m' <= 12).
  { unfold m'. pose proof (Z.mod_pos_bound (i + 1) 12 ltac:(lia)). lia. }
  assert (Hnext : first_of_month value + 27 + 4
                  = days_of_civil y' m' (32 - days_in_month y m)).
  { rewrite (days_of_civil_day y' m'). unfold month_start in Hs. fold y' m' in Hs. lia. }
  assert (Hv' : valid_date y' m' (32 - days_in_month y m)).
  { split; [assumption |]. pose proof (days_in_month_bounds y' m'). lia. }
  assert (Hend : end_of_month value = days_of_civil y m 1 + (days_in_month y m - 1)).
  { unfold end_of_month. rewrite Hnext. unfold first_of_month at 1.
    rewrite (civil_of_days_of_civil _ _ _ Hv').
    rewrite (days_of_civil_day y' m'). unfold month_start in Hs. fold y' m' in Hs. lia. }
  split; [| split]; [| | exact Hend].
  - rewrite Hend, <- days_of_civil_day. apply civil_of_days_of_civil.
    split; [assumption | lia].
  - rewrite Hend. rewrite days_of_civil_day in Hz. lia.
Qed.

Lemma month_start_le i j : i <= j -> month_start i <= month_start j.
Proof.
  intros Hij. pose proof (month_start_bounds i (j - i) ltac:(lia)) as Hb.
  replace (i + (j - i)) with j in Hb by lia. lia.
Qed.

(** A day lies in the month of its date. *)
Lemma day_in_month value :
  let '(y, m, d) := civil_of_days value in
  1 <= m <= 12 /\ 1 <= d <= days_in_month y m
  /\ value = month_start (month_index y m) + (d - 1)
  /\ month_start (month_index y m) <= value < month_start (month_index y m + 1).
Proof.
  pose proof (civil_of_days_valid value) as Hv.
  destruct (civil_of_days value) as [[y m] d]. destruct Hv as [Hv Hz].
  destruct (valid_date_day _ _ _ Hv) as [Hday Hlen].
  rewrite month_start_succ. destruct Hv as [Hm Hd]. repeat split; try lia.
Qed.

Lemma month_lengths_nth year month :
  1 <= month <= 12 ->
  nth (Z.to_nat (month - 1)) (month_lengths year) 0 = days_in_month year month.
Proof.
  intros Hm.
  assert (Hc : month = 1 \/ month = 2 \/ month = 3 \/ month = 4 \/ month = 5
               \/ month = 6 \/ month = 7 \/ month = 8 \/ month = 9 \/ month = 10
               \/ month = 11 \/ month = 12) by lia.
  repeat (destruct Hc as [-> | Hc]); try subst month; reflexivity.
Qed.

Lemma date_min_start : month_start 12 = date_min.
Proof. reflexivity. Qed.

Lemma date_max_start : month_start 120000 = date_max + 1.
Proof. reflexivity. Qed.

(** The years of [date] are the years of the days from [date.min] to
    [date.max]. *)
Lemma year_in_range value :
  let '(y, m, d) := civil_of_days value in
  (date_min <= value <= date_max <-> 1 <= y <= 9999).
Proof.
  pose proof (day_in_month value) as Hd.
  destruct (civil_of_days value) as [[y m] d].
  destruct Hd as (Hm & Hday & _ & Hlo & Hhi).
  unfold month_index in *. split.
  - intros [Hmin Hmax]. split.
    + destruct (Z_le_gt_dec 1 y) as [Hy | Hy]; [assumption | exfalso].
      pose proof (month_start_le (12 * y + (m - 1) + 1) 12 ltac:(lia)).
      rewrite date_min_start in *. lia.
    + destruct (Z_le_gt_dec y 9999) as [Hy | Hy]; [assumption | exfalso].
      pose proof (month_start_le 120000 (12 * y + (m - 1)) ltac:(lia)).
      rewrite date_max_start in *. lia.
  - intros [Hy1 Hy2]. split.
    + pose proof (month_start_le 12 (12 * y + (m - 1)) ltac:(lia)).
      rewrite date_min_start in *. lia.
    + pose proof (month_start_le (12 * y + (m - 1) + 1) 120000 ltac:(lia)).
      rewrite date_max_start in *. lia.
Qed.

Lemma end_of_month_checked_run value :
  date_min <= value <= date_max ->
  let '(y, m, d) := civil_of_days value in
  (value < days_of_civil 9999 12 1 ->
   exists last,
     end_of_month_checked value = inr last
     /\ last = end_of_month value
     /\ civil_of_days last = (y, m, days_in_month y m)
     /\ value <= last <= date_max)
  /\ (days_of_civil 9999 12 1 <= value ->
      end_of_month_checked value = inl DateOverflowError).
Proof.
  intros Hrange.
  pose proof (end_of_month_civil value) as He.
  pose proof (first_of_month_start value) as Hf.
  pose proof (day_in_month value) as Hd.
  pose proof (year_in_range value) as Hy.
  destruct (civil_of_days value) as [[y m] d].
  destruct He as (Hciv & Hle & Hend).
  destruct Hd as (Hm & Hday & Hval & Hlo & Hhi).
  apply Hy in Hrange as Hyear.
  rewrite <- (month_start_index y m) in Hf by assumption.
  rewrite <- (month_start_index y m) in Hend by assumption.
  rewrite month_start_succ, month_length_index in Hhi by assumption.
  pose proof (days_in_month_bounds y m) as Hb.
  change (days_of_civil 9999 12 1) with (date_max - 30).
  unfold end_of_month_checked, date_add_days.
  assert (Hmin : date_min <= first_of_month value).
  { rewrite Hf, <- date_min_start. apply month_start_le. unfold month_index. lia. }
  split.
  - intros Hlt.
    assert (Hnext : month_start (month_index y m + 1) <= date_max - 30).
    { change (date_max - 30) with (month_start (month_index 9999 12)).
      apply month_start_le.
      destruct (Z_lt_ge_dec (month_index y m) (month_index 9999 12)); [lia | exfalso].
      pose proof (month_start_le (month_index 9999 12) (month_index y m) ltac:(lia)) as Hx.
      change (month_start (month_index 9999 12)) with (date_max - 30) in Hx. lia. }
    rewrite month_start_succ, month_length_index in Hnext by assumption.
    assert (Hin : ((date_min <=? first_of_month value + 27 + 4)
                   && (first_of_month value + 27 + 4 <=? date_max))%bool = true).
    { apply andb_true_iff. split; apply Z.leb_le; lia. }
    rewrite Hin. eexists. split; [reflexivity |].
    fold (end_of_month value). repeat split; try assumption. lia.
  - intros Hge.
    assert (Hi : month_index y m = month_index 9999 12).
    { destruct (Z_lt_ge_dec (month_index y m) (month_index 9999 12)) as [Hlt | Hge'];
        [exfalso | unfold month_index in *; lia].
      pose proof (month_start_le (month_index y m + 1) (month_index 9999 12)
                    ltac:(lia)) as Hx.
      rewrite month_start_succ, month_length_index in Hx by assumption.
      change (month_start (month_index 9999 12)) with (date_max - 30) in Hx. lia. }
    assert (Hout : (first_of_month value + 27 + 4 <=? date_max) = false).
    { apply Z.leb_gt. rewrite Hf, Hi.
      change (month_start (month_index 9999 12)) with (date_max - 30). lia. }
    rewrite Hout, andb_false_r. reflexivity.
Qed.

(** For a date before December 9999, [end_of_month] returns the last day
    of the date's month: same year, same month, the day the month's length,
    not before the date itself.  In December 9999 the four days added to
    the 28th pass [date.max] and the call raises [OverflowError].  The
    unchecked function used by [budgets()] agrees with the checked one
    wherever that returns. *)
Theorem end_of_month_last_day value :
  date_min <= value <= date_max ->
  let '(y, m, d) := civil_of_days value in
  (value < days_of_civil 9999 12 1 ->
   exists last,
     end_of_month_checked value = inr last
     /\ last = end_of_month value
     /\ civil_of_days last = (y, m, days_in_month y m)
     /\ value <= last <= date_max)
  /\ (days_of_civil 9999 12 1 <= value ->
      end_of_month_checked value = inl DateOverflowError).
Proof. apply end_of_month_checked_run. Qed.

Lemma end_of_month_last_day_witness :
  exists last,
    end_of_month_checked 19753 = inr last
    /\ last = end_of_month 19753
    /\ civil_of_days last = (2024, 1, 31)
    /\ 19753 <= last <= date_max.
Proof.
  pose proof (end_of_month_last_day 19753) as Hlast.
  assert (Hdate : civil_of_days 19753 = (2024, 1, 31)) by reflexivity.
  rewrite Hdate in Hlast.
  apply Hlast; [unfold date_min, date_max; lia | vm_compute; reflexivity].
Defined.

Lemma add_months_run base_date months :
  let '(y, m, d) := civil_of_days base_date in
  let i := month_index y m + months in
  (1 <= i / 12 <= 9999 ->
   exists r,
     add_months base_date months = inr r
     /\ civil_of_days r
        = (i / 12, i mod 12 + 1, Z.min d (days_in_month (i / 12) (i mod 12 + 1))))
  /\ (~ 1 <= i / 12 <= 9999 -> add_months base_date months = inl DateValueError).
Proof.
  unfold add_months.
  pose proof (civil_of_days_valid base_date) as Hv.
  destruct (civil_of_days base_date) as [[y m] d]. destruct Hv as [[Hm Hd] _].
  cbv zeta.
  assert (Hy : y + (m - 1 + months) / 12 = (month_index y m + months) / 12).
  { unfold month_index.
    replace (12 * y + (m - 1) + months) with (m - 1 + months + y * 12) by lia.
    rewrite Z.div_add by lia. lia. }
  assert (Hmo : (m - 1 + months) mod 12 = (month_index y m + months) mod 12).
  { unfold month_index.
    replace (12 * y + (m - 1) + months) with (m - 1 + months + y * 12) by lia.
    now rewrite Z.mod_add by lia. }
  rewrite Hy, Hmo.
  set (i := month_index y m + months).
  pose proof (Z.mod_pos_bound i 12 ltac:(lia)) as Hmod.
  replace (i mod 12 + 1 - 1) with (i mod 12 + 1 - 1) by reflexivity.
  rewrite month_lengths_nth by lia.
  pose proof (days_in_month_bounds (i / 12) (i mod 12 + 1)) as Hb.
  unfold py_date.
  split.
  - intros [H1 H2].
    repeat match goal with
           | |- context [(?a <=? ?b)] => rewrite (proj2 (Z.leb_le a b)) by lia
           end.
    cbn [andb]. eexists. split; [reflexivity |]. apply civil_of_days_of_civil.
    split; lia.
  - intros Hout.
    destruct (Z.leb_spec 1 (i / 12)); [| reflexivity].
    destruct (Z.leb_spec (i / 12) 9999); [| reflexivity].
    exfalso. apply Hout. lia.
Qed.

Lemma next_recurring_date_later current_date frequency :
  date_min <= current_date -> current_date + 372 <= date_max ->
  exists next,
    next_recurring_date current_date frequency = inr next
    /\ current_date < next <= current_date + 372.
Proof.
  intros Hmin Hmax.
  assert (Hadd : forall n, 1 <= n <= 30 ->
            exists next, date_add_days current_date n = inr next
                         /\ current_date < next <= current_date + 372).
  { intros n Hn. unfold date_add_days.
    assert (Hin : ((date_min <=? current_date + n)
                   && (current_date + n <=? date_max))%bool = true).
    { apply andb_true_iff. split; apply Z.leb_le; lia. }
    rewrite Hin. eexists. split; [reflexivity | lia]. }
  assert (Hmon : forall n, 1 <= n <= 12 ->
            exists next, add_months current_date n = inr next
                         /\ current_date < next <= current_date + 372).
  { intros n Hn.
    pose proof (add_months_run current_date n) as Hres.
    pose proof (day_in_month current_date) as Hd.
    pose proof (year_in_range current_date) as Hy.
    destruct (civil_of_days current_date) as [[y m] d].
    destruct Hd as (Hm & Hday & Hval & Hlo & Hhi).
    cbv zeta in Hres. destruct Hres as [Hok _].
    set (i := month_index y m) in *.
    pose proof (Z.div_mod (i + n) 12 ltac:(lia)) as Hdm.
    pose proof (Z.mod_pos_bound (i + n) 12 ltac:(lia)) as Hmod.
    pose proof (days_in_month_bounds ((i + n) / 12) ((i + n) mod 12 + 1)) as Hb.
    pose proof (month_start_bounds (i + 1) (n - 1) ltac:(lia)) as Hlow.
    replace (i + 1 + (n - 1)) with (i + n) in Hlow by lia.
    pose proof (month_start_bounds i n ltac:(lia)) as Hup.
    (* the day the target date would have *)
    set (day := Z.min d (days_in_month ((i + n) / 12) ((i + n) mod 12 + 1))) in *.
    assert (Hvalid : valid_date ((i + n) / 12) ((i + n) mod 12 + 1) day).
    { split; unfold day; lia. }
    destruct (valid_date_day _ _ _ Hvalid) as [Hnum _].
    assert (Hidx : month_index ((i + n) / 12) ((i + n) mod 12 + 1) = i + n).
    { unfold month_index. lia. }
    rewrite Hidx in Hnum.
    assert (Hbounds : current_date < days_of_civil ((i + n) / 12) ((i + n) mod 12 + 1) day
                      <= current_date + 372).
    { rewrite Hnum. unfold day. lia. }
    assert (Hyear : 1 <= (i + n) / 12 <= 9999).
    { pose proof (year_in_range
                    (days_of_civil ((i + n) / 12) ((i + n) mod 12 + 1) day)) as Hyr.
      rewrite (civil_of_days_of_civil _ _ _ Hvalid) in Hyr. apply Hyr. lia. }
    destruct (Hok Hyear) as (r & Hr & Hciv).
    exists r. split; [assumption |].
    pose proof (civil_of_days_valid r) as Hrv. rewrite Hciv in Hrv.
    destruct Hrv as [_ Hrz]. fold day in Hrz. lia. }
  unfold next_recurring_date.
  destruct (frequency =? "daily")%string; [apply Hadd; lia |].
  destruct (frequency =? "weekly")%string; [apply Hadd; lia |].
  destruct (frequency =? "monthly")%string; [apply Hmon; lia |].
  destruct (frequency =? "quarterly")%string; [apply Hmon; lia |].
  destruct (frequency =? "yearly")%string; [apply Hmon; lia |].
  apply Hadd; lia.
Qed.


(** For every frequency, known or not, the next occurrence is strictly
    later than the current one and at most 372 days later, and computing
    it does not raise as long as that leaves a year's room before
    [date.max]. *)
Theorem next_recurring_date_is_later current_date frequency :
  date_min <= current_date -> current_date + 372 <= date_max ->
  exists next,
    next_recurring_date current_date frequency = inr next
    /\ current_date < next <= current_date + 372.
Proof. apply next_recurring_date_later. Qed.

Lemma next_recurring_date_is_later_witness :
  exists next,
    next_recurring_date 19753 "monthly" = inr next
    /\ 19753 < next <= 19753 + 372.
Proof.
  apply (next_recurring_date_is_later 19753 "monthly");
    unfold date_min, date_max; lia.
Defined.

Lemma due_dates_run today end_date frequency :
  today + 372 <= date_max ->
  forall n next_date,
    (Z.to_nat (today - next_date + 1) <= n)%nat ->
    date_min <= next_date ->
    exists dates final,
      (forall fuel, (n < fuel)%nat ->
         due_dates fuel today end_date frequency next_date = Some (inr (dates, final)))
      /\ (forall d, In d dates -> next_date <= d <= today /\ within end_date d)
      /\ StronglySorted Z.lt dates
      /\ next_date <= final
      /\ (forall d, In d dates -> d < final)
      /\ (today < final \/ ~ within end_date final).
Proof.
  intros Hmax.
  assert (Hstop : forall next_date,
            ((next_date <=? today)
             && match end_date with
                | None => true
                | Some e => next_date <=? e
                end)%bool = false ->
            exists dates final,
              (forall fuel, (0 < fuel)%nat ->
                 due_dates fuel today end_date frequency next_date
                 = Some (inr (dates, final)))
              /\ (forall d, In d dates -> next_date <= d <= today /\ within end_date d)
              /\ StronglySorted Z.lt dates
              /\ next_date <= final
              /\ (forall d, In d dates -> d < final)
              /\ (today < final \/ ~ within end_date final)).
  { intros next_date Htest. exists [], next_date.
    split; [| split; [| split; [| split; [| split]]]].
    - intros [| fuel] Hf; [lia |]. cbn [due_dates]. now rewrite Htest.
    - intros d [].
    - constructor.
    - lia.
    - intros d [].
    - apply andb_false_iff in Htest. destruct Htest as [Hgt | Hend].
      + left. now apply Z.leb_gt.
      + right. unfold within. destruct end_date as [e |]; [| discriminate].
        apply Z.leb_gt in Hend. lia. }
  induction n as [| n IH]; intros next_date Hn Hmin.
  - assert (Hgt : (next_date <=? today) = false) by (apply Z.leb_gt; lia).
    destruct (Hstop next_date) as (dates & final & Hrun & Hrest);
      [now rewrite Hgt |].
    exists dates, final. split; [intros fuel Hf; apply Hrun; lia | exact Hrest].
  - destruct ((next_date <=? today)
              && match end_date with
                 | None => true
                 | Some e => next_date <=? e
                 end)%bool eqn:Htest.
    + apply andb_true_iff in Htest. destruct Htest as [Hle Hend].
      apply Z.leb_le in Hle.
      destruct (next_recurring_date_later next_date frequency Hmin ltac:(lia))
        as (next & Hnext & Hlater).
      destruct (IH next ltac:(lia) ltac:(lia))
        as (dates & final & Hrun & Hin & Hsorted & Hfinal & Hbelow & Hend').
      exists (next_date :: dates), final.
      split; [| split; [| split; [| split; [| split]]]].
      * intros [| fuel] Hf; [lia |]. cbn [due_dates].
        apply Z.leb_le in Hle. rewrite Hle. cbn [andb]. rewrite Hend, Hnext.
        rewrite (Hrun fuel ltac:(lia)). reflexivity.
      * intros d [<- | Hd].
        -- split; [lia |]. unfold within.
           destruct end_date as [e |]; [now apply Z.leb_le | exact I].
        -- apply Hin in Hd. split; [lia | apply Hd].
      * constructor; [assumption |]. apply Forall_forall. intros d Hd.
        apply Hin in Hd. lia.
      * lia.
      * intros d [<- | Hd]; [lia | now apply Hbelow].
      * exact Hend'.
    + destruct (Hstop next_date Htest) as (dates & final & Hrun & Hrest).
      exists dates, final. split; [intros fuel Hf; apply Hrun; lia | exact Hrest].
Qed.

(** The catch-up loop of [process_recurring_transactions] ends: with more
    turns allowed than there are days from [next_date] to today, it
    returns.  The dates it generates are strictly increasing, none before
    [next_date], none after today, none after [end_date]; and
    [next_date] is left after the last of them, after today or after
    [end_date]. *)
Theorem due_dates_catch_up today end_date frequency next_date :
  date_min <= next_date -> today + 372 <= date_max ->
  exists dates final,
    (forall fuel, (Z.to_nat (today - next_date + 1) < fuel)%nat ->
       due_dates fuel today end_date frequency next_date = Some (inr (dates, final)))
    /\ (forall d, In d dates -> next_date <= d <= today /\ within end_date d)
    /\ StronglySorted Z.lt dates
    /\ next_date <= final
    /\ (forall d, In d dates -> d < final)
    /\ (today < final \/ ~ within end_date final).
Proof.
  intros Hmin Hmax.
  apply (due_dates_run today end_date frequency Hmax
           (Z.to_nat (today - next_date + 1)) next_date); [lia | exact Hmin].
Qed.

Lemma due_dates_catch_up_witness :
  exists dates final,
    (forall fuel, (Z.to_nat (19800 - 19753 + 1) < fuel)%nat ->
       due_dates fuel 19800 (Some 19790) "monthly" 19753 = Some (inr (dates, final)))
    /\ (forall d, In d dates -> 19753 <= d <= 19800 /\ within (Some 19790) d)
    /\ StronglySorted Z.lt dates
    /\ 19753 <= final
    /\ (forall d, In d dates -> d < final)
    /\ (19800 < final \/ ~ within (Some 19790) final).
Proof.
  apply (due_dates_catch_up 19800 (Some 19790) "monthly" 19753);
    unfold date_min, date_max; lia.
Defined.

Lemma weekday_monday today :
  weekday (today - weekday today) = 0 /\ 0 <= weekday today <= 6.
Proof.
  unfold weekday.
  pose proof (Z.mod_pos_bound (today + 3) 7 ltac:(lia)) as Hb.
  pose proof (Z.div_mod (today + 3) 7 ltac:(lia)) as Hd.
  split; [| lia].
  replace (today - (today + 3) mod 7 + 3) with (((today + 3) / 7) * 7) by lia.
  apply Z.mod_mul. lia.
Qed.

Lemma year_start_le today :
  let '(y, m, d) := civil_of_days today in
  days_of_civil y 1 1 <= today /\ civil_of_days (days_of_civil y 1 1) = (y, 1, 1).
Proof.
  pose proof (day_in_month today) as Hd.
  destruct (civil_of_days today) as [[y m] d].
  destruct Hd as (Hm & Hday & Hval & Hlo & Hhi). split.
  - rewrite <- (month_start_index y 1) by lia.
    pose proof (month_start_le (month_index y 1) (month_index y m)
                  ltac:(unfold month_index; lia)). lia.
  - apply civil_of_days_of_civil. apply valid_date_first. lia.
Qed.

(** The window of [dashboard_summary], for a today from the first week of
    the calendar on and before December 9999: it is computed without an
    exception, and its end is the [end_date] of the request or today.  A
    weekly window starts on the Monday of today's week.  A monthly window
    starts on the first of January of today's year, not on the first of
    the month, and ends today, not at the end of the month.  Any other
    period starts at the [start_date] of the request or on the first of
    today's month. *)
Theorem dashboard_period_window today period start_date end_date :
  date_min + 6 <= today -> today < days_of_civil 9999 12 1 ->
  exists start,
    dashboard_period today period start_date end_date
    = inr (start, str_or end_date (date_isoformat today))
    /\ (period = "weekly"%string ->
        exists monday,
          start = date_isoformat monday /\ weekday monday = 0
          /\ today - 6 <= monday <= today)
    /\ (period = "monthly"%string ->
        exists year,
          start = date_isoformat (days_of_civil year 1 1)
          /\ fst (fst (civil_of_days today)) = year
          /\ civil_of_days (days_of_civil year 1 1) = (year, 1, 1)
          /\ days_of_civil year 1 1 <= today)
    /\ (period <> "weekly"%string -> period <> "monthly"%string ->
        start = str_or start_date (date_isoformat (first_of_month today))).
Proof.
  intros Hmin Hmax. unfold dashboard_period.
  change (days_of_civil 9999 12 1) with (date_max - 30) in Hmax.
  destruct (String.eqb_spec period "weekly") as [Hw | Hw].
  - destruct (weekday_monday today) as [Hmon Hb].
    unfold date_add_days.
    assert (Hin : ((date_min <=? today + - weekday today)
                   && (today + - weekday today <=? date_max))%bool = true).
    { apply andb_true_iff. split; apply Z.leb_le; lia. }
    rewrite Hin. eexists. split; [reflexivity |]. split; [| split].
    + intros _. exists (today + - weekday today). split; [reflexivity |].
      replace (today + - weekday today) with (today - weekday today) by lia.
      split; [assumption | lia].
    + intros Hx. subst period. discriminate Hx.
    + intros Hx. contradiction.
  - destruct (String.eqb_spec period "monthly") as [Hm | Hm].
    + assert (Hend : exists text,
                (if str_truthy end_date then inr (str_or end_date "")
                 else match end_of_month_checked today with
                      | inl e => inl e
                      | inr last => inr (date_isoformat last)
                      end) = @inr date_error string text).
      { destruct (str_truthy end_date); [eexists; reflexivity |].
        pose proof (end_of_month_checked_run today ltac:(lia)) as Hlast.
        destruct (civil_of_days today) as [[y m] d].
        destruct Hlast as [Hlast _].
        destruct (Hlast ltac:(change (days_of_civil 9999 12 1) with (date_max - 30); lia))
          as (last & -> & _).
        eexists; reflexivity. }
      destruct Hend as (text & ->).
      pose proof (year_start_le today) as Hy.
      destruct (civil_of_days today) as [[y m] d]. destruct Hy as [Hle Hciv].
      eexists. split; [reflexivity |]. split; [| split].
      * intros Hx. subst period. discriminate Hx.
      * intros _. exists y. auto.
      * intros _ Hx. contradiction.
    + eexists. split; [reflexivity |]. split; [| split].
      * intros Hx. contradiction.
      * intros Hx. contradiction.
      * reflexivity.
Qed.

Lemma dashboard_period_window_witness :
  dashboard_period 19753 "monthly" None None
  = inr ("2024-01-01"%string, "2024-01-31"%string).
Proof.
  destruct (dashboard_period_window 19753 "monthly" None None)
    as (start & Hrun & _ & Hmonthly & _).
  - unfold date_min. lia.
  - vm_compute. reflexivity.
  - destruct (Hmonthly eq_refl) as (year & Hstart & Hyear & _).
    rewrite Hrun, Hstart, <- Hyear. vm_compute. reflexivity.
Defined.

(* ===================================================================== *)
(** ** Slugs, question keys and session accounts *)
(* ===================================================================== *)

Lemma slug_char_not_hyphen c : is_slug_char c = true -> Ascii.eqb c hyphen = false.
Proof.
  destruct c as [[|] [|] [|] [|] [|] [|] [|] [|]]; vm_compute; congruence.
Qed.

Lemma lower_slug_char c : is_slug_char c = true -> lower_char c = c.
Proof.
  destruct c as [[|] [|] [|] [|] [|] [|] [|] [|]]; vm_compute; congruence.
Qed.

Lemma sub_runs_chain s : forall in_run, chain in_run (sub_runs in_run s) = true.
Proof.
  induction s as [| c s IH]; intros in_run; cbn [sub_runs]; [reflexivity |].
  destruct (is_slug_char c) eqn:Hc.
  - cbn [chain]. rewrite Hc. apply IH.
  - destruct in_run; [apply IH |].
    cbn [chain]. change (is_slug_char hyphen) with false. cbn. apply IH.
Qed.

Lemma chain_weaken s : chain true s = true -> chain false s = true.
Proof.
  destruct s as [| c s]; [reflexivity |]. cbn [chain].
  destruct (is_slug_char c); [auto |].
  rewrite !andb_true_iff. intros [[_ Hx] _]. discriminate.
Qed.

Lemma lstrip_hyphens_chain s : forall b,
  chain b s = true -> chain true (lstrip_hyphens s) = true.
Proof.
  induction s as [| c s IH]; intros b Hs; [reflexivity |].
  cbn [lstrip_hyphens]. destruct (Ascii.eqb c hyphen) eqn:Hh.
  - apply Ascii.eqb_eq in Hh. subst c. cbn [chain] in Hs.
    change (is_slug_char hyphen) with false in Hs. cbn in Hs.
    destruct b; cbn in Hs; [discriminate |]. eapply IH; eauto.
  - cbn [chain] in *. destruct (is_slug_char c); [assumption |].
    rewrite Hh in Hs. discriminate.
Qed.

Lemma rstrip_hyphens_hyphenated s : forall b,
  chain b s = true -> rstrip_hyphens s <> ""%string ->
  hyphenated b (rstrip_hyphens s) = true.
Proof.
  induction s as [| c s IH]; intros b Hs Hne; [now contradiction Hne |].
  cbn [rstrip_hyphens] in *. cbn [chain] in Hs.
  destruct (is_slug_char c) eqn:Hc.
  - rewrite (slug_char_not_hyphen c Hc) in *. cbn [andb] in *.
    cbn [hyphenated]. rewrite Hc.
    destruct (String.eqb_spec (rstrip_hyphens s) "") as [Hr | Hr];
      [rewrite Hr; reflexivity | now apply IH].
  - rewrite !andb_true_iff in Hs. destruct Hs as [[Hh Hb] Hs].
    rewrite Hh in *. cbn [andb] in *.
    destruct (rstrip_hyphens s =? "")%string eqn:He; [now contradiction Hne |].
    cbn [hyphenated]. rewrite Hc, Hh, Hb. cbn [andb].
    apply IH; [assumption |]. intros Hx. rewrite Hx in He. discriminate.
Qed.

Lemma hyphenated_chain s : forall b, hyphenated b s = true -> chain b s = true.
Proof.
  induction s as [| c s IH]; intros b Hs; [reflexivity |].
  cbn [hyphenated chain] in *. destruct (is_slug_char c); [auto |].
  rewrite !andb_true_iff in *. destruct Hs as [[Hh Hb] Hs]. auto.
Qed.

Lemma hyphenated_lower s : forall b, hyphenated b s = true -> lower s = s.
Proof.
  induction s as [| c s IH]; intros b Hs; [reflexivity |].
  cbn [hyphenated lower] in *. destruct (is_slug_char c) eqn:Hc.
  - rewrite (lower_slug_char c Hc). f_equal. eauto.
  - rewrite !andb_true_iff in Hs. destruct Hs as [[Hh _] Hs].
    apply Ascii.eqb_eq in Hh. subst c. f_equal. eauto.
Qed.

Lemma hyphenated_sub_runs s : forall b,
  hyphenated b s = true -> sub_runs false s = s.
Proof.
  induction s as [| c s IH]; intros b Hs; [reflexivity |].
  cbn [hyphenated sub_runs] in *. destruct (is_slug_char c) eqn:Hc.
  - f_equal. eauto.
  - rewrite !andb_true_iff in Hs. destruct Hs as [[Hh _] Hs].
    apply Ascii.eqb_eq in Hh. subst c. f_equal.
    destruct s as [| c' s']; [discriminate Hs |].
    cbn [hyphenated] in Hs. cbn [sub_runs].
    destruct (is_slug_char c') eqn:Hc'; [| cbn in Hs; rewrite andb_false_r in Hs; discriminate].
    f_equal. specialize (IH true). cbn [hyphenated sub_runs] in IH. rewrite Hc' in IH.
    specialize (IH Hs). now injection IH.
Qed.

Lemma hyphenated_rstrip s : forall b,
  hyphenated b s = true -> rstrip_hyphens s = s.
Proof.
  induction s as [| c s IH]; intros b Hs; [reflexivity |].
  cbn [hyphenated rstrip_hyphens] in *. destruct (is_slug_char c) eqn:Hc.
  - rewrite (slug_char_not_hyphen c Hc). cbn [andb]. f_equal. eauto.
  - rewrite !andb_true_iff in Hs. destruct Hs as [[Hh _] Hs].
    rewrite (IH true Hs). destruct s; [discriminate Hs |].
    cbn. rewrite andb_false_r. reflexivity.
Qed.

(** [slugify] always returns a slug: a non-empty text of lower-case
    letters and digits in words joined by single hyphens, with no hyphen
    first or last.  A slug is returned unchanged, so applying [slugify]
    twice is applying it once. *)
Theorem slugify_gives_a_slug :
  (forall value, is_slug (slugify value) = true)
  /\ (forall s, is_slug s = true -> slugify s = s)
  /\ (forall value, slugify (slugify value) = slugify value).
Proof.
  assert (H1 : forall value, is_slug (slugify value) = true).
  { intros value. unfold slugify. cbv zeta.
    destruct (strip_hyphens _ =? "")%string eqn:He; [reflexivity |].
    unfold is_slug. rewrite He. cbn [negb andb]. unfold strip_hyphens in *.
    apply rstrip_hyphens_hyphenated.
    - apply (lstrip_hyphens_chain _ false), sub_runs_chain.
    - intros Hx. rewrite Hx in He. discriminate. }
  assert (H2 : forall s, is_slug s = true -> slugify s = s).
  { intros s Hs. unfold is_slug in Hs. apply andb_true_iff in Hs.
    destruct Hs as [Hne Hh]. unfold slugify. cbv zeta.
    rewrite (hyphenated_lower s true Hh), (hyphenated_sub_runs s true Hh).
    unfold strip_hyphens.
    assert (Hl : lstrip_hyphens s = s).
    { destruct s as [| c s]; [reflexivity |]. cbn [hyphenated] in Hh.
      cbn [lstrip_hyphens]. destruct (is_slug_char c) eqn:Hc.
      - now rewrite (slug_char_not_hyphen c Hc).
      - cbn in Hh. rewrite andb_false_r in Hh. discriminate. }
    rewrite Hl, (hyphenated_rstrip s true Hh).
    apply negb_true_iff in Hne. now rewrite Hne. }
  split; [exact H1 | split; [exact H2 |]].
  intros value. apply H2, H1.
Qed.

Lemma lstrip_head s :
  lstrip s = ""%string
  \/ exists c r, lstrip s = String c r /\ is_space c = false.
Proof.
  induction s as [| c s IH]; [now left |].
  cbn [lstrip]. destruct (is_space c) eqn:Hc; [exact IH |].
  right. exists c, s. now split.
Qed.

Lemma rstrip_idem s : rstrip (rstrip s) = rstrip s.
Proof.
  induction s as [| c s IH]; [reflexivity |].
  cbn [rstrip]. destruct (is_space c && _)%bool eqn:Hc; [reflexivity |].
  cbn [rstrip]. rewrite IH, Hc. reflexivity.
Qed.

Lemma strip_idem s : strip (strip s) = strip s.
Proof.
  unfold strip. destruct (lstrip_head s) as [-> | (c & r & -> & Hc)]; [reflexivity |].
  assert (Hr : rstrip (String c r) = String c (rstrip r))
    by (cbn [rstrip]; now rewrite Hc).
  rewrite Hr. cbn [lstrip]. rewrite Hc.
  cbn [rstrip]. rewrite Hc. cbn [andb]. now rewrite rstrip_idem.
Qed.

Lemma is_space_lower_char c : is_space (lower_char c) = is_space c.
Proof.
  destruct c as [[|] [|] [|] [|] [|] [|] [|] [|]]; reflexivity.
Qed.

Lemma lower_char_idem c : lower_char (lower_char c) = lower_char c.
Proof.
  destruct c as [[|] [|] [|] [|] [|] [|] [|] [|]]; reflexivity.
Qed.

Lemma lower_idem s : lower (lower s) = lower s.
Proof.
  induction s as [| c s IH]; cbn [lower]; [reflexivity |].
  now rewrite lower_char_idem, IH.
Qed.

Lemma lower_empty s : (lower s =? "")%string = (s =? "")%string.
Proof. destruct s; reflexivity. Qed.

Lemma lower_lstrip s : lower (lstrip s) = lstrip (lower s).
Proof.
  induction s as [| c s IH]; cbn [lstrip lower]; [reflexivity |].
  rewrite is_space_lower_char. destruct (is_space c); [exact IH | reflexivity].
Qed.

Lemma lower_rstrip s : lower (rstrip s) = rstrip (lower s).
Proof.
  induction s as [| c s IH]; cbn [rstrip lower]; [reflexivity |].
  rewrite is_space_lower_char, <- IH, lower_empty.
  destruct (is_space c && _)%bool; reflexivity.
Qed.

Lemma lower_strip s : lower (strip s) = strip (lower s).
Proof. unfold strip. now rewrite lower_rstrip, lower_lstrip. Qed.

(** [normalize_currency] with the base currency for fallback returns a
    code that is never empty, has no lower-case letter and no surrounding
    white space, and that the function maps to itself. *)
Theorem normalize_currency_canonical value :
  let code := normalize_currency value BASE_CURRENCY in
  code <> ""%string
  /\ upper code = code
  /\ strip code = code
  /\ normalize_currency (Some code) BASE_CURRENCY = code.
Proof.
  cbv zeta. unfold normalize_currency.
  destruct (str_truthy value); [| repeat split; discriminate].
  destruct (String.eqb_spec (upper (strip (str_or value ""))) "") as [He | Hne];
    [repeat split; discriminate |].
  set (n := upper (strip (str_or value ""))) in *.
  assert (Hu : upper n = n) by apply upper_idem.
  assert (Hs : strip n = n).
  { unfold n. now rewrite <- upper_strip, strip_idem. }
  repeat split; auto.
  unfold str_truthy, str_or. apply String.eqb_neq in Hne. rewrite Hne. cbn [negb].
  rewrite Hs, Hu, Hne. reflexivity.
Qed.


(** Who [resolve_user_id] resolves to.  A session that is not an admin's
    resolves to its own account or to nothing, whatever e-mail is asked
    for.  Any session resolves to its own account when no e-mail or its
    own e-mail is given.  An admin's session resolves another e-mail to
    the account registered under it; and so does a request without a
    session. *)
Theorem resolve_user_id_access current t email :
  (forall c id,
      current = Some c -> not_admin c = true ->
      resolve_user_id current t email = Some id -> id = acc_id c)
  /\ (forall c,
         current = Some c ->
         (str_truthy email = false \/ email = Some (acc_email c)) ->
         resolve_user_id current t email = Some (acc_id c))
  /\ (forall c s,
         current = Some c -> not_admin c = false ->
         email = Some s -> s <> ""%string -> s <> acc_email c ->
         resolve_user_id current t email
         = option_map acc_id (get_user_by_email s t))
  /\ (current = None ->
      resolve_user_id current t email
      = if str_truthy email
        then option_map acc_id (get_user_by_email (str_or email "") t)
        else None).
Proof.
  split; [| split; [| split]].
  - intros c id -> Hna. unfold resolve_user_id. cbv zeta. rewrite Hna.
    destruct (str_truthy email) eqn:He; cbn [negb andb orb].
    + destruct (str_or email "" =? acc_email c)%string; cbn [negb andb orb];
        [intros Hx; now inversion Hx | discriminate].
    + intros Hx. now inversion Hx.
  - intros c -> Hown. unfold resolve_user_id. cbv zeta.
    destruct Hown as [He | ->].
    + rewrite He. reflexivity.
    + unfold str_truthy, str_or.
      destruct (String.eqb_spec (acc_email c) "") as [He | Hne]; cbn [negb andb orb];
        [reflexivity |].
      rewrite String.eqb_refl. reflexivity.
  - intros c s -> Hadm -> Hs Hneq. unfold resolve_user_id. cbv zeta.
    unfold str_truthy, str_or. apply String.eqb_neq in Hs. rewrite Hs.
    apply String.eqb_neq in Hneq. rewrite Hneq, Hadm. cbn [negb andb orb].
    destruct (get_user_by_email s t); reflexivity.
  - intros ->. unfold resolve_user_id. cbv zeta.
    destruct (str_truthy email); cbn [negb]; [| reflexivity].
    destruct (get_user_by_email _ t); reflexivity.
Qed.

(* ===================================================================== *)
(** ** The validators and the words of their expressions *)
(* ===================================================================== *)

Section Validators.
Local Open Scope string_scope.

Lemma lang_void_inv s : lang Void s -> False.
Proof. intros Hx. inversion Hx. Qed.

Lemma lang_eps_inv s : lang Eps s -> s = "".
Proof. intros Hx. now inversion Hx. Qed.

Lemma lang_class_inv p s : lang (Chars p) s -> exists c, s = String c "" /\ p c = true.
Proof. intros Hx. inversion Hx; subst. eauto. Qed.

Lemma lang_cat_inv r1 r2 s :
  lang (Cat r1 r2) s -> exists s1 s2, s = s1 ++ s2 /\ lang r1 s1 /\ lang r2 s2.
Proof. intros Hx. inversion Hx; subst. eauto. Qed.

Lemma lang_alt_inv r1 r2 s : lang (Alt r1 r2) s -> lang r1 s \/ lang r2 s.
Proof. intros Hx. inversion Hx; subst; auto. Qed.

Lemma append_assoc_str s1 s2 s3 : (s1 ++ s2) ++ s3 = s1 ++ (s2 ++ s3).
Proof. induction s1 as [| c s1 IH]; cbn; [reflexivity | now rewrite IH]. Qed.

Lemma append_nil_inv s1 s2 : s1 ++ s2 = "" -> s1 = "" /\ s2 = "".
Proof. destruct s1; cbn; [auto | discriminate]. Qed.

Lemma nullable_lang r : nullable r = true <-> lang r "".
Proof.
  induction r as [| | p | r1 IHr1 r2 IHr2 | r1 IHr1 r2 IHr2 | r IHr]; cbn [nullable].
  - split; [discriminate | intros Hx; now apply lang_void_inv in Hx].
  - split; [intros _; constructor | reflexivity].
  - split; [discriminate |]. intros Hx.
    apply lang_class_inv in Hx. destruct Hx as (c & Hc & _). discriminate.
  - split; intros Hx.
    + apply andb_true_iff in Hx. destruct Hx as [H1 H2].
      change "" with ("" ++ ""). apply lang_cat; [now apply IHr1 | now apply IHr2].
    + apply lang_cat_inv in Hx. destruct Hx as (s1 & s2 & Heq & H1 & H2).
      symmetry in Heq. apply append_nil_inv in Heq. destruct Heq as [-> ->].
      apply andb_true_iff. split; [now apply IHr1 | now apply IHr2].
  - split; intros Hx.
    + apply orb_true_iff in Hx. destruct Hx as [H1 | H2];
        [apply lang_alt_l; now apply IHr1 | apply lang_alt_r; now apply IHr2].
    + apply orb_true_iff. apply lang_alt_inv in Hx.
      destruct Hx; [left; now apply IHr1 | right; now apply IHr2].
  - split; [intros _; apply lang_star_nil | reflexivity].
Qed.

Lemma lang_star_split r c s :
  lang (Star r) (String c s) ->
  exists s1 s2, s = s1 ++ s2 /\ lang r (String c s1) /\ lang (Star r) s2.
Proof.
  intros Hx. remember (Star r) as r' eqn:Hr. remember (String c s) as w eqn:Hw.
  revert c s Hw. induction Hx; intros c0 s0 Hw; try discriminate.
  inversion Hr; subst. destruct s1 as [| c1 s1].
  - cbn in Hw. now apply IHHx2.
  - cbn in Hw. inversion Hw; subst. exists s1, s2. auto.
Qed.

Lemma deriv_lang r : forall c s, lang (deriv c r) s <-> lang r (String c s).
Proof.
  induction r; intros c s; cbn [deriv].
  - split; intros Hx; now apply lang_void_inv in Hx.
  - split; intros Hx; [now apply lang_void_inv in Hx |].
    apply lang_eps_inv in Hx. discriminate.
  - destruct (p c) eqn:Hp; split; intros Hx.
    + apply lang_eps_inv in Hx. subst. now constructor.
    + apply lang_class_inv in Hx. destruct Hx as (c' & Heq & _).
      inversion Heq; subst. constructor.
    + now apply lang_void_inv in Hx.
    + apply lang_class_inv in Hx. destruct Hx as (c' & Heq & Hc').
      inversion Heq; subst. congruence.
  - destruct (nullable r1) eqn:Hn.
    + split; intros Hx.
      * apply lang_alt_inv in Hx. destruct Hx as [Hl | Hr].
        -- apply lang_cat_inv in Hl. destruct Hl as (s1 & s2 & -> & H1 & H2).
           change (String c (s1 ++ s2)) with (String c s1 ++ s2).
           constructor; [now apply IHr1 | assumption].
        -- change (String c s) with ("" ++ String c s).
           constructor; [now apply nullable_lang | now apply IHr2].
      * apply lang_cat_inv in Hx. destruct Hx as (s1 & s2 & Heq & H1 & H2).
        destruct s1 as [| c1 s1]; cbn in Heq.
        -- subst s2. apply lang_alt_r. now apply IHr2.
        -- inversion Heq; subst. apply lang_alt_l.
           constructor; [now apply IHr1 | assumption].
    + split; intros Hx.
      * apply lang_cat_inv in Hx. destruct Hx as (s1 & s2 & -> & H1 & H2).
        change (String c (s1 ++ s2)) with (String c s1 ++ s2).
        constructor; [now apply IHr1 | assumption].
      * apply lang_cat_inv in Hx. destruct Hx as (s1 & s2 & Heq & H1 & H2).
        destruct s1 as [| c1 s1]; cbn in Heq.
        -- apply nullable_lang in H1. congruence.
        -- inversion Heq; subst. constructor; [now apply IHr1 | assumption].
  - split; intros Hx; apply lang_alt_inv in Hx; destruct Hx;
      [apply lang_alt_l; now apply IHr1 | apply lang_alt_r; now apply IHr2
      | apply lang_alt_l; now apply IHr1 | apply lang_alt_r; now apply IHr2].
  - split; intros Hx.
    + apply lang_cat_inv in Hx. destruct Hx as (s1 & s2 & -> & H1 & H2).
      change (String c (s1 ++ s2)) with (String c s1 ++ s2).
      apply lang_star_cons; [now apply IHr | assumption].
    + apply lang_star_split in Hx. destruct Hx as (s1 & s2 & -> & H1 & H2).
      constructor; [now apply IHr | assumption].
Qed.

(** The matcher decides the words of the expression. *)
Lemma matches_lang s : forall r, matches r s = true <-> lang r s.
Proof.
  induction s as [| c s IH]; intros r; cbn [matches].
  - apply nullable_lang.
  - rewrite IH. apply deriv_lang.
Qed.

Lemma matches_prefix_lang s : forall r,
  matches_prefix r s = true <-> exists p q, s = p ++ q /\ lang r p.
Proof.
  induction s as [| c s IH]; intros r; cbn [matches_prefix].
  - rewrite orb_false_r, nullable_lang. split.
    + intros Hx. exists "", "". auto.
    + intros (p & q & Heq & Hp). symmetry in Heq. apply append_nil_inv in Heq.
      destruct Heq as [-> _]. assumption.
  - rewrite orb_true_iff, nullable_lang, IH. split.
    + intros [Hx | (p & q & -> & Hp)].
      * exists "", (String c s). auto.
      * exists (String c p), q. split; [reflexivity | now apply deriv_lang].
    + intros (p & q & Heq & Hp). destruct p as [| c' p]; [now left |].
      cbn in Heq. inversion Heq; subst. right. exists p, q.
      split; [reflexivity | now apply deriv_lang].
Qed.

Lemma chomp_append s' : chomp (s' ++ String newline "") = Some s'.
Proof.
  induction s' as [| a s'' IH]; [reflexivity |].
  cbn [append chomp]. destruct (s'' ++ String newline "") as [| b t] eqn:He.
  - destruct s''; discriminate.
  - now rewrite IH.
Qed.

Lemma chomp_some s : forall s', chomp s = Some s' -> s = s' ++ String newline "".
Proof.
  induction s as [| c s IH]; intros s'; cbn [chomp]; [discriminate |].
  destruct s as [| c2 s2].
  - destruct (Ascii.eqb_spec c newline) as [-> | Hne]; intros Hx; inversion Hx.
    reflexivity.
  - destruct (chomp (String c2 s2)) as [r |] eqn:Hc; intros Hx; inversion Hx; subst.
    cbn [append]. f_equal. now apply IH.
Qed.

Lemma chomp_spec s s' : chomp s = Some s' <-> s = s' ++ String newline "".
Proof.
  split; [apply chomp_some | intros ->; apply chomp_append].
Qed.

Lemma match_anchored_lang r s :
  match_anchored r s = true
  <-> lang r s \/ exists s', s = s' ++ String newline "" /\ lang r s'.
Proof.
  unfold match_anchored. rewrite orb_true_iff, matches_lang. split.
  - intros [Hx | Hx]; [now left | right].
    destruct (chomp s) as [s' |] eqn:Hc; [| discriminate].
    exists s'. split; [now apply chomp_spec | now apply matches_lang].
  - intros [Hx | (s' & Hs & Hx)]; [now left | right].
    apply chomp_spec in Hs. rewrite Hs. now apply matches_lang.
Qed.

Lemma lang_star_class p s : lang (Star (Chars p)) s <-> all_chars p s = true.
Proof.
  split.
  - intros Hx. remember (Star (Chars p)) as r eqn:Hr.
    induction Hx; try discriminate; [reflexivity |].
    inversion Hr; subst. apply lang_class_inv in Hx1.
    destruct Hx1 as (c & -> & Hc). cbn.
    apply andb_true_iff. split; [assumption | now apply IHHx2].
  - induction s as [| c s IH]; cbn; intros Hx; [constructor |].
    apply andb_true_iff in Hx. destruct Hx as [Hc Hs].
    change (String c s) with (String c "" ++ s).
    constructor; [now constructor | now apply IH].
Qed.

Lemma lang_plus_class p s :
  lang (Plus (Chars p)) s <-> s <> "" /\ all_chars p s = true.
Proof.
  unfold Plus. split.
  - intros Hx. apply lang_cat_inv in Hx. destruct Hx as (s1 & s2 & -> & H1 & H2).
    apply lang_class_inv in H1. destruct H1 as (c & -> & Hc). cbn.
    split; [discriminate |].
    apply andb_true_iff. split; [assumption | now apply lang_star_class].
  - intros [Hne Hall]. destruct s as [| c s]; [contradiction |].
    cbn in Hall. apply andb_true_iff in Hall. destruct Hall as [Hc Hs].
    change (String c s) with (String c "" ++ s).
    constructor; [now constructor | now apply lang_star_class].
Qed.

Lemma lang_email s :
  lang EMAIL_REGEX s
  <-> exists name domain tld,
        s = name ++ "@" ++ domain ++ "." ++ tld
        /\ address_part name /\ address_part domain /\ address_part tld.
Proof.
  unfold EMAIL_REGEX, address_part. split.
  - intros Hx.
    apply lang_cat_inv in Hx. destruct Hx as (name & s2 & -> & H1 & H2).
    apply lang_cat_inv in H2. destruct H2 as (a & s3 & -> & H3 & H4).
    apply lang_cat_inv in H4. destruct H4 as (domain & s5 & -> & H5 & H6).
    apply lang_cat_inv in H6. destruct H6 as (d & tld & -> & H7 & H8).
    apply lang_class_inv in H3. destruct H3 as (c & -> & Hc).
    apply lang_class_inv in H7. destruct H7 as (c' & -> & Hc').
    apply Ascii.eqb_eq in Hc. apply Ascii.eqb_eq in Hc'. subst.
    exists name, domain, tld. split; [reflexivity |].
    apply lang_plus_class in H1. apply lang_plus_class in H5.
    apply lang_plus_class in H8. auto.
  - intros (name & domain & tld & -> & Hn & Hd & Ht).
    constructor; [now apply lang_plus_class |].
    change ("@" ++ domain ++ "." ++ tld) with (String "@" "" ++ (domain ++ String "." "" ++ tld)).
    constructor; [now constructor |].
    constructor; [now apply lang_plus_class |].
    constructor; [now constructor | now apply lang_plus_class].
Qed.


Lemma lookahead_lang p s :
  (exists pre post, s = pre ++ post
                    /\ lang (Cat (Star (Chars not_newline)) (Chars p)) pre)
  <-> first_line_has p s = true.
Proof.
  split.
  - intros (pre & post & -> & Hx).
    apply lang_cat_inv in Hx. destruct Hx as (a & b & -> & Ha & Hb).
    apply lang_star_class in Ha. apply lang_class_inv in Hb.
    destruct Hb as (c & -> & Hc).
    induction a as [| x a IH]; cbn.
    + now rewrite Hc.
    + cbn in Ha. apply andb_true_iff in Ha. destruct Ha as [Hx Ha].
      rewrite Hx, (IH Ha). cbn. apply orb_true_r.
  - induction s as [| c s IH]; cbn; [discriminate |].
    intros Hx. apply orb_true_iff in Hx. destruct Hx as [Hc | Hx].
    + exists (String c ""), s. split; [reflexivity |].
      change (String c "") with ("" ++ String c "").
      apply lang_cat; [apply lang_star_nil | now constructor].
    + apply andb_true_iff in Hx. destruct Hx as [Hn Hs].
      destruct (IH Hs) as (pre & post & -> & Hl).
      exists (String c pre), post. split; [reflexivity |].
      apply lang_cat_inv in Hl. destruct Hl as (a & b & -> & Ha & Hb).
      change (String c (a ++ b)) with (String c a ++ b).
      apply lang_cat; [| assumption].
      change (String c a) with (String c "" ++ a).
      apply lang_star_cons; [now constructor | assumption].
Qed.

Lemma first_line_has_line p q :
  all_chars not_newline q = true ->
  p newline = false ->
  first_line_has p q = some_char p q
  /\ first_line_has p (q ++ String newline "") = some_char p q.
Proof.
  intros Hq Hp. induction q as [| c q IH]; cbn [first_line_has some_char append].
  - rewrite Hp. split; reflexivity.
  - cbn [all_chars] in Hq. apply andb_true_iff in Hq. destruct Hq as [Hc Hq].
    destruct (IH Hq) as [-> ->]. rewrite Hc. split; reflexivity.
Qed.

Lemma lang_at_least n p : forall s,
  lang (AtLeast n (Chars p)) s
  <-> all_chars p s = true /\ (n <= String.length s)%nat.
Proof.
  induction n as [| n IH]; intros s; cbn [AtLeast].
  - rewrite lang_star_class. split; [intros Hx; split; [assumption | lia] | tauto].
  - split.
    + intros Hx. apply lang_cat_inv in Hx. destruct Hx as (a & b & -> & Ha & Hb).
      apply lang_class_inv in Ha. destruct Ha as (c & -> & Hc).
      apply IH in Hb. destruct Hb as [Hall Hlen]. cbn.
      rewrite Hc, Hall. split; [reflexivity | lia].
    + intros [Hall Hlen]. destruct s as [| c s]; [cbn in Hlen; lia |].
      cbn in Hall, Hlen. apply andb_true_iff in Hall. destruct Hall as [Hc Hs].
      change (String c s) with (String c "" ++ s).
      apply lang_cat; [now constructor |]. apply IH. split; [assumption | lia].
Qed.

Lemma all_chars_app p a b :
  all_chars p (a ++ b) = (all_chars p a && all_chars p b)%bool.
Proof.
  induction a as [| c a IH]; cbn; [reflexivity |]. now rewrite IH, andb_assoc.
Qed.


End Validators.

(* ===================================================================== *)
(** ** Seeding the default categories *)
(* ===================================================================== *)

Lemma expense_names_in user_id name t :
  In name (expense_names user_id t) <-> has_expense_category user_id name t.
Proof.
  unfold expense_names, has_expense_category. rewrite in_map_iff. split.
  - intros (r & Hn & Hin). apply filter_In in Hin. destruct Hin as [Hin Hp].
    apply andb_true_iff in Hp. destruct Hp as [Hu Ht].
    apply Z.eqb_eq in Hu. apply String.eqb_eq in Ht. exists r. auto.
  - intros (r & Hin & Hu & Ht & Hn). exists r. split; [assumption |].
    apply filter_In. split; [assumption |].
    apply andb_true_iff. split; [now apply Z.eqb_eq | now apply String.eqb_eq].
Qed.

Lemma existsb_eqb_in name names :
  existsb (String.eqb name) names = true <-> In name names.
Proof.
  rewrite existsb_exists. split.
  - intros (x & Hin & Hx). apply String.eqb_eq in Hx. now subst.
  - intros Hin. exists name. split; [assumption | apply String.eqb_refl].
Qed.

Lemma has_expense_category_app user_id name t r :
  has_expense_category user_id name (t ++ [r])
  <-> has_expense_category user_id name t
      \/ (cat_user_id r = user_id /\ cat_type r = "expense"%string /\ cat_name r = name).
Proof.
  unfold has_expense_category. split.
  - intros (x & Hin & Hx). apply in_app_or in Hin. destruct Hin as [Hin | [<- | []]].
    + left. eauto.
    + right. exact Hx.
  - intros [(x & Hin & Hx) | Hr].
    + exists x. split; [apply in_or_app; now left | exact Hx].
    + exists r. split; [apply in_or_app; right; now left | exact Hr].
Qed.

Lemma NoDup_snoc {A} (l : list A) x : NoDup l -> ~ In x l -> NoDup (l ++ [x]).
Proof.
  induction l as [| y l IH]; cbn; intros Hnd Hx.
  - constructor; [intros [] | constructor].
  - inversion Hnd as [| ? ? Hy Hl]; subst. constructor.
    + intros Hin. apply in_app_or in Hin. destruct Hin as [Hin | [<- | []]]; tauto.
    + apply IH; tauto.
Qed.

Lemma has_expense_category_prefix user_id name t added :
  has_expense_category user_id name t -> has_expense_category user_id name (t ++ added).
Proof.
  intros (r & Hin & Hr). exists r. split; [apply in_or_app; now left | exact Hr].
Qed.

Lemma seed_step_seeding user_id t0 state template :
  seeding user_id t0 state -> seeding user_id t0 (seed_step user_id state template).
Proof.
  destruct state as [names t]. intros [Hnames (added & Ht & Hnd & Hadded)].
  cbn [fst snd] in *. unfold seed_step.
  destruct (existsb _ names) eqn:He; [split; [assumption | eauto] |].
  assert (Hnew : ~ In (tpl_name template) names).
  { intros Hin. apply existsb_eqb_in in Hin. congruence. }
  split; cbn [fst snd].
  - intros name. rewrite has_expense_category_app.
    cbn [In category_of cat_user_id cat_type cat_name]. rewrite <- Hnames. intuition.
  - exists (added ++ [category_of user_id template t]).
    split; [now rewrite Ht, app_assoc |]. split.
    + rewrite map_app. cbn [map category_of cat_name]. apply NoDup_snoc; [assumption |].
      intros Hin. apply in_map_iff in Hin. destruct Hin as (r & Hn & Hin).
      apply Hnew, Hnames. exists r. destruct (Hadded r Hin) as (Hu & Hty & _).
      rewrite Ht. repeat split; auto. apply in_or_app. now right.
    + intros r Hin. apply in_app_or in Hin. destruct Hin as [Hin | [<- | []]]; [auto |].
      cbn [category_of cat_user_id cat_type cat_name]. repeat split.
      intros Hhas. apply Hnew, Hnames. rewrite Ht.
      now apply has_expense_category_prefix.
Qed.

Lemma fold_seeding user_id t0 templates : forall state,
  seeding user_id t0 state ->
  seeding user_id t0 (fold_left (seed_step user_id) templates state).
Proof.
  induction templates as [| tpl templates IH]; intros state Hs; cbn [fold_left];
    [assumption |].
  apply IH. now apply seed_step_seeding.
Qed.

Lemma seed_step_names user_id state template :
  In (tpl_name template) (fst (seed_step user_id state template))
  /\ forall name, In name (fst state) ->
                  In name (fst (seed_step user_id state template)).
Proof.
  destruct state as [names t]. unfold seed_step.
  destruct (existsb _ names) eqn:He; cbn [fst].
  - split; [now apply existsb_eqb_in | auto].
  - split; [now left | intros; now right].
Qed.

Lemma fold_names_keep user_id templates : forall state name,
  In name (fst state) ->
  In name (fst (fold_left (seed_step user_id) templates state)).
Proof.
  induction templates as [| tpl templates IH]; intros state name Hin; cbn [fold_left];
    [assumption |].
  apply IH. now apply (proj2 (seed_step_names user_id state tpl)).
Qed.

Lemma fold_names_all user_id templates : forall state tpl,
  In tpl templates ->
  In (tpl_name tpl) (fst (fold_left (seed_step user_id) templates state)).
Proof.
  induction templates as [| t0 templates IH]; intros state tpl Hin; [contradiction |].
  cbn [fold_left]. destruct Hin as [-> | Hin]; [| now apply IH].
  apply fold_names_keep. apply (proj1 (seed_step_names user_id state tpl)).
Qed.

Lemma fold_seeded user_id templates : forall state,
  (forall tpl, In tpl templates -> In (tpl_name tpl) (fst state)) ->
  fold_left (seed_step user_id) templates state = state.
Proof.
  induction templates as [| t0 templates IH]; intros state Hall; [reflexivity |].
  cbn [fold_left].
  assert (Hstep : seed_step user_id state t0 = state).
  { destruct state as [names t]. unfold seed_step.
    assert (He : existsb (String.eqb (tpl_name t0)) names = true).
    { apply existsb_eqb_in. apply (Hall t0). now left. }
    now rewrite He. }
  rewrite Hstep. apply IH. intros tpl Hin. apply Hall. now right.
Qed.

Lemma seeding_start user_id t : seeding user_id t (expense_names user_id t, t).
Proof.
  split; [intros name; apply expense_names_in |].
  exists []. rewrite app_nil_r. repeat split; [constructor | contradiction ..].
Qed.

(** What a seeding adds, and that it leaves nothing to add. *)
Lemma seed_default_categories_run user_id t :
  (exists added,
      seed_default_categories user_id t = t ++ added
      /\ NoDup (map cat_name added)
      /\ forall r, In r added ->
           cat_user_id r = user_id /\ cat_type r = "expense"%string
           /\ ~ has_expense_category user_id (cat_name r) t)
  /\ (forall tpl, In tpl get_default_expense_categories ->
        has_expense_category user_id (tpl_name tpl) (seed_default_categories user_id t))
  /\ seed_default_categories user_id (seed_default_categories user_id t)
     = seed_default_categories user_id t.
Proof.
  pose proof (fold_seeding user_id t get_default_expense_categories _
                (seeding_start user_id t)) as [Hnames Hadded].
  assert (Hall : forall tpl, In tpl get_default_expense_categories ->
            has_expense_category user_id (tpl_name tpl) (seed_default_categories user_id t)).
  { intros tpl Hin. apply Hnames. now apply fold_names_all. }
  split; [exact Hadded | split; [exact Hall |]].
  unfold seed_default_categories at 1.
  rewrite fold_seeded; [reflexivity |].
  intros tpl Hin. cbn [fst]. apply expense_names_in. now apply Hall.
Qed.

(** [seed_default_categories] keeps the rows of the table and appends
    rows for the user only, of type expense, under names the user did not
    have and no name twice; afterwards the user has an expense category
    for every default name; and seeding again changes nothing. *)
Theorem seed_default_categories_completes user_id t :
  (exists added,
      seed_default_categories user_id t = t ++ added
      /\ NoDup (map cat_name added)
      /\ forall r, In r added ->
           cat_user_id r = user_id /\ cat_type r = "expense"%string
           /\ ~ has_expense_category user_id (cat_name r) t)
  /\ (forall tpl, In tpl get_default_expense_categories ->
        has_expense_category user_id (tpl_name tpl) (seed_default_categories user_id t))
  /\ seed_default_categories user_id (seed_default_categories user_id t)
     = seed_default_categories user_id t.
Proof. apply seed_default_categories_run. Qed.

Lemma insert_sorted_in x y l : In y (insert_sorted x l) <-> y = x \/ In y l.
Proof.
  induction l as [| z l IH]; cbn; [intuition |].
  destruct (x <=? z); cbn; [intuition | rewrite IH; intuition].
Qed.

Lemma insert_sorted_length x l :
  List.length (insert_sorted x l) = S (List.length l).
Proof.
  induction l as [| z l IH]; cbn; [reflexivity |].
  destruct (x <=? z); cbn; [reflexivity | now rewrite IH].
Qed.

Lemma collect_user_ids_in users id :
  In id (_collect_user_ids users) <-> In id (map u_id users).
Proof.
  unfold _collect_user_ids. induction (map u_id users) as [| x l IH]; cbn; [tauto |].
  rewrite insert_sorted_in, IH. intuition.
Qed.

Lemma collect_user_ids_length users :
  List.length (_collect_user_ids users) = List.length users.
Proof.
  unfold _collect_user_ids. rewrite <- (length_map u_id users).
  induction (map u_id users) as [| x l IH]; cbn; [reflexivity |].
  now rewrite insert_sorted_length, IH.
Qed.

Lemma count_categories_added user_id t added :
  (forall r, In r added -> cat_user_id r = user_id) ->
  _count_categories user_id (t ++ added)
  = _count_categories user_id t + Z.of_nat (List.length added).
Proof.
  intros Hall. unfold _count_categories. rewrite filter_app, length_app.
  assert (Hf : filter (fun r => cat_user_id r =? user_id) added = added).
  { apply forallb_filter_id. apply forallb_forall. intros r Hr.
    apply Z.eqb_eq. auto. }
  rewrite Hf. lia.
Qed.

Lemma seed_each_cons id user_ids t total :
  seed_each (id :: user_ids) (t, total)
  = seed_each user_ids
      (seed_default_categories id t,
       total + (_count_categories id (seed_default_categories id t)
                - _count_categories id t)).
Proof. reflexivity. Qed.

Lemma seed_each_run user_ids : forall t total,
  (exists added, fst (seed_each user_ids (t, total)) = t ++ added)
  /\ snd (seed_each user_ids (t, total))
     = total + (Z.of_nat (List.length (fst (seed_each user_ids (t, total))))
                - Z.of_nat (List.length t))
  /\ (forall id tpl, In id user_ids -> In tpl get_default_expense_categories ->
        has_expense_category id (tpl_name tpl) (fst (seed_each user_ids (t, total)))).
Proof.
  induction user_ids as [| id user_ids IH]; intros t total.
  - cbn. split; [exists []; now rewrite app_nil_r |]. split; [lia | contradiction].
  - rewrite seed_each_cons.
    destruct (seed_default_categories_run id t) as ((added & Ht & _ & Hadded) & Hall & _).
    specialize (IH (seed_default_categories id t)
                  (total + (_count_categories id (seed_default_categories id t)
                            - _count_categories id t))).
    destruct (seed_each user_ids _) as [t' total']. cbn [fst snd] in *.
    destruct IH as ((added' & Ht') & Htotal & Hhas).
    split; [exists (added ++ added'); now rewrite Ht', Ht, app_assoc |]. split.
    + rewrite Ht in Htotal.
      rewrite count_categories_added in Htotal by (intros r Hr; now apply Hadded).
      rewrite length_app in Htotal. lia.
    + intros id' tpl [<- | Hin] Htpl; [| now apply Hhas].
      rewrite Ht'. apply has_expense_category_prefix. now apply Hall.
Qed.

Lemma seed_each_seeded user_ids : forall t total,
  (forall id tpl, In id user_ids -> In tpl get_default_expense_categories ->
     has_expense_category id (tpl_name tpl) t) ->
  seed_each user_ids (t, total) = (t, total).
Proof.
  induction user_ids as [| id user_ids IH]; intros t total Hall; [reflexivity |].
  rewrite seed_each_cons.
  assert (Hsame : seed_default_categories id t = t).
  { unfold seed_default_categories. rewrite fold_seeded; [reflexivity |].
    intros tpl Hin. cbn [fst]. apply expense_names_in. apply Hall; [now left | assumption]. }
  rewrite Hsame. replace (total + _) with total by lia.
  apply IH. intros id' tpl Hin. apply Hall. now right.
Qed.

(** [seed_all_users] reports that there is no user when there is none.
    Otherwise it reports the number of accounts and, as the number of
    categories added, exactly the number of rows by which the table grew;
    afterwards every user has every default category, and a second run
    adds nothing and reports zero. *)
Theorem seed_all_users_report users t :
  (users = [] -> seed_all_users users t = (t, NoUsers))
  /\ (users <> [] ->
      exists t' added,
        seed_all_users users t
        = (t', Updated (Z.of_nat (List.length users)) (Z.of_nat (List.length added)))
        /\ t' = t ++ added
        /\ (forall u tpl, In u users -> In tpl get_default_expense_categories ->
              has_expense_category (u_id u) (tpl_name tpl) t')
        /\ seed_all_users users t'
           = (t', Updated (Z.of_nat (List.length users)) 0)).
Proof.
  split; [intros ->; reflexivity |].
  intros Hne. unfold seed_all_users.
  pose proof (collect_user_ids_length users) as Hlen.
  pose proof (collect_user_ids_in users) as Hin.
  destruct (_collect_user_ids users) as [| id ids] eqn:Hids.
  { destruct users; [contradiction | discriminate]. }
  fold (seed_each (id :: ids) (t, 0)).
  pose proof (seed_each_run (id :: ids) t 0) as Hrun.
  destruct (seed_each (id :: ids) (t, 0)) as [t' total] eqn:Hseed.
  cbn [fst snd] in Hrun.
  destruct Hrun as ((added & Ht) & Htotal & Hhas).
  exists t', added. rewrite Hlen.
  assert (Htot : total = Z.of_nat (List.length added)).
  { rewrite Htotal, Ht, length_app. lia. }
  rewrite Htot. split; [reflexivity |]. split; [assumption |]. split.
  - intros u tpl Hu Htpl. apply Hhas; [| assumption].
    apply Hin. now apply in_map.
  - fold (seed_each (id :: ids) (t', 0)).
    rewrite seed_each_seeded by assumption. reflexivity.
Qed.
